(** * The agent's tool layer: [agent/src/tools.py]

    A shallow embedding of the data fetchers and presentation adapters of
    [tools.py], and the properties of them that the specification states.

    The module talks to three HTTP providers through [requests] and works on
    the decoded JSON bodies with ordinary Python operations.  The embedding
    has three layers:

    - [Py]: the JSON-decoded Python values and the Python operations the
      module applies to them (truth value, [==], subscription, [dict.get],
      [len], iteration, [str]/[repr]);
    - [prog]: programs that issue HTTP GET requests, log and raise, with
      [try]/[except] and an interpreter [run] against a provider;
    - the functions of [tools.py], one definition per Python function,
      under the names they have there.

    The best-match utility [get_most_similar] calls into scikit-learn,
    numpy and [difflib]: the scoring and the sort are parameters of its
    embedding, and [SequenceMatcher] is embedded as [difflib] documents
    it. *)

From Stdlib Require Import String Ascii List ZArith QArith Bool Lia DecimalString.
From Stdlib Require Import Sorted Permutation.
Import ListNotations.
Local Open Scope list_scope.
Local Open Scope string_scope.
Local Close Scope Q_scope.
Set Warnings "-register-all".

(** ** Python values *)

(** What [response.json()] hands to the module: [None], booleans, integers,
    strings, lists and dictionaries (insertion-ordered, keyed by strings).
    Fractional JSON numbers are left out of the model; text is taken as
    ASCII.  A dictionary is the list of its items in insertion order; its
    keys are distinct in every value a JSON decoder produces. *)
Inductive pyval : Type :=
| PNone
| PBool (b : bool)
| PInt (n : Z)
| PStr (s : string)
| PList (items : list pyval)
| PDict (items : list (string * pyval)).

(** The exceptions the module can meet.  [ConnectionError] stands for what
    [requests.get] itself raises (no response: connection error, timeout);
    [HTTPError] is what [raise_for_status] raises; [JSONDecodeError] is
    what [response.json()] raises on a body that is not JSON.  These three
    are subclasses of [requests.exceptions.RequestException] (and
    [JSONDecodeError] of [ValueError] as well); the others are not. *)
Inductive exn : Type :=
| ConnectionError
| HTTPError (status_code : Z)
| JSONDecodeError
| KeyError (key : pyval)
| IndexError
| TypeError
| ValueError (msg : string)
| AttributeError.

Definition is_RequestException (e : exn) : bool :=
  match e with
  | ConnectionError | HTTPError _ | JSONDecodeError => true
  | _ => false
  end.

(** The outcome of a Python expression or call: a value or a raised
    exception. *)
Inductive result (A : Type) : Type :=
| Returned (a : A)
| Raised (e : exn).
Arguments Returned {A} a.
Arguments Raised {A} e.

Module Py.

Definition is_None (v : pyval) : bool :=
  match v with PNone => true | _ => false end.

(** [bool(v)], as [if v], [if not v] and [x if v else y] test it. *)
Definition truthy (v : pyval) : bool :=
  match v with
  | PNone => false
  | PBool b => b
  | PInt n => negb (Z.eqb n 0)
  | PStr s => negb (String.eqb s EmptyString)
  | PList l => match l with [] => false | _ :: _ => true end
  | PDict d => match d with [] => false | _ :: _ => true end
  end.

Fixpoint dict_lookup (k : string) (d : list (string * pyval)) : option pyval :=
  match d with
  | [] => None
  | (k', v) :: d' => if String.eqb k k' then Some v else dict_lookup k d'
  end.

(** [a == b].  [bool] is a subclass of [int] ([True == 1]); dictionaries
    compare as maps, whatever the order of their items. *)
Fixpoint eq (a b : pyval) {struct a} : bool :=
  match a, b with
  | PNone, PNone => true
  | PBool x, PBool y => Bool.eqb x y
  | PBool x, PInt n => Z.eqb (Z.b2z x) n
  | PInt n, PBool x => Z.eqb n (Z.b2z x)
  | PInt m, PInt n => Z.eqb m n
  | PStr s, PStr t => String.eqb s t
  | PList l, PList m =>
      (fix all2 (l m : list pyval) {struct l} : bool :=
         match l, m with
         | [], [] => true
         | x :: l', y :: m' => eq x y && all2 l' m'
         | _, _ => false
         end) l m
  | PDict d, PDict e =>
      Nat.eqb (length d) (length e)
      && forallb (fun kv => match kv with
                            | (k, v) => match dict_lookup k e with
                                        | Some v' => eq v v'
                                        | None => false
                                        end
                            end) d
  | _, _ => false
  end.

(** An index as [list] and [str] subscription read it. *)
Definition as_index (k : pyval) : option Z :=
  match k with
  | PInt i => Some i
  | PBool b => Some (Z.b2z b)
  | _ => None
  end.

(** [seq[i]] for a sequence of known items: negative indices count from
    the end, an index out of range finds nothing. *)
Definition seq_index {A : Type} (l : list A) (i : Z) : option A :=
  let n := Z.of_nat (length l) in
  let j := if Z.ltb i 0 then (i + n)%Z else i in
  if Z.leb 0 j && Z.ltb j n then nth_error l (Z.to_nat j) else None.

Definition chars (s : string) : list pyval :=
  map (fun c => PStr (String c EmptyString)) (list_ascii_of_string s).

(** [c[k]]. *)
Definition getitem (c k : pyval) : result pyval :=
  match c with
  | PDict d =>
      match k with
      | PStr s => match dict_lookup s d with
                  | Some v => Returned v
                  | None => Raised (KeyError k)
                  end
      | PList _ | PDict _ => Raised TypeError (* unhashable key *)
      | _ => Raised (KeyError k)
      end
  | PList l =>
      match as_index k with
      | Some i => match seq_index l i with
                  | Some v => Returned v
                  | None => Raised IndexError
                  end
      | None => Raised TypeError
      end
  | PStr s =>
      match as_index k with
      | Some i => match seq_index (chars s) i with
                  | Some v => Returned v
                  | None => Raised IndexError
                  end
      | None => Raised TypeError
      end
  | PNone | PBool _ | PInt _ => Raised TypeError (* not subscriptable *)
  end.

(** [c.get(k, default)]; only dictionaries have the method. *)
Definition get (c : pyval) (k : string) (default : pyval) : result pyval :=
  match c with
  | PDict d => Returned (match dict_lookup k d with
                         | Some v => v
                         | None => default
                         end)
  | _ => Raised AttributeError
  end.

(** [len(v)]. *)
Definition len (v : pyval) : result Z :=
  match v with
  | PList l => Returned (Z.of_nat (length l))
  | PDict d => Returned (Z.of_nat (length d))
  | PStr s => Returned (Z.of_nat (String.length s))
  | PNone | PBool _ | PInt _ => Raised TypeError
  end.

(** The items [for item in v] goes through. *)
Definition iter (v : pyval) : result (list pyval) :=
  match v with
  | PList l => Returned l
  | PDict d => Returned (map (fun kv => PStr (fst kv)) d)
  | PStr s => Returned (chars s)
  | PNone | PBool _ | PInt _ => Raised TypeError
  end.

(** *** [str] and [repr] *)

Definition dquote : ascii := ascii_of_nat 34.
Definition squote : ascii := ascii_of_nat 39.
Definition backslash : ascii := ascii_of_nat 92.

Fixpoint has_char (c : ascii) (s : string) : bool :=
  match s with
  | EmptyString => false
  | String c' s' => Ascii.eqb c c' || has_char c s'
  end.

Definition hex_digit (n : nat) : ascii :=
  ascii_of_nat (if Nat.ltb n 10 then 48 + n else 87 + n).

(** One character inside the quotes [q] of a [repr]. *)
Definition repr_char (q c : ascii) : string :=
  let n := nat_of_ascii c in
  if Ascii.eqb c q || Ascii.eqb c backslash then String backslash (String c EmptyString)
  else if Nat.eqb n 9 then String backslash "t"
  else if Nat.eqb n 10 then String backslash "n"
  else if Nat.eqb n 13 then String backslash "r"
  else if Nat.ltb n 32 || Nat.eqb n 127 then
    String backslash (String "x" (String (hex_digit (n / 16)) (String (hex_digit (n mod 16)) EmptyString)))
  else String c EmptyString.

Fixpoint repr_chars (q : ascii) (s : string) : string :=
  match s with
  | EmptyString => EmptyString
  | String c s' => repr_char q c ++ repr_chars q s'
  end.

(** [repr(s)] of a string: single quotes, unless the text has a single
    quote and no double quote. *)
Definition repr_str (s : string) : string :=
  let q := if has_char squote s && negb (has_char dquote s) then dquote else squote in
  String q (repr_chars q s ++ String q EmptyString).

Definition str_of_int (n : Z) : string := NilZero.string_of_int (Z.to_int n).

Fixpoint join (sep : string) (l : list string) : string :=
  match l with
  | [] => EmptyString
  | [x] => x
  | x :: l' => x ++ sep ++ join sep l'
  end.

Fixpoint repr (v : pyval) : string :=
  match v with
  | PNone => "None"
  | PBool true => "True"
  | PBool false => "False"
  | PInt n => str_of_int n
  | PStr s => repr_str s
  | PList l => "[" ++ join ", " (map repr l) ++ "]"
  | PDict d =>
      "{" ++ join ", " (map (fun kv => match kv with
                                       | (k, x) => repr_str k ++ ": " ++ repr x
                                       end) d) ++ "}"
  end.

(** [str(v)], which is also how an f-string and [str.format] render a
    field with no format spec. *)
Definition str (v : pyval) : string :=
  match v with
  | PStr s => s
  | _ => repr v
  end.

End Py.


(** ** HTTP, as [requests] shows it to the module *)

(** A GET request: the URL and the [params] dictionary passed with it. *)
Record request : Type := GET {
  url : string;
  params : list (string * pyval)
}.

(** The body of a response, as [response.json()] finds it: JSON text, with
    the value it decodes to; text that is not JSON; or JSON text with an
    integer literal longer than the interpreter converts (4300 digits by
    default), with the message of the [ValueError] the decoder raises. *)
Inductive body : Type :=
| JsonText (v : pyval)
| NotJson
| IntegerTooLong (msg : string).

(** A response object: [response.status_code] and its body. *)
Record response : Type := Response {
  status_code : Z;
  content : body
}.

(** [response.json()]. *)
Definition json (r : response) : result pyval :=
  match content r with
  | JsonText v => Returned v
  | NotJson => Raised JSONDecodeError
  | IntegerTooLong msg => Raised (ValueError msg)
  end.

(** A response whose body is the JSON text of [v]. *)
Definition json_response (status : Z) (v : pyval) : response :=
  Response status (JsonText v).

(** What one call of [requests.get] comes to: it raises (no response was
    obtained), or it returns a response object. *)
Inductive http_outcome : Type :=
| NoResponse
| Responded (r : response).

(** The provider: its answer to each request.  One provider state answers a
    given request the same way every time. *)
Definition provider : Type := request -> http_outcome.

(** [Response.raise_for_status] of [requests] raises [HTTPError] for the
    client-error and server-error classes, 400 to 599, and for no other
    status code. *)
Definition is_error_status (s : Z) : bool :=
  Z.leb 400 s && Z.ltb s 600.

Definition is_2xx (s : Z) : bool :=
  Z.leb 200 s && Z.ltb s 300.

(** A transport failure: no response, or a status [raise_for_status]
    rejects; and the [RequestException] it is raised as. *)
Definition transport_failure (o : http_outcome) : bool :=
  match o with
  | NoResponse => true
  | Responded r => is_error_status (status_code r)
  end.

Definition transport_exn (o : http_outcome) : exn :=
  match o with
  | NoResponse => ConnectionError
  | Responded r => HTTPError (status_code r)
  end.

(** ** Programs *)

(** The effects of the module are HTTP GET requests and [logging.error]
    records; a function of the module is a tree of them that ends in a
    return or a raise. *)
Inductive prog (A : Type) : Type :=
| Ret (a : A)
| Raise (e : exn)
| Get (r : request) (k : http_outcome -> prog A)
| LogError (msg : string) (e : exn) (k : prog A).
Arguments Ret {A} a.
Arguments Raise {A} e.
Arguments Get {A} r k.
Arguments LogError {A} msg e k.

Fixpoint bind {A B : Type} (p : prog A) (f : A -> prog B) : prog B :=
  match p with
  | Ret a => f a
  | Raise e => Raise e
  | Get r k => Get r (fun o => bind (k o) f)
  | LogError msg e k => LogError msg e (bind k f)
  end.

Notation "x <- p ;; q" := (bind p (fun x => q))
  (at level 61, p at next level, right associativity).
Notation "' pat <- p ;; q" := (bind p (fun x => match x with pat => q end))
  (at level 61, pat pattern, p at next level, right associativity).
Notation "p ;; q" := (bind p (fun _ => q))
  (at level 61, right associativity).

(** A pure Python expression inside a program. *)
Definition lift {A : Type} (r : result A) : prog A :=
  match r with
  | Returned a => Ret a
  | Raised e => Raise e
  end.

(** [try: p  except ...: h]: the handler [h] says, for the exception
    raised, what the matching [except] clause runs; [None] when no clause
    matches and the exception goes on to the caller. *)
Fixpoint try_except {A : Type} (p : prog A) (h : exn -> option (prog A)) : prog A :=
  match p with
  | Ret a => Ret a
  | Raise e => match h e with
               | Some q => q
               | None => Raise e
               end
  | Get r k => Get r (fun o => try_except (k o) h)
  | LogError msg e k => LogError msg e (try_except k h)
  end.

(** What a run leaves behind, in order. *)
Inductive event : Type :=
| EvGet (r : request)
| EvLog (msg : string) (e : exn).

(** Running a program against a provider: the events, and how it ended. *)
Fixpoint run {A : Type} (w : provider) (p : prog A) : list event * result A :=
  match p with
  | Ret a => ([], Returned a)
  | Raise e => ([], Raised e)
  | Get r k => let (t, x) := run w (k (w r)) in (EvGet r :: t, x)
  | LogError msg e k => let (t, x) := run w k in (EvLog msg e :: t, x)
  end.

Definition trace {A : Type} (w : provider) (p : prog A) : list event := fst (run w p).
Definition outcome {A : Type} (w : provider) (p : prog A) : result A := snd (run w p).

(** The requests among the events of a run. *)
Fixpoint requests_of (t : list event) : list request :=
  match t with
  | [] => []
  | EvGet r :: t' => r :: requests_of t'
  | EvLog _ _ :: t' => requests_of t'
  end.

(** *** The calls into [requests] *)

(** [requests.get(url, params=params)]. *)
Definition requests_get (url : string) (params : list (string * pyval)) : prog response :=
  Get (GET url params)
      (fun o => match o with
                | NoResponse => Raise ConnectionError
                | Responded r => Ret r
                end).

(** [response.raise_for_status()]. *)
Definition raise_for_status (r : response) : prog unit :=
  if is_error_status (status_code r) then Raise (HTTPError (status_code r)) else Ret tt.

(** [except requests.exceptions.RequestException as e:
       logging.error(f"<msg>{str(e)}"); raise]
    the clause every fetcher ends with. *)
Definition log_and_reraise {A : Type} (msg : string) (e : exn) : option (prog A) :=
  if is_RequestException e then Some (LogError msg e (Raise e)) else None.

(** ** Configuration *)

(** A message template as [str.format] reads it: literal text and
    replacement fields named by keyword.  The fields of the templates carry
    no conversion and no format spec, so a field renders as [str] of its
    argument. *)
Inductive segment : Type :=
| Text (s : string)
| Field (name : string).

Definition template : Type := list segment.

(** [tpl.format(name=value, ...)]: a field whose name is not among the
    keyword arguments raises [KeyError]. *)
Fixpoint str_format (tpl : template) (kwargs : list (string * pyval)) : result string :=
  match tpl with
  | [] => Returned EmptyString
  | Text s :: tpl' =>
      match str_format tpl' kwargs with
      | Returned rest => Returned (s ++ rest)
      | Raised e => Raised e
      end
  | Field name :: tpl' =>
      match Py.dict_lookup name kwargs with
      | None => Raised (KeyError (PStr name))
      | Some v =>
          match str_format tpl' kwargs with
          | Returned rest => Returned (Py.str v ++ rest)
          | Raised e => Raised e
          end
      end
  end.

Fixpoint fields (tpl : template) : list string :=
  match tpl with
  | [] => []
  | Text _ :: tpl' => fields tpl'
  | Field name :: tpl' => name :: fields tpl'
  end.

(** Modelled from the spec: [tools.py] imports [Config] from a [config]
    module that is not among the sources.  The spec says the three base
    URLs are configured externally and that the failure and API-error
    messages are fixed strings; the attributes [tools.py] reads are taken
    as parameters, the success messages as templates. *)
Record Config : Type := {
  BLOCKCHAIN_API_URL : string;
  COINGECKO_BASE_URL : string;
  DEFILLAMA_BASE_URL : string;
  PRICE_SUCCESS_MESSAGE : template;
  PRICE_FAILURE_MESSAGE : string;
  FLOOR_PRICE_SUCCESS_MESSAGE : template;
  FLOOR_PRICE_FAILURE_MESSAGE : string;
  TVL_SUCCESS_MESSAGE : template;
  TVL_FAILURE_MESSAGE : string;
  FDV_SUCCESS_MESSAGE : template;
  FDV_FAILURE_MESSAGE : string;
  MARKET_CAP_SUCCESS_MESSAGE : template;
  MARKET_CAP_FAILURE_MESSAGE : string;
  API_ERROR_MESSAGE : string
}.

(** ** The data fetchers *)

Section Fetchers.

Variable cfg : Config.

Definition get_wallet_balance (wallet_address blockchain : string) : prog pyval :=
  let url := BLOCKCHAIN_API_URL cfg ++ "/" ++ blockchain ++ "/wallet/" ++ wallet_address ++ "/balance" in
  try_except
    (response <- requests_get url [] ;;
     raise_for_status response ;;
     data <- lift (json response) ;;
     balance <- lift (Py.getitem data (PStr "balance")) ;;
     Ret balance)
    (log_and_reraise "Failed to retrieve wallet balance: ").

Definition get_transaction_history (wallet_address blockchain : string) : prog pyval :=
  let url := BLOCKCHAIN_API_URL cfg ++ "/" ++ blockchain ++ "/wallet/" ++ wallet_address ++ "/transactions" in
  try_except
    (response <- requests_get url [] ;;
     raise_for_status response ;;
     data <- lift (json response) ;;
     transactions <- lift (Py.getitem data (PStr "transactions")) ;;
     Ret transactions)
    (log_and_reraise "Failed to retrieve transaction history: ").

Definition get_gas_fees (blockchain : string) : prog pyval :=
  let url := BLOCKCHAIN_API_URL cfg ++ "/" ++ blockchain ++ "/gas-fees" in
  try_except
    (response <- requests_get url [] ;;
     raise_for_status response ;;
     data <- lift (json response) ;;
     fees <- lift (Py.getitem data (PStr "fees")) ;;
     Ret fees)
    (log_and_reraise "Failed to retrieve gas fees: ").

Definition get_token_metadata (token_id blockchain : string) : prog pyval :=
  let url := BLOCKCHAIN_API_URL cfg ++ "/" ++ blockchain ++ "/tokens/" ++ token_id ++ "/metadata" in
  try_except
    (response <- requests_get url [] ;;
     raise_for_status response ;;
     metadata <- lift (json response) ;;
     Ret metadata)
    (log_and_reraise "Failed to retrieve token metadata: ").

(** The name resolver.  [type] is the string the caller passes; the test
    of each conditional expression is evaluated before its branch. *)
Definition get_coingecko_id (text type : string) : prog pyval :=
  let url := COINGECKO_BASE_URL cfg ++ "/search" in
  let params := [("query", PStr text)] in
  try_except
    (response <- requests_get url params ;;
     raise_for_status response ;;
     data <- lift (json response) ;;
     if String.eqb type "coin" then
       coins <- lift (Py.getitem data (PStr "coins")) ;;
       if Py.truthy coins then
         coins <- lift (Py.getitem data (PStr "coins")) ;;
         first <- lift (Py.getitem coins (PInt 0)) ;;
         lift (Py.getitem first (PStr "id"))
       else Ret PNone
     else if String.eqb type "nft" then
       nfts <- lift (Py.get data "nfts" PNone) ;;
       if Py.truthy nfts then
         nfts <- lift (Py.getitem data (PStr "nfts")) ;;
         first <- lift (Py.getitem nfts (PInt 0)) ;;
         lift (Py.getitem first (PStr "id"))
       else Ret PNone
     else Raise (ValueError "Invalid type specified"))
    (log_and_reraise "API request failed: ").

Definition get_price (coin : string) : prog pyval :=
  coin_id <- get_coingecko_id coin "coin" ;;
  if negb (Py.truthy coin_id) then Ret PNone
  else
    let url := COINGECKO_BASE_URL cfg ++ "/simple/price" in
    let params := [("ids", coin_id); ("vs_currencies", PStr "USD")] in
    try_except
      (response <- requests_get url params ;;
       raise_for_status response ;;
       data <- lift (json response) ;;
       entry <- lift (Py.getitem data coin_id) ;;
       lift (Py.getitem entry (PStr "usd")))
      (log_and_reraise "Failed to retrieve price: ").

(** [nft] is the NFT name, a string, so [str(nft)] is [nft]. *)
Definition get_floor_price (nft : string) : prog pyval :=
  nft_id <- get_coingecko_id nft "nft" ;;
  if negb (Py.truthy nft_id) then Ret PNone
  else
    let url := COINGECKO_BASE_URL cfg ++ "/nfts/" ++ Py.str nft_id in
    try_except
      (response <- requests_get url [] ;;
       raise_for_status response ;;
       data <- lift (json response) ;;
       floor_price <- lift (Py.getitem data (PStr "floor_price")) ;;
       lift (Py.getitem floor_price (PStr "usd")))
      (log_and_reraise "Failed to retrieve floor price: ").

Definition get_fdv (coin : string) : prog pyval :=
  coin_id <- get_coingecko_id coin "coin" ;;
  if negb (Py.truthy coin_id) then Ret PNone
  else
    let url := COINGECKO_BASE_URL cfg ++ "/coins/" ++ Py.str coin_id in
    try_except
      (response <- requests_get url [] ;;
       raise_for_status response ;;
       data <- lift (json response) ;;
       market_data <- lift (Py.get data "market_data" (PDict [])) ;;
       valuation <- lift (Py.get market_data "fully_diluted_valuation" (PDict [])) ;;
       lift (Py.get valuation "usd" PNone))
      (log_and_reraise "Failed to retrieve FDV: ").

Definition get_market_cap (coin : string) : prog pyval :=
  coin_id <- get_coingecko_id coin "coin" ;;
  if negb (Py.truthy coin_id) then Ret PNone
  else
    let url := COINGECKO_BASE_URL cfg ++ "/coins/markets" in
    let params := [("ids", coin_id); ("vs_currency", PStr "USD")] in
    try_except
      (response <- requests_get url params ;;
       raise_for_status response ;;
       data <- lift (json response) ;;
       first <- lift (Py.getitem data (PInt 0)) ;;
       lift (Py.getitem first (PStr "market_cap")))
      (log_and_reraise "Failed to retrieve market cap: ").

(** [[item[key] for item in items]]: the first item without the key ends
    the comprehension. *)
Fixpoint comprehension (key : string) (items : list pyval) : result (list pyval) :=
  match items with
  | [] => Returned []
  | item :: items' =>
      match Py.getitem item (PStr key) with
      | Raised e => Raised e
      | Returned v =>
          match comprehension key items' with
          | Raised e => Raised e
          | Returned vs => Returned (v :: vs)
          end
      end
  end.

(** Returns the pair of lists: the slugs, and the [gecko_id]s. *)
Definition get_protocols_list : prog (list pyval * list pyval) :=
  let url := DEFILLAMA_BASE_URL cfg ++ "/protocols" in
  try_except
    (response <- requests_get url [] ;;
     raise_for_status response ;;
     data <- lift (json response) ;;
     items <- lift (Py.iter data) ;;
     slugs <- lift (comprehension "slug" items) ;;
     items <- lift (Py.iter data) ;;
     gecko_ids <- lift (comprehension "gecko_id" items) ;;
     Ret (slugs, gecko_ids))
    (log_and_reraise "Failed to retrieve protocols list: ").

(** [next((i for i, j in zip(id, gecko) if j == tag), None)]. *)
Definition next_match (id gecko : list pyval) (tag : pyval) : pyval :=
  match find (fun ij => Py.eq (snd ij) tag) (combine id gecko) with
  | Some ij => fst ij
  | None => PNone
  end.

Definition get_protocol_tvl (protocol_name : string) : prog pyval :=
  '(id, gecko) <- get_protocols_list ;;
  tag <- get_coingecko_id protocol_name "coin" ;;
  if negb (Py.truthy tag) then Ret PNone
  else
    let protocol_id := next_match id gecko tag in
    if negb (Py.truthy protocol_id) then Ret PNone
    else
      let url := DEFILLAMA_BASE_URL cfg ++ "/tvl/" ++ Py.str protocol_id in
      try_except
        (response <- requests_get url [] ;;
         raise_for_status response ;;
         payload <- lift (json response) ;;
         Ret payload)
        (log_and_reraise "Failed to retrieve protocol TVL: ").

End Fetchers.

(** ** The presentation adapters *)

Section Adapters.

Variable cfg : Config.

(** [except requests.exceptions.RequestException: return msg]. *)
Definition return_on_RequestException (msg : string) (e : exn) : option (prog string) :=
  if is_RequestException e then Some (Ret msg) else None.

(** [except Exception as e: logging.error(f"<log>{str(e)}"); return msg]. *)
Definition log_and_return_on_Exception (log msg : string) (e : exn) : option (prog string) :=
  Some (LogError log e (Ret msg)).

Definition get_wallet_balance_tool (wallet_address blockchain : string) : prog string :=
  try_except
    (balance <- get_wallet_balance cfg wallet_address blockchain ;;
     if Py.is_None balance then Ret "Failed to retrieve wallet balance."
     else Ret ("Wallet balance for " ++ wallet_address ++ " on " ++ blockchain ++ ": " ++ Py.str balance))
    (return_on_RequestException "API error occurred while retrieving wallet balance.").

Definition get_gas_fees_tool (blockchain : string) : prog string :=
  try_except
    (fees <- get_gas_fees cfg blockchain ;;
     if Py.is_None fees then Ret "Failed to retrieve gas fees."
     else Ret ("Current gas fees on " ++ blockchain ++ ": " ++ Py.str fees))
    (return_on_RequestException "API error occurred while retrieving gas fees.").

Definition get_token_metadata_tool (token_id blockchain : string) : prog string :=
  try_except
    (metadata <- get_token_metadata cfg token_id blockchain ;;
     if Py.is_None metadata then Ret "Failed to retrieve token metadata."
     else Ret ("Metadata for token " ++ token_id ++ " on " ++ blockchain ++ ": " ++ Py.str metadata))
    (log_and_return_on_Exception "Failed to retrieve token metadata: "
       "API error occurred while retrieving token metadata.").

(** [transactions is None or len(transactions) == 0]: [len] is called only
    when the value is not [None]. *)
Definition none_or_empty (transactions : pyval) : result bool :=
  if Py.is_None transactions then Returned true
  else match Py.len transactions with
       | Returned n => Returned (Z.eqb n 0)
       | Raised e => Raised e
       end.

Definition get_transaction_history_tool (wallet_address blockchain : string) : prog string :=
  try_except
    (transactions <- get_transaction_history cfg wallet_address blockchain ;;
     no_transactions <- lift (none_or_empty transactions) ;;
     if (no_transactions : bool) then Ret "No transactions found for this address."
     else Ret ("Transaction history for " ++ wallet_address ++ " on " ++ blockchain ++ ": "
               ++ Py.str transactions))
    (log_and_return_on_Exception "Failed to retrieve transaction history: "
       "API error occurred while retrieving transaction history.").

Definition get_coin_price_tool (coin_name : string) : prog string :=
  try_except
    (price <- get_price cfg coin_name ;;
     if Py.is_None price then Ret (PRICE_FAILURE_MESSAGE cfg)
     else lift (str_format (PRICE_SUCCESS_MESSAGE cfg)
                  [("coin_name", PStr coin_name); ("price", price)]))
    (return_on_RequestException (API_ERROR_MESSAGE cfg)).

Definition get_nft_floor_price_tool (nft_name : string) : prog string :=
  try_except
    (floor_price <- get_floor_price cfg nft_name ;;
     if Py.is_None floor_price then Ret (FLOOR_PRICE_FAILURE_MESSAGE cfg)
     else lift (str_format (FLOOR_PRICE_SUCCESS_MESSAGE cfg)
                  [("nft_name", PStr nft_name); ("floor_price", floor_price)]))
    (return_on_RequestException (API_ERROR_MESSAGE cfg)).

Definition get_protocol_total_value_locked_tool (protocol_name : string) : prog string :=
  try_except
    (tvl <- get_protocol_tvl cfg protocol_name ;;
     if Py.is_None tvl then Ret (TVL_FAILURE_MESSAGE cfg)
     else lift (str_format (TVL_SUCCESS_MESSAGE cfg)
                  [("protocol_name", PStr protocol_name); ("tvl", tvl)]))
    (return_on_RequestException (API_ERROR_MESSAGE cfg)).

Definition get_fully_diluted_valuation_tool (coin_name : string) : prog string :=
  try_except
    (fdv <- get_fdv cfg coin_name ;;
     if Py.is_None fdv then Ret (FDV_FAILURE_MESSAGE cfg)
     else lift (str_format (FDV_SUCCESS_MESSAGE cfg)
                  [("coin_name", PStr coin_name); ("fdv", fdv)]))
    (return_on_RequestException (API_ERROR_MESSAGE cfg)).

Definition get_coin_market_cap_tool (coin_name : string) : prog string :=
  try_except
    (market_cap <- get_market_cap cfg coin_name ;;
     if Py.is_None market_cap then Ret (MARKET_CAP_FAILURE_MESSAGE cfg)
     else lift (str_format (MARKET_CAP_SUCCESS_MESSAGE cfg)
                  [("coin_name", PStr coin_name); ("market_cap", market_cap)]))
    (return_on_RequestException (API_ERROR_MESSAGE cfg)).

(** ** The tool registry *)

(** One invocation of a registered tool, in the order of [get_tools], with
    the arguments of its input schema. *)
Inductive invocation : Type :=
| Price (coin : string)
| FloorPrice (nft : string)
| TVL (protocol : string)
| FDV (coin : string)
| MarketCap (coin : string)
| WalletBalance (wallet_address blockchain : string)
| GasFees (blockchain : string)
| TokenMetadata (token_id blockchain : string)
| TransactionHistory (wallet_address blockchain : string).

(** The name each tool is registered under. *)
Definition tool_name (i : invocation) : string :=
  match i with
  | Price _ => "get_price"
  | FloorPrice _ => "get_floor_price"
  | TVL _ => "get_tvl"
  | FDV _ => "get_fdv"
  | MarketCap _ => "get_market_cap"
  | WalletBalance _ _ => "get_wallet_balance"
  | GasFees _ => "get_gas_fees"
  | TokenMetadata _ _ => "get_token_metadata"
  | TransactionHistory _ _ => "get_transaction_history"
  end.

(** The [func] of each tool: its adapter. *)
Definition adapter (i : invocation) : prog string :=
  match i with
  | Price coin => get_coin_price_tool coin
  | FloorPrice nft => get_nft_floor_price_tool nft
  | TVL protocol => get_protocol_total_value_locked_tool protocol
  | FDV coin => get_fully_diluted_valuation_tool coin
  | MarketCap coin => get_coin_market_cap_tool coin
  | WalletBalance a b => get_wallet_balance_tool a b
  | GasFees b => get_gas_fees_tool b
  | TokenMetadata t b => get_token_metadata_tool t b
  | TransactionHistory a b => get_transaction_history_tool a b
  end.

(** The fetcher each adapter calls. *)
Definition fetcher (i : invocation) : prog pyval :=
  match i with
  | Price coin => get_price cfg coin
  | FloorPrice nft => get_floor_price cfg nft
  | TVL protocol => get_protocol_tvl cfg protocol
  | FDV coin => get_fdv cfg coin
  | MarketCap coin => get_market_cap cfg coin
  | WalletBalance a b => get_wallet_balance cfg a b
  | GasFees b => get_gas_fees cfg b
  | TokenMetadata t b => get_token_metadata cfg t b
  | TransactionHistory a b => get_transaction_history cfg a b
  end.

(** The string each adapter returns from its [except] clause. *)
Definition api_error_message (i : invocation) : string :=
  match i with
  | Price _ | FloorPrice _ | TVL _ | FDV _ | MarketCap _ => API_ERROR_MESSAGE cfg
  | WalletBalance _ _ => "API error occurred while retrieving wallet balance."
  | GasFees _ => "API error occurred while retrieving gas fees."
  | TokenMetadata _ _ => "API error occurred while retrieving token metadata."
  | TransactionHistory _ _ => "API error occurred while retrieving transaction history."
  end.

(** The string each lookup-by-name adapter returns when its fetcher
    returns [None]. *)
Definition no_data_message (i : invocation) : string :=
  match i with
  | Price _ => PRICE_FAILURE_MESSAGE cfg
  | FloorPrice _ => FLOOR_PRICE_FAILURE_MESSAGE cfg
  | TVL _ => TVL_FAILURE_MESSAGE cfg
  | FDV _ => FDV_FAILURE_MESSAGE cfg
  | MarketCap _ => MARKET_CAP_FAILURE_MESSAGE cfg
  | WalletBalance _ _ => "Failed to retrieve wallet balance."
  | GasFees _ => "Failed to retrieve gas fees."
  | TokenMetadata _ _ => "Failed to retrieve token metadata."
  | TransactionHistory _ _ => "No transactions found for this address."
  end.

End Adapters.

(** ** The best-match utility *)

(** *** [difflib.SequenceMatcher] *)

(** [difflib] belongs to Python's standard library, not to the module;
    this is the algorithm its documentation describes, for
    [SequenceMatcher(None, a, b)]: no junk predicate, and the automatic
    junk heuristic left on.  Text is a list of characters; positions and
    lengths are natural numbers. *)
Module SequenceMatcher.

Section Matcher.

Variables a b : list ascii.

(** The popular elements: when [b] has 200 elements or more, those that
    occur in it more than [len(b) // 100 + 1] times.  They are left out of
    the index [b2j] of the positions of each element in [b]. *)
Definition bpopular (elt : ascii) : bool :=
  (200 <=? List.length b)%nat
  && (List.length b / 100 + 1 <? count_occ ascii_dec b elt)%nat.

(** [a[i] == b[j]], for positions of [a] and [b]. *)
Definition same (i j : nat) : bool :=
  match nth_error a i, nth_error b j with
  | Some x, Some y => Ascii.eqb x y
  | _, _ => false
  end.

(** A match [(i, j, k)]: [a[i:i+k] == b[j:j+k]]. *)
Definition Match : Type := (nat * nat * nat)%type.

(** The inner loop of [find_longest_match] for one position [i] of [a],
    with [x = a[i]]: it visits the positions [j] of [x] in [b] in
    increasing order ([bs] is [b[j:]]), keeps those in [blo <= j < bhi],
    sets [newj2len[j]] to [j2len.get(j-1, 0) + 1] and moves the best match
    when this is longer than it.  The dictionary [j2len] is kept as the row
    of its values from position [j] on, zero where it has no key, and
    [before] is [j2len.get(j-1, 0)]. *)
Fixpoint inner_loop (blo bhi i : nat) (x : ascii) (bs : list ascii) (j before : nat)
         (j2len : list nat) (best : Match) : list nat * Match :=
  match bs with
  | [] => ([], best)
  | y :: bs' =>
      let k := if (blo <=? j)%nat && (j <? bhi)%nat && Ascii.eqb x y && negb (bpopular y)
               then S before else 0 in
      let best' := let '(_, _, bestsize) := best in
                   if (bestsize <? k)%nat then (i + 1 - k, j + 1 - k, k) else best in
      let '(newj2len, best'') :=
        inner_loop blo bhi i x bs' (S j) (hd 0 j2len) (tl j2len) best' in
      (k :: newj2len, best'')
  end.

(** One turn of the outer loop, [for i in range(alo, ahi)]. *)
Definition outer_step (blo bhi : nat) (state : list nat * Match) (i : nat)
  : list nat * Match :=
  match nth_error a i with
  | Some x => inner_loop blo bhi i x b 0 0 (fst state) (snd state)
  | None => ([], snd state)
  end.

(** The two loops that extend the best match by equal elements on each
    side (popular elements included, which the index does not hold).  The
    loop to the right runs while [besti + bestsize < ahi]; [fuel] counts the
    positions left up to [ahi].  Without a junk predicate the two loops
    over junk elements that follow do nothing. *)
Fixpoint extend_left (alo blo besti bestj bestsize : nat) : Match :=
  match besti with
  | S i' =>
      if (alo <? besti)%nat && (blo <? bestj)%nat && same i' (bestj - 1)
      then extend_left alo blo i' (bestj - 1) (S bestsize)
      else (besti, bestj, bestsize)
  | 0 => (besti, bestj, bestsize)
  end.

Fixpoint extend_right (fuel ahi bhi besti bestj bestsize : nat) : nat :=
  match fuel with
  | S fuel' =>
      if (besti + bestsize <? ahi)%nat && (bestj + bestsize <? bhi)%nat
         && same (besti + bestsize) (bestj + bestsize)
      then extend_right fuel' ahi bhi besti bestj (S bestsize)
      else bestsize
  | 0 => bestsize
  end.

(** [find_longest_match(alo, ahi, blo, bhi)]: the longest matching block
    in [a[alo:ahi]] and [b[blo:bhi]], the one that starts earliest in [a]
    among the longest and earliest in [b] among those; [(alo, blo, 0)] when
    no element matches. *)
Definition find_longest_match (alo ahi blo bhi : nat) : Match :=
  let '(besti, bestj, bestsize) :=
    snd (fold_left (outer_step blo bhi) (seq alo (ahi - alo)) ([], (alo, blo, 0))) in
  let '(besti, bestj, bestsize) := extend_left alo blo besti bestj bestsize in
  (besti, bestj, extend_right (ahi - (besti + bestsize)) ahi bhi besti bestj bestsize).

(** The sizes of the blocks [get_matching_blocks] collects, summed: the
    longest match of the two ranges, then the same on the pieces to its
    left and to its right.  [fuel] bounds the depth of the recursion; the
    length of the range of [a] and one more is enough
    ([matching_enough_fuel]). *)
Fixpoint matching (fuel alo ahi blo bhi : nat) : nat :=
  match fuel with
  | S fuel' =>
      let '(i, j, k) := find_longest_match alo ahi blo bhi in
      if (k =? 0)%nat then 0
      else k
           + (if (alo <? i)%nat && (blo <? j)%nat then matching fuel' alo i blo j else 0)
           + (if (i + k <? ahi)%nat && (j + k <? bhi)%nat
              then matching fuel' (i + k) ahi (j + k) bhi else 0)
  | 0 => 0
  end.

Definition matches : nat :=
  matching (S (List.length a)) 0 (List.length a) 0 (List.length b).

End Matcher.

(** [SequenceMatcher(None, a, b).ratio()]: [2.0 * M / T] for [M] matches
    and [T] the number of elements of both sequences, [1.0] when both are
    empty.  The float is kept as the exact fraction: for texts of fewer
    than 2^25 characters two such fractions that differ are further apart
    than two neighbouring doubles, so that comparing the floats is
    comparing the fractions. *)
Definition ratio (a b : string) : Q :=
  let a := list_ascii_of_string a in
  let b := list_ascii_of_string b in
  let length := (List.length a + List.length b)%nat in
  if (length =? 0)%nat then 1%Q
  else (Z.of_nat (2 * matches a b) # Pos.of_nat length)%Q.

(** A match lies in the range of [a] from [alo] to [n]. *)
Definition within (alo n : nat) (m : Match) : Prop :=
  let '(i, _, k) := m in alo <= i /\ i + k <= n.

End SequenceMatcher.

(** *** [get_most_similar] *)

Section BestMatch.

(** The calls into scikit-learn and numpy, which are not the module's
    code.  [similarity_scores text data] is the row
    [cosine_similarity(text_vector, sentence_vectors)[0]] of the scores of
    [text] against each candidate, after [TfidfVectorizer] has been fitted
    on the candidates and has transformed them and the query, or the
    exception one of these calls raises; [argsort row] is numpy's
    [argsort] of that row. *)
Variable score : Type.
Variable similarity_scores : string -> list string -> result (list score).
Variable argsort : list score -> list nat.

(** The slice [l[-n:]]. *)
Definition last_n {A : Type} (n : nat) (l : list A) : list A :=
  skipn (List.length l - n) l.

(** [[data[item] for item in top_indices]]. *)
Fixpoint candidates_at (data : list string) (top_indices : list nat) : result (list string) :=
  match top_indices with
  | [] => Returned []
  | item :: rest =>
      match nth_error data item with
      | None => Raised IndexError
      | Some candidate =>
          match candidates_at data rest with
          | Returned res => Returned (candidate :: res)
          | Raised e => Raised e
          end
      end
  end.

(** [max(range(len(sim)), key=sim.__getitem__)]: [max] keeps the first
    index whose key no later key exceeds, and raises [ValueError] on an
    empty range.  [max_from sim i max_index max_val] goes on from index
    [i], with the greatest key so far and its index. *)
Fixpoint max_from (sim : list Q) (i max_index : nat) (max_val : Q) : nat :=
  match sim with
  | [] => max_index
  | val :: rest =>
      if Qlt_le_dec max_val val then max_from rest (S i) i val
      else max_from rest (S i) max_index max_val
  end.

Definition max_index_of (sim : list Q) : result nat :=
  match sim with
  | [] => Raised (ValueError "max() arg is an empty sequence")
  | val :: rest => Returned (max_from rest 1 0 val)
  end.

Definition get_most_similar (text : string) (data : list string) : result string :=
  match similarity_scores text data with
  | Raised e => Raised e
  | Returned scores =>
      let top_indices := rev (last_n 20 (argsort scores)) in
      match candidates_at data top_indices with
      | Raised e => Raised e
      | Returned res =>
          let sim := map (SequenceMatcher.ratio text) res in
          match max_index_of sim with
          | Raised e => Raised e
          | Returned max_index =>
              match nth_error res max_index with
              | Some candidate => Returned candidate
              | None => Raised IndexError
              end
          end
      end
  end.

End BestMatch.

(** The order of two candidates by their scores, for an order
    [score_le] of the scores: the candidates at [i] and [j] have scores,
    and that of [i] is at most that of [j]. *)
Definition rank_le {score : Type} (score_le : score -> score -> Prop) (scores : list score)
           (i j : nat) : Prop :=
  exists x y, nth_error scores i = Some x /\ nth_error scores j = Some y /\ score_le x y.

(** A scoring and a sort to run [get_most_similar] with: a candidate
    scores 1 when the query starts with it and 0 when not, and the indices
    are sorted by insertion, in ascending order of the scores. *)
Definition prefix_scores (text : string) (data : list string) : result (list nat) :=
  Returned (map (fun candidate => if String.prefix candidate text then 1 else 0) data).

Fixpoint insert_by (row : list nat) (i : nat) (sorted : list nat) : list nat :=
  match sorted with
  | [] => [i]
  | j :: rest =>
      if (nth i row 0 <=? nth j row 0)%nat then i :: sorted
      else j :: insert_by row i rest
  end.

Definition stable_argsort (row : list nat) : list nat :=
  fold_right (insert_by row) [] (seq 0 (List.length row)).

(** ** The requests the fetchers make *)

Definition search_request (cfg : Config) (text : string) : request :=
  GET (COINGECKO_BASE_URL cfg ++ "/search") [("query", PStr text)].

Definition protocols_request (cfg : Config) : request :=
  GET (DEFILLAMA_BASE_URL cfg ++ "/protocols") [].

Definition tvl_request (cfg : Config) (protocol_id : pyval) : request :=
  GET (DEFILLAMA_BASE_URL cfg ++ "/tvl/" ++ Py.str protocol_id) [].

(** The lookup-by-name tools: the name they resolve and the kind they
    resolve it as. *)
Definition lookup_by_name (i : invocation) : option (string * string) :=
  match i with
  | Price coin | FDV coin | MarketCap coin => Some (coin, "coin")
  | TVL protocol => Some (protocol, "coin")
  | FloorPrice nft => Some (nft, "nft")
  | _ => None
  end.

(** The requests a lookup-by-name fetcher makes before it resolves the
    name: the protocol list, for the TVL fetcher. *)
Definition requests_before_search (cfg : Config) (i : invocation) : list request :=
  match i with
  | TVL _ => [protocols_request cfg]
  | _ => []
  end.

(** [sub in s]. *)
Definition contains (s sub : string) : Prop :=
  exists before after : string, s = before ++ sub ++ after.

(** ** Providers and a configuration to run the tools on *)

(** A provider given by the answer to each URL it knows; it answers 404
    to any other request. *)
Definition serve (routes : list (string * http_outcome)) : provider :=
  fun r =>
    match find (fun route => String.eqb (fst route) (url r)) routes with
    | Some route => snd route
    | None => Responded (json_response 404 PNone)
    end.

Definition ok (v : pyval) : http_outcome := Responded (json_response 200 v).

Definition example_config : Config := {|
  BLOCKCHAIN_API_URL := "https://chain.test";
  COINGECKO_BASE_URL := "https://gecko.test";
  DEFILLAMA_BASE_URL := "https://llama.test";
  PRICE_SUCCESS_MESSAGE := [Text "The price of "; Field "coin_name"; Text " is $"; Field "price"];
  PRICE_FAILURE_MESSAGE := "Failed to retrieve price.";
  FLOOR_PRICE_SUCCESS_MESSAGE := [Text "The floor price of "; Field "nft_name"; Text " is $"; Field "floor_price"];
  FLOOR_PRICE_FAILURE_MESSAGE := "Failed to retrieve floor price.";
  TVL_SUCCESS_MESSAGE := [Text "The TVL of "; Field "protocol_name"; Text " is $"; Field "tvl"];
  TVL_FAILURE_MESSAGE := "Failed to retrieve TVL.";
  FDV_SUCCESS_MESSAGE := [Text "The fully diluted valuation of "; Field "coin_name"; Text " is $"; Field "fdv"];
  FDV_FAILURE_MESSAGE := "Failed to retrieve FDV.";
  MARKET_CAP_SUCCESS_MESSAGE := [Text "The market cap of "; Field "coin_name"; Text " is $"; Field "market_cap"];
  MARKET_CAP_FAILURE_MESSAGE := "Failed to retrieve market cap.";
  API_ERROR_MESSAGE := "API error."
|}.

(** The search response of the specification's example. *)
Definition bitcoin_search : pyval :=
  PDict [("coins", PList [PDict [("id", PStr "bitcoin")]]); ("nfts", PList [])].

(** A provider that knows bitcoin and its price. *)
Definition bitcoin_provider : provider :=
  serve [("https://gecko.test/search", ok bitcoin_search);
         ("https://gecko.test/simple/price",
          ok (PDict [("bitcoin", PDict [("usd", PInt 64000)])]))].

(** A search endpoint that is down. *)
Definition unavailable_provider : provider :=
  serve [("https://gecko.test/search", Responded (json_response 503 PNone))].

(** Search responses that lack one of the two keys. *)
Definition nfts_only_provider : provider :=
  serve [("https://gecko.test/search", ok (PDict [("nfts", PList [])]))].

(** The same search response without ["coins"], at a provider that lists
    the protocols. *)
Definition absent_coins_provider : provider :=
  serve [("https://llama.test/protocols",
          ok (PList [PDict [("slug", PStr "aave"); ("gecko_id", PStr "aave")]]));
         ("https://gecko.test/search", ok (PDict [("nfts", PList [])]))].

Definition coins_only_provider : provider :=
  serve [("https://gecko.test/search", ok (PDict [("coins", PList [])]))].

(** The protocol list of the specification's example, and a provider that
    resolves "aave" and knows its TVL. *)
Definition aave_protocols : pyval :=
  PList [PDict [("slug", PStr "aave"); ("gecko_id", PStr "aave")]].

Definition aave_search : pyval :=
  PDict [("coins", PList [PDict [("id", PStr "aave")]]); ("nfts", PList [])].

Definition aave_provider : provider :=
  serve [("https://llama.test/protocols", ok aave_protocols);
         ("https://gecko.test/search", ok aave_search);
         ("https://llama.test/tvl/aave", ok (PInt 12345))].

(** A protocol list whose entry for aave has an empty slug. *)
Definition empty_slug_provider : provider :=
  serve [("https://llama.test/protocols",
          ok (PList [PDict [("slug", PStr EmptyString); ("gecko_id", PStr "aave")]]));
         ("https://gecko.test/search", ok aave_search);
         ("https://llama.test/tvl/", ok (PInt 12345))].

(** A provider that resolves bitcoin and has nothing else (404). *)
Definition search_only_provider : provider :=
  serve [("https://gecko.test/search", ok bitcoin_search)].

(** The same, with an extra route the tools never ask for. *)
Definition bitcoin_provider_and_more : provider :=
  serve [("https://gecko.test/search", ok bitcoin_search);
         ("https://gecko.test/simple/price",
          ok (PDict [("bitcoin", PDict [("usd", PInt 64000)])]));
         ("https://gecko.test/ping", ok (PDict [("gecko_says", PStr "(V3) To the Moon!")]))].

(** A balance endpoint that answers 300 (Multiple Choices) with a body. *)
Definition status_300_provider : provider :=
  serve [("https://chain.test/ethereum/wallet/0xabc/balance",
          Responded (json_response 300 (PDict [("balance", PInt 7)])))].

(** A provider that resolves bitcoin and lists no market for it. *)
Definition empty_markets_provider : provider :=
  serve [("https://gecko.test/search", ok bitcoin_search);
         ("https://gecko.test/coins/markets", ok (PList []))].

(** A provider that lists aave and finds no coin for any name. *)
Definition unknown_name_provider : provider :=
  serve [("https://llama.test/protocols", ok aave_protocols);
         ("https://gecko.test/search", ok (PDict [("coins", PList []); ("nfts", PList [])]))].

(** A wallet with one transaction. *)
Definition wallet_provider : provider :=
  serve [("https://chain.test/ethereum/wallet/0xabc/transactions",
          ok (PDict [("transactions", PList [PDict [("hash", PStr "0x1")]])]))].

(** ** Predicates on programs *)

(** [dies_with e p]: [p] makes no request and raises [e]. *)
Inductive dies_with {A : Type} (e : exn) : prog A -> Prop :=
| dies_raise : dies_with e (Raise e)
| dies_log msg e' k : dies_with e k -> dies_with e (LogError msg e' k).

(** [fails_fast p]: whenever a request of [p] meets a transport failure,
    [p] makes no further request and raises that failure. *)
Inductive fails_fast {A : Type} : prog A -> Prop :=
| ff_ret a : fails_fast (Ret a)
| ff_raise e : fails_fast (Raise e)
| ff_log msg e k : fails_fast k -> fails_fast (LogError msg e k)
| ff_get r k :
    (forall o, transport_failure o = true -> dies_with (transport_exn o) (k o)) ->
    (forall o, transport_failure o = false -> fails_fast (k o)) ->
    fails_fast (Get r k).

(** [no_requests p]: [p] makes no request. *)
Inductive no_requests {A : Type} : prog A -> Prop :=
| nr_ret a : no_requests (Ret a)
| nr_raise e : no_requests (Raise e)
| nr_log msg e k : no_requests k -> no_requests (LogError msg e k).

(** ** More about the requests, the logs and the exceptions *)

(** The request every run of a tool starts with. *)
Definition first_request (cfg : Config) (i : invocation) : request :=
  match i with
  | Price coin | FDV coin | MarketCap coin => search_request cfg coin
  | FloorPrice nft => search_request cfg nft
  | TVL _ => protocols_request cfg
  | WalletBalance a b =>
      GET (BLOCKCHAIN_API_URL cfg ++ "/" ++ b ++ "/wallet/" ++ a ++ "/balance") []
  | GasFees b => GET (BLOCKCHAIN_API_URL cfg ++ "/" ++ b ++ "/gas-fees") []
  | TokenMetadata t b =>
      GET (BLOCKCHAIN_API_URL cfg ++ "/" ++ b ++ "/tokens/" ++ t ++ "/metadata") []
  | TransactionHistory a b =>
      GET (BLOCKCHAIN_API_URL cfg ++ "/" ++ b ++ "/wallet/" ++ a ++ "/transactions") []
  end.

(** The request a lookup-by-name fetcher sends to its data endpoint for
    the id [id] (for the TVL fetcher, the slug). *)
Definition data_request (cfg : Config) (i : invocation) (id : pyval) : request :=
  match i with
  | Price _ =>
      GET (COINGECKO_BASE_URL cfg ++ "/simple/price") [("ids", id); ("vs_currencies", PStr "USD")]
  | FloorPrice _ => GET (COINGECKO_BASE_URL cfg ++ "/nfts/" ++ Py.str id) []
  | FDV _ => GET (COINGECKO_BASE_URL cfg ++ "/coins/" ++ Py.str id) []
  | MarketCap _ =>
      GET (COINGECKO_BASE_URL cfg ++ "/coins/markets") [("ids", id); ("vs_currency", PStr "USD")]
  | _ => tvl_request cfg id
  end.

(** The most requests one run of a tool can make. *)
Definition max_requests (i : invocation) : nat :=
  match i with
  | TVL _ => 3
  | Price _ | FloorPrice _ | FDV _ | MarketCap _ => 2
  | _ => 1
  end.

(** The field the blockchain-API fetchers read from the body; the token
    metadata fetcher returns the body whole. *)
Definition field_read (i : invocation) : option string :=
  match i with
  | WalletBalance _ _ => Some "balance"
  | GasFees _ => Some "fees"
  | TransactionHistory _ _ => Some "transactions"
  | _ => None
  end.

(** The adapters whose clause is [except Exception]. *)
Definition catches_Exception (i : invocation) : bool :=
  match i with
  | TokenMetadata _ _ | TransactionHistory _ _ => true
  | _ => false
  end.

(** What each adapter makes of a fetched value on its last line: the
    success template formatted, or the f-string. *)
Definition success_message (cfg : Config) (i : invocation) (v : pyval) : result string :=
  match i with
  | Price coin =>
      str_format (PRICE_SUCCESS_MESSAGE cfg) [("coin_name", PStr coin); ("price", v)]
  | FloorPrice nft =>
      str_format (FLOOR_PRICE_SUCCESS_MESSAGE cfg) [("nft_name", PStr nft); ("floor_price", v)]
  | TVL protocol =>
      str_format (TVL_SUCCESS_MESSAGE cfg) [("protocol_name", PStr protocol); ("tvl", v)]
  | FDV coin =>
      str_format (FDV_SUCCESS_MESSAGE cfg) [("coin_name", PStr coin); ("fdv", v)]
  | MarketCap coin =>
      str_format (MARKET_CAP_SUCCESS_MESSAGE cfg) [("coin_name", PStr coin); ("market_cap", v)]
  | WalletBalance a b =>
      Returned ("Wallet balance for " ++ a ++ " on " ++ b ++ ": " ++ Py.str v)
  | GasFees b => Returned ("Current gas fees on " ++ b ++ ": " ++ Py.str v)
  | TokenMetadata t b =>
      Returned ("Metadata for token " ++ t ++ " on " ++ b ++ ": " ++ Py.str v)
  | TransactionHistory a b =>
      Returned ("Transaction history for " ++ a ++ " on " ++ b ++ ": " ++ Py.str v)
  end.

(** The [logging.error] records among the events of a run. *)
Fixpoint logs_of (t : list event) : list (string * exn) :=
  match t with
  | [] => []
  | EvGet _ :: t' => logs_of t'
  | EvLog msg e :: t' => (msg, e) :: logs_of t'
  end.

(** The exceptions the Python operations on values raise. *)
Definition python_error (e : exn) : bool :=
  match e with
  | KeyError _ | IndexError | TypeError | AttributeError => true
  | _ => false
  end.

(** [silent p]: [p] writes no log record. *)
Inductive silent {A : Type} : prog A -> Prop :=
| silent_ret a : silent (Ret a)
| silent_raise e : silent (Raise e)
| silent_get r k : (forall o, silent (k o)) -> silent (Get r k).

(** [caused_by o e]: the answer [o] to a request accounts for the
    exception [e]: it is the transport failure of [o], or what
    [response.json()] raises on the response of [o], received with a status
    that [raise_for_status] lets pass. *)
Definition caused_by (o : http_outcome) (e : exn) : Prop :=
  (transport_failure o = true /\ e = transport_exn o)
  \/ (exists resp, o = Responded resp
                   /\ is_error_status (status_code resp) = false
                   /\ json resp = Raised e).

(** [explained ok p]: every exception [p] can end with satisfies [ok] or
    is accounted for by the answer to one of the requests [p] made. *)
Inductive explained {A : Type} : (exn -> Prop) -> prog A -> Prop :=
| ex_ret ok a : explained ok (Ret a)
| ex_raise (ok : exn -> Prop) e : ok e -> explained ok (Raise e)
| ex_log ok msg e k : explained ok k -> explained ok (LogError msg e k)
| ex_get ok r k :
    (forall o, explained (fun e => ok e \/ caused_by o e) (k o)) ->
    explained ok (Get r k).

(** How a run's log records must relate to its outcome: one record, of
    the exception raised, when that is a [RequestException]; none
    otherwise. *)
Definition logged_once {A : Type} (t : list event) (x : result A) : Prop :=
  match x with
  | Returned _ => logs_of t = []
  | Raised e =>
      if is_RequestException e then exists msg, logs_of t = [(msg, e)]
      else logs_of t = []
  end.

(** ** More providers *)

(** A protocol list whose second entry has no ["gecko_id"]. *)
Definition malformed_protocols_provider : provider :=
  serve [("https://llama.test/protocols",
          ok (PList [PDict [("slug", PStr "aave"); ("gecko_id", PStr "aave")];
                     PDict [("slug", PStr "lido")]]));
         ("https://gecko.test/search", ok aave_search);
         ("https://llama.test/tvl/aave", ok (PInt 12345))].

(** A provider that resolves bitcoin, prices it at zero and has a coin
    page without market data. *)
Definition zero_price_provider : provider :=
  serve [("https://gecko.test/search", ok bitcoin_search);
         ("https://gecko.test/simple/price",
          ok (PDict [("bitcoin", PDict [("usd", PInt 0)])]));
         ("https://gecko.test/coins/bitcoin", ok (PDict [("id", PStr "bitcoin")]))].

(** A balance endpoint whose body has no ["balance"], and a metadata
    endpoint whose body is [null]. *)
Definition odd_bodies_provider : provider :=
  serve [("https://chain.test/ethereum/wallet/0xabc/balance", ok (PDict [("error", PStr "busy")]));
         ("https://chain.test/ethereum/wallet/0xabc/transactions", ok (PDict []));
         ("https://chain.test/ethereum/tokens/42/metadata", ok PNone)].

(** A provider that resolves bitcoin and whose pricing endpoint knows no
    coin. *)
Definition unpriced_provider : provider :=
  serve [("https://gecko.test/search", ok bitcoin_search);
         ("https://gecko.test/simple/price", ok (PDict []))].

(** A search response whose first hit has no id. *)
Definition nameless_hit_provider : provider :=
  serve [("https://gecko.test/search",
          ok (PDict [("coins", PList [PDict [("name", PStr "Bitcoin")];
                                      PDict [("id", PStr "bitcoin")]])]))].

(** A provider whose search endpoint answers 200 with a body that is no
    JSON, and whose balance endpoint answers 200 with an integer of more
    digits than Python converts. *)
Definition undecodable_provider : provider :=
  serve [("https://gecko.test/search", Responded (Response 200 NotJson));
         ("https://chain.test/ethereum/wallet/0xabc/balance",
          Responded (Response 200 (IntegerTooLong "Exceeds the limit (4300 digits)")))].

(** * Properties *)

(** ** Rendering values *)

Example str_of_nested_value :
  Py.str (PList [PDict [("hash", PStr "0x1"); ("value", PInt 5)]; PNone; PBool true])
  = "[{'hash': '0x1', 'value': 5}, None, True]".
Proof. reflexivity. Qed.

Example str_of_text_is_the_text : Py.str (PStr "it's") = "it's".
Proof. reflexivity. Qed.


(** ** Running composed programs *)

Lemma run_bind {A B : Type} (w : provider) (p : prog A) (f : A -> prog B) :
  run w (bind p f) =
  match run w p with
  | (t, Returned a) => let (t', x) := run w (f a) in ((t ++ t')%list, x)
  | (t, Raised e) => (t, Raised e)
  end.
Proof.
  induction p as [a | e | r k IH | msg e k IH]; simpl.
  - now destruct (run w (f a)).
  - reflexivity.
  - rewrite IH. destruct (run w (k (w r))) as [t [a | e]]; [|reflexivity].
    now destruct (run w (f a)).
  - rewrite IH. destruct (run w k) as [t [a | e']]; [|reflexivity].
    now destruct (run w (f a)).
Qed.

Lemma run_try_except {A : Type} (w : provider) (p : prog A) (h : exn -> option (prog A)) :
  run w (try_except p h) =
  match run w p with
  | (t, Returned a) => (t, Returned a)
  | (t, Raised e) =>
      match h e with
      | Some q => let (t', x) := run w q in ((t ++ t')%list, x)
      | None => (t, Raised e)
      end
  end.
Proof.
  induction p as [a | e | r k IH | msg e k IH]; simpl.
  - reflexivity.
  - destruct (h e) as [q|]; [|reflexivity]. now destruct (run w q).
  - rewrite IH. destruct (run w (k (w r))) as [t [a | e]]; [reflexivity|].
    destruct (h e) as [q|]; [|reflexivity]. now destruct (run w q).
  - rewrite IH. destruct (run w k) as [t [a | e']]; [reflexivity|].
    destruct (h e') as [q|]; [|reflexivity]. now destruct (run w q).
Qed.

Lemma run_lift {A : Type} (w : provider) (r : result A) : run w (lift r) = ([], r).
Proof. now destruct r. Qed.

Lemma outcome_bind_raised {A B : Type} (w : provider) (p : prog A) (f : A -> prog B) (e : exn) :
  outcome w p = Raised e -> outcome w (bind p f) = Raised e.
Proof.
  unfold outcome. rewrite run_bind.
  destruct (run w p) as [t [a | e']]; simpl; [discriminate | congruence].
Qed.

Lemma outcome_bind_returned {A B : Type} (w : provider) (p : prog A) (f : A -> prog B) (a : A) :
  outcome w p = Returned a -> outcome w (bind p f) = outcome w (f a).
Proof.
  unfold outcome. rewrite run_bind.
  destruct (run w p) as [t [a' | e']]; simpl; [|discriminate].
  intros [= ->]. now destruct (run w (f a)).
Qed.

Lemma trace_bind_returned {A B : Type} (w : provider) (p : prog A) (f : A -> prog B) (a : A) :
  outcome w p = Returned a -> trace w (bind p f) = (trace w p ++ trace w (f a))%list.
Proof.
  unfold outcome, trace. rewrite run_bind.
  destruct (run w p) as [t [a' | e']]; simpl; [|discriminate].
  intros [= ->]. now destruct (run w (f a)).
Qed.

Lemma trace_bind_raised {A B : Type} (w : provider) (p : prog A) (f : A -> prog B) (e : exn) :
  outcome w p = Raised e -> trace w (bind p f) = trace w p.
Proof.
  unfold outcome, trace. rewrite run_bind.
  destruct (run w p) as [t [a' | e']]; simpl; [discriminate | auto].
Qed.

Lemma run_pair {A : Type} (w : provider) (p : prog A) : run w p = (trace w p, outcome w p).
Proof. unfold trace, outcome. now destruct (run w p). Qed.

(** ** The output depends on the provider only through the requests made *)

Lemma run_agree {A : Type} (p : prog A) (w1 w2 : provider) :
  (forall r, In (EvGet r) (trace w1 p) -> w1 r = w2 r) ->
  run w1 p = run w2 p.
Proof.
  unfold trace.
  induction p as [a | e | r k IH | msg e k IH]; simpl; intros H; try reflexivity.
  - assert (Hr : w1 r = w2 r).
    { apply H. destruct (run w1 (k (w1 r))). simpl. now left. }
    rewrite <- Hr. rewrite <- (IH (w1 r)); [reflexivity|].
    intros r' Hin. apply H. destruct (run w1 (k (w1 r))). simpl. now right.
  - rewrite <- IH; [reflexivity|].
    intros r' Hin. apply H. destruct (run w1 k). simpl. now right.
Qed.

(** ** Transport failures end a fetcher at once *)

Lemma dies_with_bind {A B : Type} (e : exn) (p : prog A) (f : A -> prog B) :
  dies_with e p -> dies_with e (bind p f).
Proof. induction 1; simpl; now constructor. Qed.

Lemma dies_with_reraise {A : Type} (e : exn) (p : prog A) (msg : string) :
  dies_with e p -> dies_with e (try_except p (log_and_reraise msg)).
Proof.
  induction 1; simpl.
  - unfold log_and_reraise. destruct (is_RequestException e); repeat constructor.
  - now constructor.
Qed.

Lemma dies_with_run {A : Type} (e : exn) (p : prog A) (w : provider) :
  dies_with e p ->
  outcome w p = Raised e /\ forall r, ~ In (EvGet r) (trace w p).
Proof.
  unfold outcome, trace.
  induction 1 as [| msg e' k Hk [IH1 IH2]]; simpl.
  - split; [reflexivity | intros r []].
  - destruct (run w k) as [t x]; simpl in *. split; [assumption|].
    intros r [Hr | Hr]; [discriminate | exact (IH2 r Hr)].
Qed.

Lemma fails_fast_bind {A B : Type} (p : prog A) (f : A -> prog B) :
  fails_fast p -> (forall a, fails_fast (f a)) -> fails_fast (bind p f).
Proof.
  intros Hp Hf. induction Hp as [a | e | msg e k Hk IH | r k Hdie Hk IH]; simpl.
  - apply Hf.
  - constructor.
  - now constructor.
  - constructor; intros o Ho.
    + apply dies_with_bind. now apply Hdie.
    + now apply IH.
Qed.

Lemma fails_fast_reraise {A : Type} (p : prog A) (msg : string) :
  fails_fast p -> fails_fast (try_except p (log_and_reraise msg)).
Proof.
  induction 1 as [a | e | m e k Hk IH | r k Hdie Hk IH]; simpl.
  - constructor.
  - unfold log_and_reraise. destruct (is_RequestException e); repeat constructor.
  - now constructor.
  - constructor; intros o Ho.
    + apply dies_with_reraise. now apply Hdie.
    + now apply IH.
Qed.

Lemma fails_fast_lift {A : Type} (r : result A) : fails_fast (lift r).
Proof. destruct r; constructor. Qed.

(** The opening of every [try] block: the request, then the status check. *)
Lemma fails_fast_request {A : Type} (u : string) (ps : list (string * pyval))
      (rest : response -> prog A) :
  (forall response, fails_fast (rest response)) ->
  fails_fast (response <- requests_get u ps ;; raise_for_status response ;; rest response).
Proof.
  intros Hrest. simpl. constructor; intros [| r] Ho; simpl in *.
  - constructor.
  - unfold raise_for_status. rewrite Ho. constructor.
  - discriminate.
  - unfold raise_for_status. rewrite Ho. simpl. apply Hrest.
Qed.

Lemma fails_fast_run {A : Type} (p : prog A) (w : provider) (r : request) :
  fails_fast p ->
  In (EvGet r) (trace w p) ->
  transport_failure (w r) = true ->
  outcome w p = Raised (transport_exn (w r)).
Proof.
  unfold outcome, trace.
  induction 1 as [a | e | msg e k Hk IH | r0 k Hdie Hk IH]; simpl; intros Hin Hfail.
  - destruct Hin.
  - destruct Hin.
  - destruct (run w k) as [t x]; simpl in *.
    destruct Hin as [Hin | Hin]; [discriminate | now apply IH].
  - destruct (transport_failure (w r0)) eqn:H0.
    + destruct (dies_with_run _ _ w (Hdie _ H0)) as [Hout Hno].
      unfold outcome, trace in *.
      destruct (run w (k (w r0))) as [t x]; simpl in *.
      destruct Hin as [Hin | Hin].
      * injection Hin as <-. assumption.
      * destruct (Hno r Hin).
    + specialize (IH _ H0).
      destruct (run w (k (w r0))) as [t x]; simpl in *.
      destruct Hin as [Hin | Hin].
      * injection Hin as <-. congruence.
      * now apply IH.
Qed.

(** Every fetcher is built from request blocks, pure extraction and the
    re-raising [except] clause. *)
Ltac fails_fast_step :=
  first
    [ apply fails_fast_reraise
    | apply fails_fast_request; intros
    | apply fails_fast_lift
    | apply ff_ret
    | apply ff_raise
    | assumption
    | apply fails_fast_bind; [| intros]
    | match goal with
      | |- fails_fast (if ?b then _ else _) => destruct b
      | |- fails_fast (match ?x with _ => _ end) => destruct x
      end ].

Ltac fails_fast_tac := repeat fails_fast_step.

Lemma get_coingecko_id_fails_fast (cfg : Config) (text type : string) :
  fails_fast (get_coingecko_id cfg text type).
Proof. unfold get_coingecko_id. fails_fast_tac. Qed.

Lemma get_protocols_list_fails_fast (cfg : Config) :
  fails_fast (get_protocols_list cfg).
Proof. unfold get_protocols_list. fails_fast_tac. Qed.

Lemma fetcher_fails_fast (cfg : Config) (i : invocation) : fails_fast (fetcher cfg i).
Proof.
  pose proof (get_coingecko_id_fails_fast cfg) as Hid.
  pose proof (get_protocols_list_fails_fast cfg) as Hlist.
  destruct i; simpl;
    unfold get_price, get_floor_price, get_protocol_tvl, get_fdv, get_market_cap,
      get_wallet_balance, get_gas_fees, get_token_metadata, get_transaction_history;
    repeat first [ apply Hid | apply Hlist | fails_fast_step ].
Qed.

(** ** What the adapters do with a raised exception *)

Lemma adapter_shape (cfg : Config) (i : invocation) :
  exists (f : pyval -> prog string) (h : exn -> option (prog string)),
    adapter cfg i = try_except (bind (fetcher cfg i) f) h /\
    (forall e, is_RequestException e = true ->
       exists q, h e = Some q /\
         forall w, outcome w q = Returned (api_error_message cfg i)) /\
    (forall e q, h e = Some q -> forall w, exists s, outcome w q = Returned s).
Proof.
  destruct i; simpl;
    unfold get_coin_price_tool, get_nft_floor_price_tool, get_protocol_total_value_locked_tool,
      get_fully_diluted_valuation_tool, get_coin_market_cap_tool, get_wallet_balance_tool,
      get_gas_fees_tool, get_token_metadata_tool, get_transaction_history_tool;
    eexists; eexists; (split; [reflexivity|]);
    unfold return_on_RequestException, log_and_return_on_Exception;
    (split;
     [ intros e He; try rewrite He; eexists; split; [reflexivity | reflexivity]
     | intros e q; try destruct (is_RequestException e); intros [= <-] w;
       eexists; reflexivity ]).
Qed.

Lemma outcome_try_except (A : Type) (w : provider) (p : prog A) (h : exn -> option (prog A)) :
  outcome w (try_except p h) =
  match outcome w p with
  | Returned a => Returned a
  | Raised e => match h e with
                | Some q => outcome w q
                | None => Raised e
                end
  end.
Proof.
  unfold outcome. rewrite run_try_except.
  destruct (run w p) as [t [a | e]]; simpl; [reflexivity|].
  destruct (h e) as [q|]; [|reflexivity]. now destruct (run w q).
Qed.

Lemma adapter_reports_transport_failure (cfg : Config) (w : provider) (i : invocation) (e : exn) :
  outcome w (fetcher cfg i) = Raised e ->
  is_RequestException e = true ->
  outcome w (adapter cfg i) = Returned (api_error_message cfg i).
Proof.
  intros Hout He.
  destruct (adapter_shape cfg i) as (f & h & -> & Hreq & _).
  rewrite outcome_try_except, (outcome_bind_raised _ _ _ _ Hout).
  destruct (Hreq e He) as (q & -> & Hq). apply Hq.
Qed.

Lemma adapter_never_raises_RequestException (cfg : Config) (w : provider) (i : invocation) (e : exn) :
  outcome w (adapter cfg i) = Raised e -> is_RequestException e = false.
Proof.
  destruct (adapter_shape cfg i) as (f & h & -> & Hreq & Hret).
  rewrite outcome_try_except.
  destruct (outcome w (bind (fetcher cfg i) f)) as [s | e0]; [discriminate|].
  destruct (h e0) as [q|] eqn:Hh.
  - destruct (Hret e0 q Hh w) as [s ->]. discriminate.
  - intros [= <-]. destruct (is_RequestException e0) eqn:He; [|reflexivity].
    destruct (Hreq e0 He) as (q & Hq & _). congruence.
Qed.

Lemma transport_exn_is_RequestException (o : http_outcome) :
  is_RequestException (transport_exn o) = true.
Proof. now destruct o. Qed.

(** C1, as amended.  For each of the nine fetchers: if a request it makes
    meets a transport failure (no response, or a status that
    [raise_for_status] rejects, 400 to 599), the fetcher raises that failure
    to its caller and the adapter of the fetcher returns its fixed API-error
    string; and no adapter ever ends by raising a [RequestException]. *)
Theorem transport_failure_raised_then_reported
        (cfg : Config) (w : provider) (i : invocation) (r : request) :
  In (EvGet r) (trace w (fetcher cfg i)) ->
  transport_failure (w r) = true ->
  outcome w (fetcher cfg i) = Raised (transport_exn (w r))
  /\ outcome w (adapter cfg i) = Returned (api_error_message cfg i)
  /\ (forall w' i' e, outcome w' (adapter cfg i') = Raised e -> is_RequestException e = false).
Proof.
  intros Hin Hfail.
  pose proof (fails_fast_run _ w r (fetcher_fails_fast cfg i) Hin Hfail) as Hout.
  split; [exact Hout|]. split.
  - apply (adapter_reports_transport_failure cfg w i _ Hout).
    apply transport_exn_is_RequestException.
  - intros w' i' e. apply adapter_never_raises_RequestException.
Qed.

(** ** Stepping through a request block *)

Lemma run_request_ok {A : Type} (w : provider) (u : string) (ps : list (string * pyval))
      (rest : response -> prog A) (h : exn -> option (prog A)) (resp : response) :
  w (GET u ps) = Responded resp ->
  is_error_status (status_code resp) = false ->
  run w (try_except (response <- requests_get u ps ;; raise_for_status response ;; rest response) h)
  = (EvGet (GET u ps) :: trace w (try_except (rest resp) h),
     outcome w (try_except (rest resp) h)).
Proof.
  intros Hw Hs. unfold trace, outcome. simpl. rewrite Hw. simpl.
  unfold raise_for_status. rewrite Hs. simpl.
  now destruct (run w (try_except (rest resp) h)).
Qed.

Lemma run_request_failed {A : Type} (w : provider) (u : string) (ps : list (string * pyval))
      (rest : response -> prog A) (msg : string) :
  transport_failure (w (GET u ps)) = true ->
  run w (try_except (response <- requests_get u ps ;; raise_for_status response ;; rest response)
           (log_and_reraise msg))
  = ([EvGet (GET u ps); EvLog msg (transport_exn (w (GET u ps)))],
     Raised (transport_exn (w (GET u ps)))).
Proof.
  intros Hf. simpl. destruct (w (GET u ps)) as [| resp]; simpl in *.
  - reflexivity.
  - unfold raise_for_status. rewrite Hf. reflexivity.
Qed.

Lemma requests_of_app (t1 t2 : list event) :
  requests_of (t1 ++ t2)%list = (requests_of t1 ++ requests_of t2)%list.
Proof.
  induction t1 as [| [r | msg e] t1 IH]; simpl; [reflexivity | now rewrite IH | exact IH].
Qed.

(** ** Market cap on an empty markets list *)

(** C10.  When the coin name resolves and the markets endpoint answers
    with an empty JSON list, [get_market_cap] raises [IndexError], and
    [get_coin_market_cap_tool], whose handler takes [RequestException]
    only, ends by raising it too. *)
Theorem empty_markets_index_error_escapes
        (cfg : Config) (w : provider) (coin : string) (coin_id : pyval) (resp : response) :
  outcome w (get_coingecko_id cfg coin "coin") = Returned coin_id ->
  Py.truthy coin_id = true ->
  w (GET (COINGECKO_BASE_URL cfg ++ "/coins/markets")
         [("ids", coin_id); ("vs_currency", PStr "USD")]) = Responded resp ->
  is_error_status (status_code resp) = false ->
  json resp = Returned (PList []) ->
  outcome w (get_market_cap cfg coin) = Raised IndexError
  /\ outcome w (get_coin_market_cap_tool cfg coin) = Raised IndexError.
Proof.
  intros Hid Htrue Hw Hs Hjson.
  assert (Hfetch : outcome w (get_market_cap cfg coin) = Raised IndexError).
  { unfold get_market_cap. rewrite (outcome_bind_returned _ _ _ _ Hid), Htrue. simpl negb. cbv iota.
    unfold outcome at 1. rewrite (run_request_ok _ _ _ _ _ _ Hw Hs). simpl snd.
    rewrite Hjson. reflexivity. }
  split; [exact Hfetch|].
  unfold get_coin_market_cap_tool.
  rewrite outcome_try_except, (outcome_bind_raised _ _ _ _ Hfetch). reflexivity.
Qed.

(** ** The transaction-history adapter *)

Lemma get_transaction_history_tool_outcome (cfg : Config) (w : provider) (a b : string) :
  outcome w (get_transaction_history_tool cfg a b) =
  match outcome w (get_transaction_history cfg a b) with
  | Raised _ => Returned "API error occurred while retrieving transaction history."
  | Returned v =>
      match none_or_empty v with
      | Raised _ => Returned "API error occurred while retrieving transaction history."
      | Returned true => Returned "No transactions found for this address."
      | Returned false =>
          Returned ("Transaction history for " ++ a ++ " on " ++ b ++ ": " ++ Py.str v)
      end
  end.
Proof.
  unfold get_transaction_history_tool. rewrite outcome_try_except.
  destruct (outcome w (get_transaction_history cfg a b)) as [v | e] eqn:Hf.
  - rewrite (outcome_bind_returned _ _ _ _ Hf).
    destruct (none_or_empty v) as [[|] | e]; reflexivity.
  - rewrite (outcome_bind_raised _ _ _ _ Hf). reflexivity.
Qed.

Lemma none_or_empty_true (v : pyval) :
  none_or_empty v = Returned true <-> v = PNone \/ Py.len v = Returned 0%Z.
Proof.
  assert (Hlen : forall n : nat,
             @Returned bool (Z.eqb (Z.of_nat n) 0) = Returned true
             <-> @Returned Z (Z.of_nat n) = Returned 0%Z).
  { intros n. split; intros [= H].
    - apply Z.eqb_eq in H. now rewrite H.
    - now rewrite H. }
  unfold none_or_empty.
  destruct v as [| b | n | s | l | d]; simpl.
  - split; [now left | reflexivity].
  - split; [discriminate | intros [H | H]; discriminate H].
  - split; [discriminate | intros [H | H]; discriminate H].
  - rewrite Hlen. split; [now right | intros [H | H]; [discriminate H | exact H]].
  - rewrite Hlen. split; [now right | intros [H | H]; [discriminate H | exact H]].
  - rewrite Hlen. split; [now right | intros [H | H]; [discriminate H | exact H]].
Qed.

(** C9.  [get_transaction_history_tool] always returns a string.  The
    string is "No transactions found for this address." exactly when the
    fetcher returned [None] or an empty value (one of length zero, such as
    the empty transaction list); it is the sentence with the wallet address,
    the blockchain and the transactions when the fetcher returned a value
    that is not [None] and has a length other than zero; and when the
    fetcher raised, whatever the exception, or [len] failed on what it
    returned, it is the adapter's fixed API-error message. *)
Theorem get_transaction_history_tool_messages
        (cfg : Config) (w : provider) (wallet_address blockchain : string) :
  let fetched := outcome w (get_transaction_history cfg wallet_address blockchain) in
  let said := outcome w (get_transaction_history_tool cfg wallet_address blockchain) in
  (exists s, said = Returned s)
  /\ (said = Returned "No transactions found for this address."
      <-> exists v, fetched = Returned v /\ (v = PNone \/ Py.len v = Returned 0%Z))
  /\ (forall v n, fetched = Returned v -> v <> PNone -> Py.len v = Returned n -> n <> 0%Z ->
      said = Returned ("Transaction history for " ++ wallet_address ++ " on " ++ blockchain
                       ++ ": " ++ Py.str v))
  /\ ((exists e, fetched = Raised e)
      \/ (exists v e, fetched = Returned v /\ v <> PNone /\ Py.len v = Raised e) ->
      said = Returned "API error occurred while retrieving transaction history.").
Proof.
  intros fetched said. subst said.
  rewrite get_transaction_history_tool_outcome. fold fetched.
  destruct fetched as [v | e].
  - pose proof (none_or_empty_true v) as Hempty.
    assert (Hlen : forall n, v <> PNone -> Py.len v = Returned n ->
                             none_or_empty v = Returned (Z.eqb n 0)).
    { intros n Hnone Hn. unfold none_or_empty.
      destruct v; simpl in *; try discriminate Hn; try (now destruct Hnone);
        now injection Hn as <-. }
    assert (Hraise : forall e, v <> PNone -> Py.len v = Raised e ->
                               none_or_empty v = Raised e).
    { intros e Hnone He. unfold none_or_empty.
      destruct v; simpl in *; try discriminate He; try (now destruct Hnone);
        now injection He as <-. }
    destruct (none_or_empty v) as [[|] | e] eqn:Hne.
    + split; [eexists; reflexivity|].
      split; [split; [intros _; exists v; split; [reflexivity | now apply Hempty] | reflexivity]|].
      split.
      * intros v' n [= <-] Hnone Hn Hn0. exfalso.
        specialize (Hlen n Hnone Hn). injection Hlen as Hlen.
        symmetry in Hlen. apply Z.eqb_eq in Hlen. contradiction.
      * intros [[e [=]] | (v' & e & [= <-] & Hnone & He)]. exfalso.
        specialize (Hraise e Hnone He). discriminate Hraise.
    + split; [eexists; reflexivity|].
      split; [split; [simpl; discriminate
                     | intros (v' & [= <-] & H); apply Hempty in H; discriminate H]|].
      split.
      * intros v' n [= <-] _ _ _. reflexivity.
      * intros [[e [=]] | (v' & e & [= <-] & Hnone & He)]. exfalso.
        specialize (Hraise e Hnone He). discriminate Hraise.
    + split; [eexists; reflexivity|].
      split; [split; [discriminate
                     | intros (v' & [= <-] & H); apply Hempty in H; discriminate H]|].
      split.
      * intros v' n [= <-] Hnone Hn _. exfalso.
        specialize (Hlen n Hnone Hn). discriminate Hlen.
      * intros _. reflexivity.
  - split; [eexists; reflexivity|].
    split; [split; [discriminate | intros (v & [=] & _)]|].
    split; [intros v n [=] | intros _; reflexivity].
Qed.

(** ** The name resolver *)

Section Resolver.

Variables (cfg : Config) (w : provider) (text : string) (resp : response).
Hypothesis Hsearch : w (search_request cfg text) = Responded resp.
Hypothesis Hstatus : is_error_status (status_code resp) = false.

(** An empty list under the key of the kind: not found. *)
Lemma get_coingecko_id_empty (type : string) (d : list (string * pyval)) :
  type = "coin" \/ type = "nft" ->
  json resp = Returned (PDict d) ->
  Py.dict_lookup (type ++ "s") d = Some (PList []) ->
  run w (get_coingecko_id cfg text type) = ([EvGet (search_request cfg text)], Returned PNone).
Proof.
  intros Htype Hjson Hlist. unfold get_coingecko_id.
  rewrite (run_request_ok _ _ _ _ _ _ Hsearch Hstatus). unfold trace, outcome.
  rewrite Hjson. destruct Htype as [-> | ->]; simpl in *; rewrite Hlist; reflexivity.
Qed.

(** No ["nfts"] key at all: not found, for the NFT kind. *)
Lemma get_coingecko_id_nfts_absent (d : list (string * pyval)) :
  json resp = Returned (PDict d) ->
  Py.dict_lookup "nfts" d = None ->
  run w (get_coingecko_id cfg text "nft") = ([EvGet (search_request cfg text)], Returned PNone).
Proof.
  intros Hjson Hlist. unfold get_coingecko_id.
  rewrite (run_request_ok _ _ _ _ _ _ Hsearch Hstatus). unfold trace, outcome.
  rewrite Hjson. simpl. rewrite Hlist. reflexivity.
Qed.

(** No ["coins"] key: the coin kind raises [KeyError]. *)
Lemma get_coingecko_id_coins_absent (d : list (string * pyval)) :
  json resp = Returned (PDict d) ->
  Py.dict_lookup "coins" d = None ->
  run w (get_coingecko_id cfg text "coin")
  = ([EvGet (search_request cfg text)], Raised (KeyError (PStr "coins"))).
Proof.
  intros Hjson Hlist. unfold get_coingecko_id.
  rewrite (run_request_ok _ _ _ _ _ _ Hsearch Hstatus). unfold trace, outcome.
  rewrite Hjson. simpl. rewrite Hlist. reflexivity.
Qed.

(** A non-empty list whose first entry is an object with an ["id"]: that
    id. *)
Lemma get_coingecko_id_first (type : string) (d entry : list (string * pyval))
      (others : list pyval) (id : pyval) :
  type = "coin" \/ type = "nft" ->
  json resp = Returned (PDict d) ->
  Py.dict_lookup (type ++ "s") d = Some (PList (PDict entry :: others)) ->
  Py.dict_lookup "id" entry = Some id ->
  run w (get_coingecko_id cfg text type) = ([EvGet (search_request cfg text)], Returned id).
Proof.
  intros Htype Hjson Hlist Hid. unfold get_coingecko_id.
  rewrite (run_request_ok _ _ _ _ _ _ Hsearch Hstatus). unfold trace, outcome.
  rewrite Hjson.
  destruct Htype as [-> | ->]; simpl in *; rewrite Hlist; simpl; rewrite Hid; reflexivity.
Qed.

(** Any other kind: [ValueError], whatever the body decodes to. *)
Lemma get_coingecko_id_invalid_type (type : string) (data : pyval) :
  type <> "coin" -> type <> "nft" ->
  json resp = Returned data ->
  run w (get_coingecko_id cfg text type)
  = ([EvGet (search_request cfg text)], Raised (ValueError "Invalid type specified")).
Proof.
  intros Hcoin Hnft Hjson. unfold get_coingecko_id.
  rewrite (run_request_ok _ _ _ _ _ _ Hsearch Hstatus). unfold trace, outcome.
  apply String.eqb_neq in Hcoin, Hnft. rewrite Hjson. simpl. rewrite Hcoin, Hnft. reflexivity.
Qed.

(** A body that does not decode: what [response.json()] raised, for
    every kind. *)
Lemma get_coingecko_id_undecodable (type : string) (e : exn) :
  json resp = Raised e ->
  outcome w (get_coingecko_id cfg text type) = Raised e.
Proof.
  intros Hjson. unfold get_coingecko_id, outcome.
  rewrite (run_request_ok _ _ _ _ _ _ Hsearch Hstatus). unfold outcome.
  rewrite Hjson. simpl. unfold log_and_reraise. now destruct (is_RequestException e).
Qed.

End Resolver.

Lemma get_coingecko_id_failed (cfg : Config) (w : provider) (text type : string) :
  transport_failure (w (search_request cfg text)) = true ->
  run w (get_coingecko_id cfg text type)
  = ([EvGet (search_request cfg text);
      EvLog "API request failed: " (transport_exn (w (search_request cfg text)))],
     Raised (transport_exn (w (search_request cfg text)))).
Proof.
  intros Hf. unfold get_coingecko_id. now rewrite run_request_failed.
Qed.

(** The example of the specification: on
    [{"coins": [{"id": "bitcoin"}], "nfts": []}] the resolver returns
    ["bitcoin"] for the coin kind and [None] for the NFT kind. *)
Example get_coingecko_id_bitcoin :
  run bitcoin_provider (get_coingecko_id example_config "bitcoin" "coin")
  = ([EvGet (search_request example_config "bitcoin")], Returned (PStr "bitcoin"))
  /\ run bitcoin_provider (get_coingecko_id example_config "bitcoin" "nft")
     = ([EvGet (search_request example_config "bitcoin")], Returned PNone).
Proof. split; reflexivity. Qed.

(** C3, at the input where the code departs from it.  A search response
    with no ["coins"] key makes the coin kind raise [KeyError], where the
    claim has [None]; the NFT kind, which reads its key with [dict.get],
    does return [None] on a response with no ["nfts"] key. *)
Lemma get_coingecko_id_missing_coins_key_raises :
  run nfts_only_provider (get_coingecko_id example_config "bitcoin" "coin")
  = ([EvGet (search_request example_config "bitcoin")], Raised (KeyError (PStr "coins")))
  /\ run coins_only_provider (get_coingecko_id example_config "bitcoin" "nft")
     = ([EvGet (search_request example_config "bitcoin")], Returned PNone).
Proof. split; reflexivity. Qed.

(** C6, as stated, fails: with the search endpoint down, an unsupported
    kind ends in the transport failure, not in the invalid-argument
    error. *)
Lemma invalid_type_search_down_raises_HTTPError :
  run unavailable_provider (get_coingecko_id example_config "bitcoin" "token")
  = ([EvGet (search_request example_config "bitcoin");
      EvLog "API request failed: " (HTTPError 503)],
     Raised (HTTPError 503)).
Proof. reflexivity. Qed.

(** C6, as amended.  For a kind other than "coin" and "nft" the resolver
    never returns a value, [None] or other; it still makes the search
    request first.  When that request meets no transport failure and the
    body decodes, it raises [ValueError], whatever the body decodes to;
    when the body does not decode, it raises what [response.json()]
    raised; when the request meets a transport failure, it raises that
    failure. *)
Theorem invalid_type_never_returns (cfg : Config) (w : provider) (text type : string) :
  type <> "coin" -> type <> "nft" ->
  (forall v, outcome w (get_coingecko_id cfg text type) <> Returned v)
  /\ (forall resp data,
         w (search_request cfg text) = Responded resp ->
         is_error_status (status_code resp) = false ->
         json resp = Returned data ->
         run w (get_coingecko_id cfg text type)
         = ([EvGet (search_request cfg text)], Raised (ValueError "Invalid type specified")))
  /\ (forall resp e,
         w (search_request cfg text) = Responded resp ->
         is_error_status (status_code resp) = false ->
         json resp = Raised e ->
         outcome w (get_coingecko_id cfg text type) = Raised e)
  /\ (transport_failure (w (search_request cfg text)) = true ->
      outcome w (get_coingecko_id cfg text type)
      = Raised (transport_exn (w (search_request cfg text)))).
Proof.
  intros Hcoin Hnft.
  assert (Hok : forall resp data,
             w (search_request cfg text) = Responded resp ->
             is_error_status (status_code resp) = false ->
             json resp = Returned data ->
             run w (get_coingecko_id cfg text type)
             = ([EvGet (search_request cfg text)], Raised (ValueError "Invalid type specified"))).
  { intros resp data Hw Hs Hjson.
    now apply (get_coingecko_id_invalid_type cfg w text resp Hw Hs type data). }
  assert (Hbody : forall resp e,
             w (search_request cfg text) = Responded resp ->
             is_error_status (status_code resp) = false ->
             json resp = Raised e ->
             outcome w (get_coingecko_id cfg text type) = Raised e).
  { intros resp e Hw Hs Hjson.
    now apply (get_coingecko_id_undecodable cfg w text resp Hw Hs). }
  assert (Hdown : transport_failure (w (search_request cfg text)) = true ->
                  outcome w (get_coingecko_id cfg text type)
                  = Raised (transport_exn (w (search_request cfg text)))).
  { intros Hf. unfold outcome. now rewrite get_coingecko_id_failed. }
  split; [|split; [|split]]; try assumption.
  intros v. destruct (transport_failure (w (search_request cfg text))) eqn:Hf.
  - rewrite (Hdown eq_refl). discriminate.
  - destruct (w (search_request cfg text)) as [| resp] eqn:Hw; [discriminate|].
    simpl in Hf. destruct (json resp) as [data | e] eqn:Hjson.
    + unfold outcome. rewrite (Hok resp data eq_refl Hf Hjson). discriminate.
    + rewrite (Hbody resp e eq_refl Hf Hjson). discriminate.
Qed.

(** ** Programs that make no request *)

Lemma no_requests_lift {A : Type} (r : result A) : no_requests (lift r).
Proof. destruct r; constructor. Qed.

Lemma no_requests_bind {A B : Type} (p : prog A) (f : A -> prog B) :
  no_requests p -> (forall a, no_requests (f a)) -> no_requests (bind p f).
Proof. intros Hp Hf. induction Hp; simpl; [apply Hf | constructor | now constructor]. Qed.

Lemma no_requests_reraise {A : Type} (p : prog A) (msg : string) :
  no_requests p -> no_requests (try_except p (log_and_reraise msg)).
Proof.
  induction 1; simpl; [constructor | | now constructor].
  unfold log_and_reraise. destruct (is_RequestException e); repeat constructor.
Qed.

Lemma no_requests_run {A : Type} (p : prog A) (w : provider) :
  no_requests p -> requests_of (trace w p) = [].
Proof.
  unfold trace. induction 1; simpl; try reflexivity.
  destruct (run w k). assumption.
Qed.

Ltac no_requests_tac :=
  repeat first
    [ apply no_requests_reraise
    | apply no_requests_lift
    | apply nr_ret
    | apply nr_raise
    | apply no_requests_bind; [| intros]
    | match goal with
      | |- no_requests (if ?b then _ else _) => destruct b
      | |- no_requests (match ?x with _ => _ end) => destruct x
      end ].

(** A request block makes its request and then whatever follows makes. *)
Lemma requests_of_request_block {A : Type} (w : provider) (u : string)
      (ps : list (string * pyval)) (rest : response -> prog A) (msg : string) :
  (forall response, no_requests (rest response)) ->
  requests_of (trace w (try_except (response <- requests_get u ps ;;
                                    raise_for_status response ;; rest response)
                                   (log_and_reraise msg)))
  = [GET u ps].
Proof.
  intros Hrest.
  destruct (transport_failure (w (GET u ps))) eqn:Hf.
  - unfold trace. now rewrite run_request_failed.
  - destruct (w (GET u ps)) as [| resp] eqn:Hw; [discriminate|]. simpl in Hf.
    unfold trace at 1. rewrite (run_request_ok _ _ _ _ _ _ Hw Hf). simpl.
    f_equal. apply no_requests_run. apply no_requests_reraise, Hrest.
Qed.

(** The resolver makes the search request and no other, however it ends. *)
Lemma get_coingecko_id_requests (cfg : Config) (w : provider) (text type : string) :
  requests_of (trace w (get_coingecko_id cfg text type)) = [search_request cfg text].
Proof.
  unfold get_coingecko_id. apply requests_of_request_block. intros. no_requests_tac.
Qed.

(** So does the protocol-list fetcher with its request. *)
Lemma get_protocols_list_requests (cfg : Config) (w : provider) :
  requests_of (trace w (get_protocols_list cfg)) = [protocols_request cfg].
Proof.
  unfold get_protocols_list. apply requests_of_request_block. intros. no_requests_tac.
Qed.

(** ** Lookup by name: a name that is not found *)

Lemma adapter_reports_no_data (cfg : Config) (w : provider) (i : invocation) :
  outcome w (fetcher cfg i) = Returned PNone ->
  outcome w (adapter cfg i) = Returned (no_data_message cfg i).
Proof.
  intros Hnone.
  destruct i; simpl in *;
    unfold get_coin_price_tool, get_nft_floor_price_tool, get_protocol_total_value_locked_tool,
      get_fully_diluted_valuation_tool, get_coin_market_cap_tool, get_wallet_balance_tool,
      get_gas_fees_tool, get_token_metadata_tool, get_transaction_history_tool;
    rewrite outcome_try_except, (outcome_bind_returned _ _ _ _ Hnone); reflexivity.
Qed.

(** What a lookup-by-name fetcher comes to once the resolver has returned
    [None] (and, for the TVL fetcher, the protocol list has been fetched). *)
Lemma fetcher_after_not_found (cfg : Config) (w : provider) (i : invocation) (name kind : string) :
  lookup_by_name i = Some (name, kind) ->
  outcome w (get_coingecko_id cfg name kind) = Returned PNone ->
  (forall protocol, i = TVL protocol ->
     exists lists, outcome w (get_protocols_list cfg) = Returned lists) ->
  outcome w (fetcher cfg i) = Returned PNone
  /\ requests_of (trace w (fetcher cfg i))
     = (requests_before_search cfg i ++ [search_request cfg name])%list.
Proof.
  intros Hlookup Hnone Hlist.
  pose proof (get_coingecko_id_requests cfg w name kind) as Hreq.
  destruct i; simpl in Hlookup; try discriminate; injection Hlookup as <- <-; simpl.
  - unfold get_price.
    rewrite (outcome_bind_returned _ _ _ _ Hnone), (trace_bind_returned _ _ _ _ Hnone),
      requests_of_app, Hreq. split; reflexivity.
  - unfold get_floor_price.
    rewrite (outcome_bind_returned _ _ _ _ Hnone), (trace_bind_returned _ _ _ _ Hnone),
      requests_of_app, Hreq. split; reflexivity.
  - destruct (Hlist protocol eq_refl) as [[ids geckos] Hlists].
    unfold get_protocol_tvl.
    rewrite (outcome_bind_returned _ _ _ _ Hlists), (trace_bind_returned _ _ _ _ Hlists),
      (outcome_bind_returned _ _ _ _ Hnone), (trace_bind_returned _ _ _ _ Hnone),
      !requests_of_app, Hreq, get_protocols_list_requests. split; reflexivity.
  - unfold get_fdv.
    rewrite (outcome_bind_returned _ _ _ _ Hnone), (trace_bind_returned _ _ _ _ Hnone),
      requests_of_app, Hreq. split; reflexivity.
  - unfold get_market_cap.
    rewrite (outcome_bind_returned _ _ _ _ Hnone), (trace_bind_returned _ _ _ _ Hnone),
      requests_of_app, Hreq. split; reflexivity.
Qed.

(** C2.  The lookup-by-name fetchers on a search response without the
    ["coins"] key, an absent search result for a coin.  [get_price],
    [get_fdv], [get_market_cap] and [get_protocol_tvl] make no request to
    their data endpoint, but they raise [KeyError] where they should
    return [None], and their adapters let the exception through where they
    should answer with the no-data message: it is the resolver's
    [data['coins']] (see C3).  [get_floor_price], whose resolver branch
    reads its key with [data.get('nfts')], returns [None] on a response
    without ["nfts"], and its adapter answers with the no-data message. *)
Theorem lookup_by_name_raises_on_absent_coins :
  (forall i,
      In i [Price "aave"; FDV "aave"; MarketCap "aave"; TVL "aave"] ->
      outcome absent_coins_provider (fetcher example_config i) = Raised (KeyError (PStr "coins"))
      /\ requests_of (trace absent_coins_provider (fetcher example_config i))
         = (requests_before_search example_config i ++ [search_request example_config "aave"])%list
      /\ outcome absent_coins_provider (adapter example_config i)
         = Raised (KeyError (PStr "coins")))
  /\ outcome coins_only_provider (get_floor_price example_config "aave") = Returned PNone
  /\ outcome coins_only_provider (get_nft_floor_price_tool example_config "aave")
     = Returned (FLOOR_PRICE_FAILURE_MESSAGE example_config).
Proof.
  split; [|split; reflexivity].
  intros i [<- | [<- | [<- | [<- | []]]]]; repeat split.
Qed.

(** Where the search does hold a result for the kind, and it is empty (or,
    for the NFT kind, absent), the five lookup-by-name tools do return
    [None]: when the search request meets no transport failure and its
    response holds an empty list under the key of the kind ("coins",
    "nfts") or, for the NFT kind, no such key, and, for the TVL tool, the
    protocol list has been fetched, then the fetcher returns [None], the
    only requests made are those up to the search (none to the data
    endpoint) and the adapter returns its fixed no-data message. *)
Lemma not_found_returns_none_without_data_request
        (cfg : Config) (w : provider) (i : invocation) (name kind : string)
        (resp : response) (d : list (string * pyval)) :
  lookup_by_name i = Some (name, kind) ->
  w (search_request cfg name) = Responded resp ->
  is_error_status (status_code resp) = false ->
  json resp = Returned (PDict d) ->
  Py.dict_lookup (kind ++ "s") d = Some (PList [])
  \/ (kind = "nft" /\ Py.dict_lookup "nfts" d = None) ->
  (forall protocol, i = TVL protocol ->
     exists lists, outcome w (get_protocols_list cfg) = Returned lists) ->
  outcome w (fetcher cfg i) = Returned PNone
  /\ requests_of (trace w (fetcher cfg i))
     = (requests_before_search cfg i ++ [search_request cfg name])%list
  /\ outcome w (adapter cfg i) = Returned (no_data_message cfg i).
Proof.
  intros Hlookup Hw Hs Hjson Hempty Hlist.
  assert (Hkind : kind = "coin" \/ kind = "nft").
  { destruct i; simpl in Hlookup; try discriminate; injection Hlookup as <- <-; auto. }
  assert (Hnone : outcome w (get_coingecko_id cfg name kind) = Returned PNone).
  { unfold outcome. destruct Hempty as [Hl | [-> Hl]].
    - now rewrite (get_coingecko_id_empty cfg w name resp Hw Hs kind d Hkind Hjson Hl).
    - now rewrite (get_coingecko_id_nfts_absent cfg w name resp Hw Hs d Hjson Hl). }
  destruct (fetcher_after_not_found cfg w i name kind Hlookup Hnone Hlist) as [Hout Hreq].
  split; [exact Hout|]. split; [exact Hreq|].
  now apply adapter_reports_no_data.
Qed.

(** ** Protocol TVL *)

Lemma comprehension_Forall2 (key : string) (items vs : list pyval) :
  comprehension key items = Returned vs <->
  Forall2 (fun item v => Py.getitem item (PStr key) = Returned v) items vs.
Proof.
  revert vs. induction items as [| item items IH]; intros vs; simpl.
  - split.
    + intros [= <-]. constructor.
    + intros H. inversion H. reflexivity.
  - destruct (Py.getitem item (PStr key)) as [v | e] eqn:Hitem.
    + destruct (comprehension key items) as [vs' | e] eqn:Hrest.
      * split.
        -- intros [= <-]. constructor; [assumption | now apply IH].
        -- intros H. inversion H as [| ? v' ? vs'' Hv Hvs]; subst.
           apply IH in Hvs. congruence.
      * split; [discriminate|].
        intros H. inversion H as [| ? v' ? vs'' Hv Hvs]; subst.
        apply IH in Hvs. discriminate Hvs.
    + split; [discriminate|].
      intros H. inversion H as [| ? v' ? vs'' Hv Hvs]; subst. congruence.
Qed.

(** The pair [get_protocols_list] returns holds the slug and the
    [gecko_id] of every entry of the fetched list, in its order. *)
Lemma get_protocols_list_returned (cfg : Config) (w : provider) (ids geckos : list pyval) :
  outcome w (get_protocols_list cfg) = Returned (ids, geckos) ->
  exists resp data items,
    w (protocols_request cfg) = Responded resp
    /\ is_error_status (status_code resp) = false
    /\ json resp = Returned data
    /\ Py.iter data = Returned items
    /\ Forall2 (fun item v => Py.getitem item (PStr "slug") = Returned v) items ids
    /\ Forall2 (fun item v => Py.getitem item (PStr "gecko_id") = Returned v) items geckos.
Proof.
  unfold get_protocols_list, outcome. intros Hout.
  destruct (transport_failure (w (protocols_request cfg))) eqn:Hf.
  - unfold protocols_request in Hf. rewrite (run_request_failed _ _ _ _ _ Hf) in Hout.
    discriminate Hout.
  - destruct (w (protocols_request cfg)) as [| resp] eqn:Hw; [discriminate|]. simpl in Hf.
    unfold protocols_request in Hw. rewrite (run_request_ok _ _ _ _ _ _ Hw Hf) in Hout.
    unfold outcome in Hout. simpl in Hout.
    destruct (json resp) as [data | e] eqn:Hjson; simpl in Hout.
    2:{ unfold log_and_reraise in Hout. destruct (is_RequestException e); discriminate Hout. }
    destruct (Py.iter data) as [items | e] eqn:Hiter; simpl in Hout.
    2:{ unfold log_and_reraise in Hout. destruct (is_RequestException e); discriminate Hout. }
    destruct (comprehension "slug" items) as [ss | e] eqn:Hslug; simpl in Hout.
    2:{ unfold log_and_reraise in Hout. destruct (is_RequestException e); discriminate Hout. }
    destruct (comprehension "gecko_id" items) as [gs | e] eqn:Hgecko; simpl in Hout.
    2:{ unfold log_and_reraise in Hout. destruct (is_RequestException e); discriminate Hout. }
    injection Hout as <- <-.
    exists resp, data, items. repeat split; try assumption; now apply comprehension_Forall2.
Qed.

Lemma get_protocol_tvl_after_lookups
      (cfg : Config) (w : provider) (name : string) (ids geckos : list pyval) (tag : pyval) :
  outcome w (get_protocols_list cfg) = Returned (ids, geckos) ->
  outcome w (get_coingecko_id cfg name "coin") = Returned tag ->
  let rest :=
    if negb (Py.truthy tag) then Ret PNone
    else if negb (Py.truthy (next_match ids geckos tag)) then Ret PNone
    else try_except
           (response <- requests_get
                          (DEFILLAMA_BASE_URL cfg ++ "/tvl/" ++ Py.str (next_match ids geckos tag)) [] ;;
            raise_for_status response ;;
            payload <- lift (json response) ;;
            Ret payload)
           (log_and_reraise "Failed to retrieve protocol TVL: ") in
  outcome w (get_protocol_tvl cfg name) = outcome w rest
  /\ requests_of (trace w (get_protocol_tvl cfg name))
     = ([protocols_request cfg; search_request cfg name] ++ requests_of (trace w rest))%list.
Proof.
  intros Hlist Htag rest. unfold get_protocol_tvl.
  rewrite (outcome_bind_returned _ _ _ _ Hlist), (trace_bind_returned _ _ _ _ Hlist),
    (outcome_bind_returned _ _ _ _ Htag), (trace_bind_returned _ _ _ _ Htag),
    !requests_of_app, get_coingecko_id_requests, get_protocols_list_requests.
  split; reflexivity.
Qed.

(** C4, as stated, fails: the list entry for the resolved id is found,
    yet no request goes to the TVL endpoint and [None] is returned, because
    the slug of the entry is empty. *)
Lemma matched_entry_with_empty_slug_returns_none :
  outcome empty_slug_provider (get_protocols_list example_config)
  = Returned ([PStr EmptyString], [PStr "aave"])
  /\ outcome empty_slug_provider (get_coingecko_id example_config "aave" "coin")
     = Returned (PStr "aave")
  /\ run empty_slug_provider (get_protocol_tvl example_config "aave")
     = ([EvGet (protocols_request example_config); EvGet (search_request example_config "aave")],
        Returned PNone).
Proof. repeat split. Qed.

(** C4, as amended.  [get_protocol_tvl] first fetches the protocol list,
    then resolves the name, and selects the first entry whose [gecko_id]
    equals the resolved id.  When the resolution gives nothing, when no
    entry matches, or when the slug of the selected entry is empty, it
    returns [None] and the protocol list and the search are the only
    requests made.  Otherwise the third and last request is the one to the
    TVL endpoint of the selected slug, and, that request meeting no
    transport failure, the outcome is that of [response.json()]: the
    decoded payload, returned as it is. *)
Theorem get_protocol_tvl_selects_by_gecko_id
        (cfg : Config) (w : provider) (name : string) (ids geckos : list pyval) (tag : pyval) :
  outcome w (get_protocols_list cfg) = Returned (ids, geckos) ->
  outcome w (get_coingecko_id cfg name "coin") = Returned tag ->
  let selected := find (fun entry => Py.eq (snd entry) tag) (combine ids geckos) in
  let none_without_tvl_request :=
    outcome w (get_protocol_tvl cfg name) = Returned PNone
    /\ requests_of (trace w (get_protocol_tvl cfg name))
       = [protocols_request cfg; search_request cfg name] in
  (Py.truthy tag = false -> none_without_tvl_request)
  /\ (selected = None -> none_without_tvl_request)
  /\ (forall slug g, selected = Some (slug, g) -> Py.truthy slug = false ->
      none_without_tvl_request)
  /\ (forall slug g, Py.truthy tag = true -> selected = Some (slug, g) -> Py.truthy slug = true ->
      requests_of (trace w (get_protocol_tvl cfg name))
      = [protocols_request cfg; search_request cfg name; tvl_request cfg slug]
      /\ forall resp, w (tvl_request cfg slug) = Responded resp ->
                      is_error_status (status_code resp) = false ->
                      outcome w (get_protocol_tvl cfg name) = json resp).
Proof.
  intros Hlist Htag selected none_without_tvl_request.
  destruct (get_protocol_tvl_after_lookups cfg w name ids geckos tag Hlist Htag) as [Hout Hreq].
  subst none_without_tvl_request. rewrite Hout, Hreq. clear Hout Hreq.
  unfold next_match. fold selected.
  split; [|split; [|split]].
  - intros ->. split; reflexivity.
  - intros ->. destruct (Py.truthy tag); split; reflexivity.
  - intros slug g -> Hslug. simpl fst. rewrite Hslug.
    destruct (Py.truthy tag); split; reflexivity.
  - intros slug g Htrue -> Hslug. simpl fst. rewrite Htrue, Hslug. simpl negb. cbv iota.
    split.
    + rewrite requests_of_request_block; [reflexivity | intros; no_requests_tac].
    + intros resp Hw Hs. unfold outcome at 1. unfold tvl_request in Hw.
      rewrite (run_request_ok _ _ _ _ _ _ Hw Hs). unfold outcome. simpl.
      destruct (json resp) as [payload | e]; simpl; [reflexivity|].
      unfold log_and_reraise. now destruct (is_RequestException e).
Qed.

(** ** Message templates *)

Lemma append_assoc (a b c : string) : (a ++ b) ++ c = a ++ b ++ c.
Proof. induction a as [| x a IH]; simpl; [reflexivity | now rewrite IH]. Qed.

Lemma contains_append_left (s sub prefix : string) :
  contains s sub -> contains (prefix ++ s) sub.
Proof.
  intros (before & after & ->). exists (prefix ++ before), after.
  now rewrite append_assoc.
Qed.

Lemma str_format_returns (tpl : template) (kwargs : list (string * pyval)) :
  Forall (fun name => Py.dict_lookup name kwargs <> None) (fields tpl) ->
  exists s, str_format tpl kwargs = Returned s.
Proof.
  induction tpl as [| [t | name] tpl IH]; simpl; intros Hall.
  - eexists; reflexivity.
  - destruct (IH Hall) as [s ->]. eexists; reflexivity.
  - inversion Hall as [| ? ? Hname Hrest]; subst.
    destruct (Py.dict_lookup name kwargs) as [v|]; [|now destruct Hname].
    destruct (IH Hrest) as [s ->]. eexists; reflexivity.
Qed.

Lemma str_format_raised (tpl : template) (kwargs : list (string * pyval)) (e : exn) :
  str_format tpl kwargs = Raised e -> is_RequestException e = false.
Proof.
  induction tpl as [| [t | name] tpl IH]; simpl; [discriminate | |].
  - destruct (str_format tpl kwargs) as [rest | e']; [discriminate|].
    intros [= <-]. now apply IH.
  - destruct (Py.dict_lookup name kwargs) as [v|].
    + destruct (str_format tpl kwargs) as [rest | e']; [discriminate|].
      intros [= <-]. now apply IH.
    + intros [= <-]. reflexivity.
Qed.

Lemma str_format_contains (tpl : template) (kwargs : list (string * pyval))
      (s name : string) (v : pyval) :
  str_format tpl kwargs = Returned s ->
  In name (fields tpl) ->
  Py.dict_lookup name kwargs = Some v ->
  contains s (Py.str v).
Proof.
  revert s. induction tpl as [| [t | field] tpl IH]; simpl; intros s Hs Hin Hv.
  - destruct Hin.
  - destruct (str_format tpl kwargs) as [rest | e]; [|discriminate].
    injection Hs as <-. apply contains_append_left. now apply IH.
  - destruct (Py.dict_lookup field kwargs) as [v' |] eqn:Hfield; [|discriminate].
    destruct (str_format tpl kwargs) as [rest | e]; [|discriminate].
    injection Hs as <-.
    destruct Hin as [-> | Hin].
    + rewrite Hv in Hfield. injection Hfield as <-.
      exists EmptyString, rest. reflexivity.
    + apply contains_append_left. now apply IH.
Qed.

(** ** The price tool, end to end *)

(** C7.  When the search resolves "bitcoin" to the id "bitcoin" and the
    pricing endpoint answers [{"bitcoin": {"usd": 64000}}],
    [get_coin_price_tool("bitcoin")] returns the success template formatted
    with the coin name and the price; with a template whose fields are
    [coin_name] and [price], both present, that message contains "bitcoin"
    and "64000".  When the search finds no coin (an empty list), it returns
    the fixed price-failure message. *)
Theorem get_coin_price_tool_bitcoin (cfg : Config) :
  (forall w resp,
      outcome w (get_coingecko_id cfg "bitcoin" "coin") = Returned (PStr "bitcoin") ->
      w (GET (COINGECKO_BASE_URL cfg ++ "/simple/price")
             [("ids", PStr "bitcoin"); ("vs_currencies", PStr "USD")]) = Responded resp ->
      is_error_status (status_code resp) = false ->
      json resp = Returned (PDict [("bitcoin", PDict [("usd", PInt 64000)])]) ->
      outcome w (get_coin_price_tool cfg "bitcoin")
      = str_format (PRICE_SUCCESS_MESSAGE cfg)
          [("coin_name", PStr "bitcoin"); ("price", PInt 64000)]
      /\ (Forall (fun name => name = "coin_name" \/ name = "price")
                 (fields (PRICE_SUCCESS_MESSAGE cfg)) ->
          In "coin_name" (fields (PRICE_SUCCESS_MESSAGE cfg)) ->
          In "price" (fields (PRICE_SUCCESS_MESSAGE cfg)) ->
          exists s, outcome w (get_coin_price_tool cfg "bitcoin") = Returned s
                    /\ contains s "bitcoin" /\ contains s "64000"))
  /\ (forall w resp d,
         w (search_request cfg "bitcoin") = Responded resp ->
         is_error_status (status_code resp) = false ->
         json resp = Returned (PDict d) ->
         Py.dict_lookup "coins" d = Some (PList []) ->
         outcome w (get_coin_price_tool cfg "bitcoin") = Returned (PRICE_FAILURE_MESSAGE cfg)).
Proof.
  split.
  - intros w resp Hid Hw Hs Hjson.
    assert (Hprice : outcome w (get_price cfg "bitcoin") = Returned (PInt 64000)).
    { unfold get_price. rewrite (outcome_bind_returned _ _ _ _ Hid). simpl Py.truthy. simpl negb.
      cbv iota. unfold outcome at 1. rewrite (run_request_ok _ _ _ _ _ _ Hw Hs).
      simpl snd. rewrite Hjson. reflexivity. }
    assert (Hsaid : outcome w (get_coin_price_tool cfg "bitcoin")
                    = str_format (PRICE_SUCCESS_MESSAGE cfg)
                        [("coin_name", PStr "bitcoin"); ("price", PInt 64000)]).
    { unfold get_coin_price_tool.
      rewrite outcome_try_except, (outcome_bind_returned _ _ _ _ Hprice). simpl Py.is_None.
      cbv iota. unfold outcome. rewrite run_lift. simpl snd.
      destruct (str_format _ _) as [s | e] eqn:Hfmt; [reflexivity|].
      pose proof (str_format_raised _ _ _ Hfmt) as He.
      unfold return_on_RequestException. now rewrite He. }
    split; [exact Hsaid|].
    intros Hall Hcoin Hprice_field.
    destruct (str_format_returns (PRICE_SUCCESS_MESSAGE cfg)
                [("coin_name", PStr "bitcoin"); ("price", PInt 64000)]) as [s Hs'].
    { eapply Forall_impl; [|exact Hall]. intros name [-> | ->]; simpl; discriminate. }
    exists s. rewrite Hsaid. split; [exact Hs'|]. split.
    + apply (str_format_contains _ _ s "coin_name" (PStr "bitcoin") Hs' Hcoin eq_refl).
    + apply (str_format_contains _ _ s "price" (PInt 64000) Hs' Hprice_field eq_refl).
  - intros w resp d Hw Hs Hjson Hcoins.
    pose proof (get_coingecko_id_empty cfg w "bitcoin" resp Hw Hs "coin" d
                  (or_introl eq_refl) Hjson Hcoins) as Hrun.
    assert (Hnone : outcome w (get_coingecko_id cfg "bitcoin" "coin") = Returned PNone)
      by (unfold outcome; now rewrite Hrun).
    apply (adapter_reports_no_data cfg w (Price "bitcoin")).
    simpl. unfold get_price. now rewrite (outcome_bind_returned _ _ _ _ Hnone).
Qed.

(** ** The sequence matcher *)

Section MatcherBounds.

Import SequenceMatcher.

Variables a b : list ascii.

Lemma inner_loop_within (blo bhi alo i : nat) (x : ascii) :
  alo <= i ->
  forall (bs : list ascii) (j before : nat) (j2len : list nat) (best : Match),
    before <= i - alo ->
    Forall (fun k => k <= i - alo) j2len ->
    within alo (S i) best ->
    Forall (fun k => k <= S (i - alo)) (fst (inner_loop b blo bhi i x bs j before j2len best))
    /\ within alo (S i) (snd (inner_loop b blo bhi i x bs j before j2len best)).
Proof.
  intros Hi. induction bs as [| y bs IH]; intros j before j2len best Hbefore Hrow Hbest; simpl.
  - split; [constructor | exact Hbest].
  - set (k := if (blo <=? j)%nat && (j <? bhi)%nat && Ascii.eqb x y && negb (bpopular b y)
              then S before else 0).
    assert (Hk : k <= S (i - alo)) by (subst k; destruct (_ && _); lia).
    match goal with
    | |- context [inner_loop b blo bhi i x bs (S j) ?before' ?row' ?best'] =>
        specialize (IH (S j) before' row' best')
    end.
    destruct (inner_loop b blo bhi i x bs (S j) _ _ _) as [newj2len best''].
    simpl in *. destruct IH as [IHrow IHbest].
    + destruct Hrow; simpl; [lia | assumption].
    + destruct Hrow; simpl; [constructor | assumption].
    + destruct best as [[besti bestj] bestsize].
      destruct (bestsize <? k)%nat eqn:Hlt; [|exact Hbest].
      apply Nat.ltb_lt in Hlt. simpl. lia.
    + split; [constructor; assumption | exact IHbest].
Qed.

Lemma outer_loop_within (blo bhi alo : nat) :
  forall (n s : nat) (state : list nat * Match),
    alo <= s ->
    Forall (fun k => k <= s - alo) (fst state) ->
    within alo s (snd state) ->
    within alo (s + n) (snd (fold_left (outer_step a b blo bhi) (seq s n) state)).
Proof.
  induction n as [| n IH]; intros s state Hs Hrow Hbest; simpl.
  - now rewrite Nat.add_0_r.
  - replace (s + S n) with (S s + n) by lia.
    assert (Hbest' : within alo (S s) (snd state)).
    { destruct (snd state) as [[i j] k]. simpl in *. lia. }
    assert (Hstep : Forall (fun k => k <= S s - alo) (fst (outer_step a b blo bhi state s))
                    /\ within alo (S s) (snd (outer_step a b blo bhi state s))).
    { unfold outer_step. destruct (nth_error a s) as [x|].
      - replace (S s - alo) with (S (s - alo)) by lia.
        apply (inner_loop_within blo bhi alo s x Hs); [lia | exact Hrow | exact Hbest'].
      - split; [constructor | exact Hbest']. }
    apply IH; [lia | apply Hstep | apply Hstep].
Qed.

Lemma extend_left_within (alo blo : nat) :
  forall besti bestj bestsize : nat,
    alo <= besti ->
    within alo (besti + bestsize) (extend_left a b alo blo besti bestj bestsize).
Proof.
  induction besti as [| i' IH]; intros bestj bestsize Hlo; simpl.
  - lia.
  - destruct (_ && _) eqn:Hguard.
    + apply andb_true_iff in Hguard as [Hguard _].
      apply andb_true_iff in Hguard as [Hguard _]. apply Nat.ltb_lt in Hguard.
      replace (S (i' + bestsize)) with (i' + S bestsize) by lia.
      apply IH. lia.
    + simpl. lia.
Qed.

Lemma extend_right_within (ahi bhi besti bestj : nat) :
  forall fuel bestsize : nat,
    besti + bestsize <= ahi ->
    besti + extend_right a b fuel ahi bhi besti bestj bestsize <= ahi.
Proof.
  induction fuel as [| fuel IH]; intros bestsize Hhi; simpl; [exact Hhi|].
  destruct (_ && _) eqn:Hguard; [|exact Hhi].
  apply andb_true_iff in Hguard as [Hguard _].
  apply andb_true_iff in Hguard as [Hguard _]. apply Nat.ltb_lt in Hguard.
  apply IH. lia.
Qed.

(** The loop to the right never stops for want of fuel. *)
Lemma extend_right_enough_fuel (ahi bhi besti bestj : nat) :
  forall fuel fuel' bestsize : nat,
    ahi - (besti + bestsize) <= fuel ->
    ahi - (besti + bestsize) <= fuel' ->
    extend_right a b fuel ahi bhi besti bestj bestsize
    = extend_right a b fuel' ahi bhi besti bestj bestsize.
Proof.
  induction fuel as [| fuel IH]; intros fuel' bestsize Hfuel Hfuel'.
  - destruct fuel' as [| fuel']; simpl; [reflexivity|].
    assert (Hend : (besti + bestsize <? ahi)%nat = false) by (apply Nat.ltb_ge; lia).
    now rewrite Hend.
  - destruct fuel' as [| fuel']; simpl.
    + assert (Hend : (besti + bestsize <? ahi)%nat = false) by (apply Nat.ltb_ge; lia).
      now rewrite Hend.
    + destruct (_ && _); [|reflexivity]. apply IH; lia.
Qed.

(** The longest match lies in the range of [a] it was looked for in. *)
Lemma find_longest_match_within (alo ahi blo bhi : nat) :
  alo <= ahi ->
  within alo ahi (find_longest_match a b alo ahi blo bhi).
Proof.
  intros Hrange. unfold find_longest_match.
  pose proof (outer_loop_within blo bhi alo (ahi - alo) alo ([], (alo, blo, 0))
                (le_n alo) (Forall_nil _)) as Hloop.
  replace (alo + (ahi - alo)) with ahi in Hloop by lia.
  destruct (snd (fold_left _ _ _)) as [[besti bestj] bestsize].
  assert (Hbest : alo <= besti /\ besti + bestsize <= ahi) by (apply Hloop; simpl; lia).
  pose proof (extend_left_within alo blo besti bestj bestsize (proj1 Hbest)) as Hleft.
  destruct (extend_left a b alo blo besti bestj bestsize) as [[i j] k].
  simpl in Hleft |- *. split; [lia|].
  apply extend_right_within. lia.
Qed.

(** The recursion of [get_matching_blocks] ends: with more fuel than the
    range of [a] is long, the sum of the block sizes does not depend on the
    fuel. *)
Lemma matching_fuel (fuel fuel' : nat) :
  forall alo ahi blo bhi : nat,
    alo <= ahi ->
    ahi - alo < fuel ->
    ahi - alo < fuel' ->
    matching a b fuel alo ahi blo bhi = matching a b fuel' alo ahi blo bhi.
Proof.
  revert fuel'. induction fuel as [| fuel IH]; intros fuel' alo ahi blo bhi Hrange Hfuel Hfuel';
    [lia|].
  destruct fuel' as [| fuel']; [lia|]. simpl.
  pose proof (find_longest_match_within alo ahi blo bhi Hrange) as Hin.
  destruct (find_longest_match a b alo ahi blo bhi) as [[i j] k]. simpl in Hin.
  destruct (k =? 0)%nat eqn:Hk; [reflexivity|]. apply Nat.eqb_neq in Hk.
  f_equal; [f_equal|].
  - destruct (_ && _) eqn:Hguard; [|reflexivity].
    apply andb_true_iff in Hguard as [Hguard _]. apply Nat.ltb_lt in Hguard.
    apply IH; lia.
  - destruct (_ && _) eqn:Hguard; [|reflexivity].
    apply andb_true_iff in Hguard as [Hguard _]. apply Nat.ltb_lt in Hguard.
    apply IH; lia.
Qed.

Lemma matching_enough_fuel (fuel : nat) :
  List.length a < fuel ->
  matching a b fuel 0 (List.length a) 0 (List.length b) = matches a b.
Proof.
  intros Hfuel. unfold matches. apply matching_fuel; lia.
Qed.

End MatcherBounds.

(** The examples of [difflib]'s documentation, and the ratios of the
    specification's example. *)
Lemma find_longest_match_documented :
  SequenceMatcher.find_longest_match
    (list_ascii_of_string " abcd") (list_ascii_of_string "abcd abcd") 0 5 0 9
  = (0, 4, 5).
Proof. reflexivity. Qed.

Lemma ratio_documented :
  SequenceMatcher.ratio "abcd" "bcde" = (6 # 8)%Q
  /\ SequenceMatcher.ratio "qabxcd" "abycdf" = (8 # 12)%Q
  /\ SequenceMatcher.ratio "private Thread currentThread;"
                           "private volatile Thread currentThread;" = (58 # 67)%Q.
Proof. repeat split; vm_compute; reflexivity. Qed.

Lemma ratio_of_the_example :
  SequenceMatcher.ratio "uniswap v3" "uniswap" = (14 # 17)%Q
  /\ SequenceMatcher.ratio "uniswap v3" "sushiswap" = (12 # 19)%Q
  /\ SequenceMatcher.ratio "uniswap v3" "pancakeswap" = (10 # 21)%Q.
Proof. repeat split; vm_compute; reflexivity. Qed.

(** ** The best-match utility *)

(** *** Slices and sorted lists *)

Lemma last_n_length {A : Type} (n : nat) (l : list A) :
  List.length (last_n n l) = Nat.min n (List.length l).
Proof. unfold last_n. rewrite length_skipn. lia. Qed.

Lemma last_n_split {A : Type} (n : nat) (l : list A) :
  l = (firstn (List.length l - n) l ++ last_n n l)%list.
Proof. unfold last_n. now rewrite firstn_skipn. Qed.

Lemma StronglySorted_app {A : Type} (R : A -> A -> Prop) (l1 l2 : list A) :
  StronglySorted R (l1 ++ l2)%list ->
  StronglySorted R l2 /\ forall x y, In x l1 -> In y l2 -> R x y.
Proof.
  induction l1 as [| x l1 IH]; simpl; intros Hsorted.
  - split; [exact Hsorted | intros x y []].
  - apply StronglySorted_inv in Hsorted as [Hrest Hx].
    destruct (IH Hrest) as [Hl2 Hcross]. split; [exact Hl2|].
    intros x' y [<- | Hin] Hy.
    + rewrite Forall_forall in Hx. apply Hx, in_or_app. now right.
    + now apply Hcross.
Qed.

Lemma StronglySorted_rev {A : Type} (R : A -> A -> Prop) (l : list A) :
  StronglySorted R l -> StronglySorted (fun x y => R y x) (rev l).
Proof.
  induction 1 as [| x l Hl IH Hx]; simpl; [constructor|].
  assert (Hsnoc : forall l', StronglySorted (fun x y => R y x) l' ->
                             Forall (fun y => R x y) l' ->
                             StronglySorted (fun x y => R y x) (l' ++ [x])%list).
  { induction l' as [| y l' IHl']; simpl; intros Hsorted Hall.
    - repeat constructor.
    - apply StronglySorted_inv in Hsorted as [Hrest Hy].
      apply Forall_cons_iff in Hall as [Hxy Hall].
      constructor; [now apply IHl'|].
      apply Forall_app. split; [exact Hy | now constructor]. }
  apply Hsnoc; [exact IH|].
  rewrite Forall_forall in *. intros y Hy. apply Hx. now apply in_rev.
Qed.

(** *** The comprehension and [max] *)

Lemma candidates_at_in_range (data : list string) (top_indices : list nat) :
  Forall (fun item => item < List.length data) top_indices ->
  exists res,
    candidates_at data top_indices = Returned res
    /\ Forall2 (fun item candidate => nth_error data item = Some candidate) top_indices res.
Proof.
  induction 1 as [| item rest Hitem Hrest (res & Hres & Hall)]; simpl.
  - exists []. split; [reflexivity | constructor].
  - apply nth_error_Some in Hitem.
    destruct (nth_error data item) as [candidate|] eqn:Hnth; [|contradiction].
    rewrite Hres. exists (candidate :: res). split; [reflexivity | now constructor].
Qed.

Lemma skipn_cons_nth_error {A : Type} (l : list A) :
  forall (i : nat) (x : A) (rest : list A),
    skipn i l = x :: rest -> nth_error l i = Some x /\ skipn (S i) l = rest.
Proof.
  induction l as [| y l IH]; intros [| i] x rest; simpl; try discriminate.
  - intros [= -> ->]. split; reflexivity.
  - apply IH.
Qed.

(** [max] over the indices returns the first index of a greatest key. *)
Lemma max_from_first_greatest (all : list Q) :
  forall (sim : list Q) (i max_index : nat) (max_val : Q),
    sim = skipn i all ->
    nth_error all max_index = Some max_val ->
    (forall j v, j < i -> nth_error all j = Some v -> (v <= max_val)%Q) ->
    (forall j v, j < max_index -> nth_error all j = Some v -> (v < max_val)%Q) ->
    exists best,
      nth_error all (max_from sim i max_index max_val) = Some best
      /\ (forall j v, nth_error all j = Some v -> (v <= best)%Q)
      /\ (forall j v, j < max_from sim i max_index max_val ->
                      nth_error all j = Some v -> (v < best)%Q).
Proof.
  induction sim as [| val rest IH]; intros i max_index max_val Hsim Hmax Hseen Hfirst; simpl.
  - exists max_val. split; [exact Hmax|]. split; [|exact Hfirst].
    intros j v Hj. apply (Hseen j v); [|exact Hj].
    assert (Hlen : List.length (skipn i all) = 0) by now rewrite <- Hsim.
    rewrite length_skipn in Hlen.
    assert (j < List.length all) by (apply nth_error_Some; congruence). lia.
  - symmetry in Hsim. apply skipn_cons_nth_error in Hsim as [Hval Hrest].
    destruct (Qlt_le_dec max_val val) as [Hlt | Hle].
    + apply IH; [now symmetry | exact Hval | |].
      * intros j v Hj Hv. destruct (Nat.eq_dec j i) as [-> | Hne].
        -- rewrite Hval in Hv. injection Hv as <-. apply Qle_refl.
        -- apply Qle_trans with max_val; [apply (Hseen j v); [lia | exact Hv]|].
           now apply Qlt_le_weak.
      * intros j v Hj Hv. apply Qle_lt_trans with max_val; [|exact Hlt].
        now apply (Hseen j v).
    + apply IH; [now symmetry | exact Hmax | | exact Hfirst].
      intros j v Hj Hv. destruct (Nat.eq_dec j i) as [-> | Hne].
      * rewrite Hval in Hv. now injection Hv as <-.
      * apply (Hseen j v); [lia | exact Hv].
Qed.

Lemma max_index_of_first_greatest (sim : list Q) :
  sim <> [] ->
  exists k best,
    max_index_of sim = Returned k
    /\ nth_error sim k = Some best
    /\ (forall j v, nth_error sim j = Some v -> (v <= best)%Q)
    /\ (forall j v, j < k -> nth_error sim j = Some v -> (v < best)%Q).
Proof.
  destruct sim as [| val rest]; [now intros [] | intros _].
  destruct (max_from_first_greatest (val :: rest) rest 1 0 val) as (best & Hbest & Hall & Hfirst).
  - reflexivity.
  - reflexivity.
  - intros [| j] v Hj; [|lia]. simpl. intros [= <-]. apply Qle_refl.
  - intros j v Hj. lia.
  - exists (max_from rest 1 0 val), best. now split.
Qed.

Section BestMatchProperties.

Variable score : Type.
Variable score_le : score -> score -> Prop.
Variable similarity_scores : string -> list string -> result (list score).
Variable argsort : list score -> list nat.

(** Narrowing, then re-ranking. *)
Lemma get_most_similar_two_stages (text : string) (data : list string) (scores : list score) :
  data <> [] ->
  similarity_scores text data = Returned scores ->
  Permutation (argsort scores) (seq 0 (List.length data)) ->
  StronglySorted (rank_le score_le scores) (argsort scores) ->
  exists (top : list nat) (res : list string) (k : nat) (best : string),
    List.length top = Nat.min 20 (List.length data)
    /\ NoDup top
    /\ StronglySorted (fun i j => rank_le score_le scores j i) top
    /\ (forall i j, i < List.length data -> ~ In i top -> In j top ->
                    rank_le score_le scores i j)
    /\ Forall2 (fun i candidate => nth_error data i = Some candidate) top res
    /\ get_most_similar score similarity_scores argsort text data = Returned best
    /\ nth_error res k = Some best
    /\ (forall candidate, In candidate res ->
          (SequenceMatcher.ratio text candidate <= SequenceMatcher.ratio text best)%Q)
    /\ (forall j candidate, j < k -> nth_error res j = Some candidate ->
          (SequenceMatcher.ratio text candidate < SequenceMatcher.ratio text best)%Q).
Proof.
  intros Hdata Hscores Hperm Hsorted.
  set (indices := argsort scores) in *.
  assert (Hlen : List.length indices = List.length data)
    by (rewrite (Permutation_length Hperm); apply length_seq).
  assert (Hnodup : NoDup indices)
    by (apply (Permutation_NoDup (Permutation_sym Hperm)), seq_NoDup).
  assert (Hrange : forall i, In i indices <-> i < List.length data).
  { intros i. split.
    - intros Hin. apply (Permutation_in _ Hperm), in_seq in Hin. lia.
    - intros Hi. apply (Permutation_in _ (Permutation_sym Hperm)), in_seq. lia. }
  pose proof (last_n_split 20 indices) as Hsplit.
  assert (Hlast : forall i, In i (last_n 20 indices) -> In i indices).
  { intros i Hi. rewrite Hsplit. apply in_or_app. now right. }
  rewrite Hsplit in Hsorted, Hnodup.
  apply StronglySorted_app in Hsorted as [Hsorted Hcross].
  destruct (candidates_at_in_range data (rev (last_n 20 indices))) as (res & Hres & Hall).
  { apply Forall_forall. intros i Hi. apply Hrange, Hlast. now apply in_rev. }
  assert (Hreslen : List.length res = Nat.min 20 (List.length data)).
  { rewrite <- (Forall2_length Hall), length_rev, last_n_length. lia. }
  destruct (max_index_of_first_greatest (map (SequenceMatcher.ratio text) res))
    as (k & q & Hk & Hq & Hgreatest & Hfirst).
  { destruct res, data; simpl in *; try discriminate; congruence. }
  rewrite nth_error_map in Hq.
  destruct (nth_error res k) as [best|] eqn:Hbest; [|discriminate]. injection Hq as <-.
  exists (rev (last_n 20 indices)), res, k, best.
  split; [rewrite length_rev, last_n_length; lia|].
  split; [apply NoDup_rev; now apply NoDup_app_remove_l in Hnodup|].
  split; [now apply StronglySorted_rev|].
  split.
  { intros i j Hi Hnot Hj. apply in_rev in Hj. apply Hcross; [|exact Hj].
    apply Hrange in Hi. rewrite Hsplit in Hi. apply in_app_or in Hi as [Hi | Hi]; [exact Hi|].
    exfalso. apply Hnot. now apply -> in_rev. }
  split; [exact Hall|].
  split.
  { unfold get_most_similar. rewrite Hscores.
    fold indices. rewrite Hres, Hk, Hbest. reflexivity. }
  split; [exact Hbest|].
  split.
  - intros candidate Hin. apply In_nth_error in Hin as [j Hj].
    apply (Hgreatest j). now rewrite nth_error_map, Hj.
  - intros j candidate Hj Hnth. apply (Hfirst j); [exact Hj|].
    now rewrite nth_error_map, Hnth.
Qed.

(** The example of the specification. *)
Lemma get_most_similar_uniswap (scores : list score) :
  similarity_scores "uniswap v3" ["uniswap"; "sushiswap"; "pancakeswap"] = Returned scores ->
  Permutation (argsort scores) (seq 0 3) ->
  get_most_similar score similarity_scores argsort
    "uniswap v3" ["uniswap"; "sushiswap"; "pancakeswap"]
  = Returned "uniswap".
Proof.
  intros Hscores Hperm.
  pose proof (Permutation_length Hperm) as Hlen.
  assert (Hnodup : NoDup (argsort scores))
    by (apply (Permutation_NoDup (Permutation_sym Hperm)), seq_NoDup).
  assert (Hrange : forall i, In i (argsort scores) -> i < 3).
  { intros i Hin. apply (Permutation_in _ Hperm), in_seq in Hin. lia. }
  unfold get_most_similar. rewrite Hscores.
  destruct (argsort scores) as [| x [| y [| z [| ? ?]]]]; try discriminate Hlen.
  assert (Hx : x < 3) by (apply Hrange; simpl; auto).
  assert (Hy : y < 3) by (apply Hrange; simpl; auto).
  assert (Hz : z < 3) by (apply Hrange; simpl; auto).
  apply NoDup_cons_iff in Hnodup as [Hxy Hnodup].
  apply NoDup_cons_iff in Hnodup as [Hyz _].
  simpl in Hxy, Hyz.
  destruct x as [| [| [| x]]]; try lia;
    destruct y as [| [| [| y]]]; try lia; try (exfalso; tauto);
    destruct z as [| [| [| z]]]; try lia; try (exfalso; tauto);
    vm_compute; reflexivity.
Qed.

End BestMatchProperties.

(** C5, as amended.  On a list of candidates that is not empty and that
    the TF-IDF scoring scores, with the indices [argsort] returns being the
    candidates' indices in ascending order of their scores,
    [get_most_similar] narrows the candidates to the 20 of the highest
    scores, all of them when they are 20 or fewer, in descending order of
    the scores; then it returns the one of these whose character-sequence
    ratio to the raw query is greatest, the first of them in that order
    when several have the greatest ratio.  In particular, with the
    candidates "uniswap", "sushiswap" and "pancakeswap" and the query
    "uniswap v3" it returns "uniswap", whatever scores the three get. *)
Theorem get_most_similar_narrows_then_reranks
        (score : Type) (score_le : score -> score -> Prop)
        (similarity_scores : string -> list string -> result (list score))
        (argsort : list score -> list nat) :
  (forall (text : string) (data : list string) (scores : list score),
      data <> [] ->
      similarity_scores text data = Returned scores ->
      Permutation (argsort scores) (seq 0 (List.length data)) ->
      StronglySorted (rank_le score_le scores) (argsort scores) ->
      exists (top : list nat) (res : list string) (k : nat) (best : string),
        List.length top = Nat.min 20 (List.length data)
        /\ NoDup top
        /\ StronglySorted (fun i j => rank_le score_le scores j i) top
        /\ (forall i j, i < List.length data -> ~ In i top -> In j top ->
                        rank_le score_le scores i j)
        /\ Forall2 (fun i candidate => nth_error data i = Some candidate) top res
        /\ get_most_similar score similarity_scores argsort text data = Returned best
        /\ nth_error res k = Some best
        /\ (forall candidate, In candidate res ->
              (SequenceMatcher.ratio text candidate <= SequenceMatcher.ratio text best)%Q)
        /\ (forall j candidate, j < k -> nth_error res j = Some candidate ->
              (SequenceMatcher.ratio text candidate < SequenceMatcher.ratio text best)%Q))
  /\ (forall scores : list score,
         similarity_scores "uniswap v3" ["uniswap"; "sushiswap"; "pancakeswap"]
         = Returned scores ->
         Permutation (argsort scores) (seq 0 3) ->
         get_most_similar score similarity_scores argsort
           "uniswap v3" ["uniswap"; "sushiswap"; "pancakeswap"]
         = Returned "uniswap").
Proof.
  split.
  - intros text data scores. apply get_most_similar_two_stages.
  - intros scores. apply get_most_similar_uniswap.
Qed.

(** * The properties at concrete providers *)

(** C1, as stated, fails: 300 is not a 2xx status, yet [raise_for_status]
    lets it pass; the fetcher returns the balance of the body and the
    adapter the success sentence. *)
Lemma non_2xx_status_is_not_always_raised :
  is_2xx 300 = false
  /\ run status_300_provider (get_wallet_balance example_config "0xabc" "ethereum")
     = ([EvGet (GET "https://chain.test/ethereum/wallet/0xabc/balance" [])], Returned (PInt 7))
  /\ outcome status_300_provider (get_wallet_balance_tool example_config "0xabc" "ethereum")
     = Returned "Wallet balance for 0xabc on ethereum: 7".
Proof. repeat split. Qed.

(** C1 at a provider that resolves bitcoin and answers 404 to the price
    request. *)
Lemma transport_failure_raised_then_reported_witness :
  In (EvGet (GET "https://gecko.test/simple/price"
                 [("ids", PStr "bitcoin"); ("vs_currencies", PStr "USD")]))
     (trace search_only_provider (fetcher example_config (Price "bitcoin")))
  /\ outcome search_only_provider (get_price example_config "bitcoin") = Raised (HTTPError 404)
  /\ outcome search_only_provider (get_coin_price_tool example_config "bitcoin")
     = Returned "API error.".
Proof.
  assert (Hin : In (EvGet (GET "https://gecko.test/simple/price"
                               [("ids", PStr "bitcoin"); ("vs_currencies", PStr "USD")]))
                   (trace search_only_provider (fetcher example_config (Price "bitcoin")))).
  { vm_compute. right. left. reflexivity. }
  split; [exact Hin|].
  destruct (transport_failure_raised_then_reported example_config search_only_provider
              (Price "bitcoin") _ Hin eq_refl) as (Hfetch & Hsaid & _).
  split; [exact Hfetch | exact Hsaid].
Defined.

(** The TVL tool at a provider that lists aave and finds no coin for the
    name. *)
Lemma not_found_at_unknown_name_provider :
  outcome unknown_name_provider (get_protocol_tvl example_config "aave") = Returned PNone
  /\ requests_of (trace unknown_name_provider (get_protocol_tvl example_config "aave"))
     = [protocols_request example_config; search_request example_config "aave"]
  /\ outcome unknown_name_provider (get_protocol_total_value_locked_tool example_config "aave")
     = Returned "Failed to retrieve TVL.".
Proof.
  apply (not_found_returns_none_without_data_request example_config unknown_name_provider
           (TVL "aave") "aave" "coin"
           (json_response 200 (PDict [("coins", PList []); ("nfts", PList [])]))
           [("coins", PList []); ("nfts", PList [])]).
  - reflexivity.
  - reflexivity.
  - reflexivity.
  - reflexivity.
  - left. reflexivity.
  - intros protocol _. eexists. vm_compute. reflexivity.
Defined.

(** C5, as stated, fails: a list of no candidate has no best match.
    Whatever the scoring and the sort do, [get_most_similar] returns
    nothing on it: the scoring raises, or an index is out of range, or
    [max] is given an empty range. *)
Lemma get_most_similar_of_no_candidate :
  ~ exists (score : Type) (similarity_scores : string -> list string -> result (list score))
           (argsort : list score -> list nat) (text best : string),
      get_most_similar score similarity_scores argsort text [] = Returned best.
Proof.
  intros (score & similarity_scores & argsort & text & best & Hbest).
  unfold get_most_similar in Hbest.
  destruct (similarity_scores text []) as [scores | e]; [|discriminate].
  destruct (rev (last_n 20 (argsort scores))) as [| item rest]; [discriminate|].
  simpl in Hbest. destruct item; discriminate.
Qed.

(** C5 on the example of the specification, with the scoring by prefix
    and the sort by insertion: the scores are 1, 0 and 0, the narrowed
    list is the whole list with "uniswap" first, and "uniswap" is returned. *)
Lemma get_most_similar_narrows_then_reranks_witness :
  (exists (top : list nat) (res : list string) (k : nat) (best : string),
      List.length top = 3
      /\ NoDup top
      /\ StronglySorted (fun i j => rank_le le [1; 0; 0] j i) top
      /\ (forall i j, i < 3 -> ~ In i top -> In j top -> rank_le le [1; 0; 0] i j)
      /\ Forall2 (fun i candidate =>
                    nth_error ["uniswap"; "sushiswap"; "pancakeswap"] i = Some candidate)
                 top res
      /\ get_most_similar nat prefix_scores stable_argsort
           "uniswap v3" ["uniswap"; "sushiswap"; "pancakeswap"] = Returned best
      /\ nth_error res k = Some best
      /\ (forall candidate, In candidate res ->
            (SequenceMatcher.ratio "uniswap v3" candidate
             <= SequenceMatcher.ratio "uniswap v3" best)%Q)
      /\ (forall j candidate, j < k -> nth_error res j = Some candidate ->
            (SequenceMatcher.ratio "uniswap v3" candidate
             < SequenceMatcher.ratio "uniswap v3" best)%Q))
  /\ get_most_similar nat prefix_scores stable_argsort
       "uniswap v3" ["uniswap"; "sushiswap"; "pancakeswap"]
     = Returned "uniswap".
Proof.
  assert (Hperm : Permutation (stable_argsort [1; 0; 0]) (seq 0 3)).
  { vm_compute. apply perm_trans with [1; 0; 2].
    - apply perm_skip, perm_swap.
    - apply perm_swap. }
  destruct (get_most_similar_narrows_then_reranks nat le prefix_scores stable_argsort)
    as [Hgeneral Hexample].
  split.
  - apply (Hgeneral "uniswap v3" ["uniswap"; "sushiswap"; "pancakeswap"] [1; 0; 0]).
    + discriminate.
    + reflexivity.
    + exact Hperm.
    + vm_compute. repeat constructor; unfold rank_le; simpl; eexists; eexists;
        (split; [reflexivity|]; split; [reflexivity|]); lia.
  - apply (Hexample [1; 0; 0]); [reflexivity | exact Hperm].
Defined.

(** C4 on the example of the specification: the protocol list
    [[{"slug": "aave", "gecko_id": "aave"}]] and the resolved id "aave". *)
Lemma get_protocol_tvl_selects_by_gecko_id_witness :
  requests_of (trace aave_provider (get_protocol_tvl example_config "aave"))
  = [protocols_request example_config; search_request example_config "aave";
     tvl_request example_config (PStr "aave")]
  /\ outcome aave_provider (get_protocol_tvl example_config "aave") = Returned (PInt 12345).
Proof.
  destruct (get_protocol_tvl_selects_by_gecko_id example_config aave_provider "aave"
              [PStr "aave"] [PStr "aave"] (PStr "aave") eq_refl eq_refl)
    as (_ & _ & _ & Hsel).
  destruct (Hsel (PStr "aave") (PStr "aave") eq_refl eq_refl eq_refl) as [Hreq Hout].
  split; [exact Hreq|].
  exact (Hout (json_response 200 (PInt 12345)) eq_refl eq_refl).
Defined.

(** C6 for the kind "token", the search answering 200 with a JSON body,
    and with a body that is no JSON. *)
Lemma invalid_type_never_returns_witness :
  run bitcoin_provider (get_coingecko_id example_config "bitcoin" "token")
  = ([EvGet (search_request example_config "bitcoin")],
     Raised (ValueError "Invalid type specified"))
  /\ outcome undecodable_provider (get_coingecko_id example_config "bitcoin" "token")
     = Raised JSONDecodeError.
Proof.
  destruct (invalid_type_never_returns example_config bitcoin_provider "bitcoin" "token")
    as (_ & Hok & _); [discriminate | discriminate |].
  destruct (invalid_type_never_returns example_config undecodable_provider "bitcoin" "token")
    as (_ & _ & Hbody & _); [discriminate | discriminate |].
  split.
  - exact (Hok (json_response 200 bitcoin_search) bitcoin_search eq_refl eq_refl eq_refl).
  - exact (Hbody (Response 200 NotJson) JSONDecodeError eq_refl eq_refl eq_refl).
Defined.

(** C7 with the example configuration. *)
Lemma get_coin_price_tool_bitcoin_witness :
  (exists s, outcome bitcoin_provider (get_coin_price_tool example_config "bitcoin") = Returned s
             /\ contains s "bitcoin" /\ contains s "64000")
  /\ outcome coins_only_provider (get_coin_price_tool example_config "bitcoin")
     = Returned "Failed to retrieve price.".
Proof.
  destruct (get_coin_price_tool_bitcoin example_config) as [Hfound Hnot_found].
  split.
  - destruct (Hfound bitcoin_provider
                (json_response 200 (PDict [("bitcoin", PDict [("usd", PInt 64000)])]))
                eq_refl eq_refl eq_refl eq_refl) as [_ Hcontains].
    apply Hcontains; simpl.
    + constructor; [left; reflexivity|]. constructor; [right; reflexivity|]. constructor.
    + left. reflexivity.
    + right. left. reflexivity.
  - exact (Hnot_found coins_only_provider (json_response 200 (PDict [("coins", PList [])]))
             [("coins", PList [])] eq_refl eq_refl eq_refl eq_refl).
Defined.

(** C9 for a wallet with one transaction. *)
Lemma get_transaction_history_tool_messages_witness :
  outcome wallet_provider (get_transaction_history_tool example_config "0xabc" "ethereum")
  = Returned "Transaction history for 0xabc on ethereum: [{'hash': '0x1'}]".
Proof.
  destruct (get_transaction_history_tool_messages example_config wallet_provider
              "0xabc" "ethereum") as (_ & _ & Hsome & _).
  apply (Hsome (PList [PDict [("hash", PStr "0x1")]]) 1%Z).
  - reflexivity.
  - discriminate.
  - reflexivity.
  - discriminate.
Defined.

(** C10 at a provider whose markets endpoint answers [[]]. *)
Lemma empty_markets_index_error_escapes_witness :
  outcome empty_markets_provider (get_market_cap example_config "bitcoin") = Raised IndexError
  /\ outcome empty_markets_provider (get_coin_market_cap_tool example_config "bitcoin")
     = Raised IndexError.
Proof.
  apply (empty_markets_index_error_escapes example_config empty_markets_provider
           "bitcoin" (PStr "bitcoin") (json_response 200 (PList []))); reflexivity.
Defined.

(** * Further properties of the fetchers and the adapters *)

(** ** The requests of a run *)

Lemma requests_of_bind {A B : Type} (w : provider) (p : prog A) (f : A -> prog B) :
  requests_of (trace w (bind p f))
  = (requests_of (trace w p)
     ++ match outcome w p with
        | Returned a => requests_of (trace w (f a))
        | Raised _ => []
        end)%list.
Proof.
  destruct (outcome w p) as [a | e] eqn:Hp.
  - now rewrite (trace_bind_returned _ _ _ _ Hp), requests_of_app.
  - now rewrite (trace_bind_raised _ _ _ _ Hp), app_nil_r.
Qed.

Lemma requests_of_try_bind {A B : Type} (w : provider) (p : prog A) (f : A -> prog B)
      (h : exn -> option (prog B)) :
  (forall a, no_requests (f a)) ->
  (forall e q, h e = Some q -> no_requests q) ->
  requests_of (trace w (try_except (bind p f) h)) = requests_of (trace w p).
Proof.
  intros Hf Hh.
  assert (Hbind : requests_of (trace w (bind p f)) = requests_of (trace w p)).
  { rewrite requests_of_bind. destruct (outcome w p) as [a | e].
    - now rewrite (no_requests_run _ w (Hf a)), app_nil_r.
    - apply app_nil_r. }
  rewrite <- Hbind. unfold trace at 1. rewrite run_try_except, (run_pair w (bind p f)).
  destruct (outcome w (bind p f)) as [b | e]; [reflexivity|].
  destruct (h e) as [q|] eqn:Hq; [|reflexivity].
  rewrite (run_pair w q). simpl.
  now rewrite requests_of_app, (no_requests_run _ w (Hh e q Hq)), app_nil_r.
Qed.

Lemma adapter_requests (cfg : Config) (w : provider) (i : invocation) :
  requests_of (trace w (adapter cfg i)) = requests_of (trace w (fetcher cfg i)).
Proof.
  destruct i; simpl;
    unfold get_coin_price_tool, get_nft_floor_price_tool, get_protocol_total_value_locked_tool,
      get_fully_diluted_valuation_tool, get_coin_market_cap_tool, get_wallet_balance_tool,
      get_gas_fees_tool, get_token_metadata_tool, get_transaction_history_tool;
    (apply requests_of_try_bind;
     [ intros; no_requests_tac
     | intros e q; unfold return_on_RequestException, log_and_return_on_Exception;
       try destruct (is_RequestException e); intros [= <-]; repeat constructor ]).
Qed.

Lemma blockchain_fetcher_requests (cfg : Config) (w : provider) (i : invocation) :
  max_requests i = 1 ->
  requests_of (trace w (fetcher cfg i)) = [first_request cfg i].
Proof.
  destruct i; simpl; try discriminate; intros _;
    unfold get_wallet_balance, get_gas_fees, get_token_metadata, get_transaction_history;
    apply requests_of_request_block; intros; no_requests_tac.
Qed.

Lemma lookup_fetcher_requests (cfg : Config) (w : provider) (i : invocation) (name kind : string) :
  lookup_by_name i = Some (name, kind) ->
  max_requests i = 2 ->
  requests_of (trace w (fetcher cfg i))
  = search_request cfg name
    :: match outcome w (get_coingecko_id cfg name kind) with
       | Returned id => if Py.truthy id then [data_request cfg i id] else []
       | Raised _ => []
       end.
Proof.
  destruct i; simpl; try discriminate; intros [= <- <-] _;
    unfold get_price, get_floor_price, get_fdv, get_market_cap;
    rewrite requests_of_bind, get_coingecko_id_requests; simpl; f_equal;
    (destruct (outcome w (get_coingecko_id cfg _ _)) as [id | e]; [|reflexivity]);
    (destruct (Py.truthy id); simpl; [|reflexivity]);
    apply requests_of_request_block; intros; no_requests_tac.
Qed.

Lemma get_protocol_tvl_requests (cfg : Config) (w : provider) (name : string) :
  requests_of (trace w (get_protocol_tvl cfg name))
  = protocols_request cfg
    :: match outcome w (get_protocols_list cfg) with
       | Raised _ => []
       | Returned (ids, geckos) =>
           search_request cfg name
           :: match outcome w (get_coingecko_id cfg name "coin") with
              | Raised _ => []
              | Returned tag =>
                  if Py.truthy tag && Py.truthy (next_match ids geckos tag)
                  then [tvl_request cfg (next_match ids geckos tag)]
                  else []
              end
       end.
Proof.
  unfold get_protocol_tvl.
  rewrite requests_of_bind, get_protocols_list_requests. cbn [app]. f_equal.
  destruct (outcome w (get_protocols_list cfg)) as [[ids geckos] | e]; [|reflexivity].
  cbv beta iota. rewrite requests_of_bind, get_coingecko_id_requests. cbn [app]. f_equal.
  destruct (outcome w (get_coingecko_id cfg name "coin")) as [tag | e]; [|reflexivity].
  destruct (Py.truthy tag); cbn [negb andb]; [|reflexivity].
  destruct (Py.truthy (next_match ids geckos tag)); cbn [negb]; [|reflexivity].
  apply requests_of_request_block. intros. no_requests_tac.
Qed.

(** X1.  A tool makes the requests of its fetcher and no other: the
    adapter adds none.  Every run starts with the same request, even when
    it ends in an error, and makes at most one request for a blockchain
    tool, two for a lookup by name and three for the TVL tool: nothing is
    retried. *)
Theorem tool_requests_bounded (cfg : Config) (w : provider) (i : invocation) :
  requests_of (trace w (adapter cfg i)) = requests_of (trace w (fetcher cfg i))
  /\ hd_error (requests_of (trace w (adapter cfg i))) = Some (first_request cfg i)
  /\ length (requests_of (trace w (adapter cfg i))) <= max_requests i.
Proof.
  rewrite adapter_requests. split; [reflexivity|].
  destruct i as [coin | nft | protocol | coin | coin | a b | b | t b | a b].
  - rewrite (lookup_fetcher_requests cfg w (Price coin) coin "coin" eq_refl eq_refl).
    split; [reflexivity|]. simpl.
    destruct (outcome w _) as [id | e]; [destruct (Py.truthy id)|]; simpl; lia.
  - rewrite (lookup_fetcher_requests cfg w (FloorPrice nft) nft "nft" eq_refl eq_refl).
    split; [reflexivity|]. simpl.
    destruct (outcome w _) as [id | e]; [destruct (Py.truthy id)|]; simpl; lia.
  - simpl fetcher. rewrite get_protocol_tvl_requests. split; [reflexivity|]. simpl.
    destruct (outcome w (get_protocols_list cfg)) as [[ids geckos] | e]; simpl; [|lia].
    destruct (outcome w _) as [tag | e]; simpl; [|lia].
    destruct (Py.truthy tag && Py.truthy (next_match ids geckos tag)); simpl; lia.
  - rewrite (lookup_fetcher_requests cfg w (FDV coin) coin "coin" eq_refl eq_refl).
    split; [reflexivity|]. simpl.
    destruct (outcome w _) as [id | e]; [destruct (Py.truthy id)|]; simpl; lia.
  - rewrite (lookup_fetcher_requests cfg w (MarketCap coin) coin "coin" eq_refl eq_refl).
    split; [reflexivity|]. simpl.
    destruct (outcome w _) as [id | e]; [destruct (Py.truthy id)|]; simpl; lia.
  - rewrite (blockchain_fetcher_requests cfg w (WalletBalance a b) eq_refl). split; [reflexivity | simpl; lia].
  - rewrite (blockchain_fetcher_requests cfg w (GasFees b) eq_refl). split; [reflexivity | simpl; lia].
  - rewrite (blockchain_fetcher_requests cfg w (TokenMetadata t b) eq_refl). split; [reflexivity | simpl; lia].
  - rewrite (blockchain_fetcher_requests cfg w (TransactionHistory a b) eq_refl). split; [reflexivity | simpl; lia].
Qed.

(** X2.  A lookup by name (price, floor price, FDV, market cap) asks its
    data endpoint exactly when the resolver returned an id that is true:
    then the data request, for that id, is the second and last request;
    when the resolver returned [None] or another false value, or raised,
    the search is the only request. *)
Theorem data_endpoint_asked_iff_resolved
        (cfg : Config) (w : provider) (i : invocation) (name kind : string) :
  lookup_by_name i = Some (name, kind) ->
  (forall protocol, i <> TVL protocol) ->
  (forall id, outcome w (get_coingecko_id cfg name kind) = Returned id ->
     requests_of (trace w (fetcher cfg i))
     = if Py.truthy id then [search_request cfg name; data_request cfg i id]
       else [search_request cfg name])
  /\ (forall e, outcome w (get_coingecko_id cfg name kind) = Raised e ->
      requests_of (trace w (fetcher cfg i)) = [search_request cfg name]
      /\ outcome w (fetcher cfg i) = Raised e).
Proof.
  intros Hlookup Htvl.
  assert (Hmax : max_requests i = 2).
  { destruct i; simpl in *; try discriminate; try reflexivity. now destruct (Htvl protocol). }
  rewrite (lookup_fetcher_requests cfg w i name kind Hlookup Hmax).
  split.
  - intros id ->. now destruct (Py.truthy id).
  - intros e He. rewrite He. split; [reflexivity|].
    destruct i; simpl in *; try discriminate; injection Hlookup as <- <-;
      unfold get_price, get_floor_price, get_fdv, get_market_cap;
      try (now apply outcome_bind_raised).
Qed.

(** ** The log records of a fetcher *)

Lemma logs_of_app (t1 t2 : list event) :
  logs_of (t1 ++ t2)%list = (logs_of t1 ++ logs_of t2)%list.
Proof.
  induction t1 as [| [r | msg e] t1 IH]; simpl; [reflexivity | exact IH | now rewrite IH].
Qed.

Lemma silent_bind {A B : Type} (p : prog A) (f : A -> prog B) :
  silent p -> (forall a, silent (f a)) -> silent (bind p f).
Proof. intros Hp Hf. induction Hp; simpl; [apply Hf | constructor | now constructor]. Qed.

Lemma silent_lift {A : Type} (r : result A) : silent (lift r).
Proof. destruct r; constructor. Qed.

Lemma silent_request_block {A : Type} (u : string) (ps : list (string * pyval))
      (rest : response -> prog A) :
  (forall response, silent (rest response)) ->
  silent (response <- requests_get u ps ;; raise_for_status response ;; rest response).
Proof.
  intros Hrest. simpl. constructor. intros [| r]; simpl; [constructor|].
  unfold raise_for_status. destruct (is_error_status (status_code r)); simpl;
    [constructor | apply Hrest].
Qed.

Lemma silent_run {A : Type} (p : prog A) (w : provider) :
  silent p -> logs_of (trace w p) = [].
Proof.
  unfold trace. induction 1 as [a | e | r k Hk IH]; simpl; try reflexivity.
  specialize (IH (w r)). now destruct (run w (k (w r))).
Qed.

Ltac silent_tac :=
  repeat first
    [ apply silent_request_block; intros
    | apply silent_lift
    | apply silent_ret
    | apply silent_raise
    | apply silent_bind; [| intros]
    | match goal with
      | |- silent (if ?b then _ else _) => destruct b
      | |- silent (match ?x with _ => _ end) => destruct x
      end ].

(** A silent [try] block under the re-raising clause. *)
Lemma logged_once_try {A : Type} (w : provider) (p : prog A) (msg : string) :
  silent p ->
  logged_once (trace w (try_except p (log_and_reraise msg)))
              (outcome w (try_except p (log_and_reraise msg))).
Proof.
  intros Hp. pose proof (silent_run p w Hp) as Hlogs.
  unfold trace, outcome in *. rewrite run_try_except.
  destruct (run w p) as [t [a | e]]; simpl in *; [exact Hlogs|].
  unfold log_and_reraise. destruct (is_RequestException e) eqn:He; simpl.
  - rewrite He, logs_of_app, Hlogs. exists msg. reflexivity.
  - now rewrite He.
Qed.

Lemma logged_once_bind {A B : Type} (w : provider) (p : prog A) (f : A -> prog B) :
  logged_once (trace w p) (outcome w p) ->
  (forall a, logged_once (trace w (f a)) (outcome w (f a))) ->
  logged_once (trace w (bind p f)) (outcome w (bind p f)).
Proof.
  intros Hp Hf. destruct (outcome w p) as [a | e] eqn:Hout.
  - rewrite (trace_bind_returned _ _ _ _ Hout), (outcome_bind_returned _ _ _ _ Hout).
    specialize (Hf a). simpl in Hp. unfold logged_once in *.
    rewrite logs_of_app, Hp. exact Hf.
  - rewrite (trace_bind_raised _ _ _ _ Hout), (outcome_bind_raised _ _ _ _ Hout). exact Hp.
Qed.

Lemma get_coingecko_id_logged_once (cfg : Config) (w : provider) (text type : string) :
  logged_once (trace w (get_coingecko_id cfg text type)) (outcome w (get_coingecko_id cfg text type)).
Proof. unfold get_coingecko_id. apply logged_once_try. silent_tac. Qed.

Lemma get_protocols_list_logged_once (cfg : Config) (w : provider) :
  logged_once (trace w (get_protocols_list cfg)) (outcome w (get_protocols_list cfg)).
Proof. unfold get_protocols_list. apply logged_once_try. silent_tac. Qed.

Ltac logged_once_tac :=
  repeat first
    [ apply get_coingecko_id_logged_once
    | apply get_protocols_list_logged_once
    | apply logged_once_try; silent_tac
    | apply logged_once_bind; [| intros]
    | reflexivity
    | match goal with
      | |- logged_once (trace _ (if ?b then _ else _)) _ => destruct b
      | |- logged_once (trace _ (match ?x with _ => _ end)) _ => destruct x
      end ].

(** X3.  A fetcher that returns has logged nothing; a fetcher that ends in
    a [RequestException] (a transport failure, or the [JSONDecodeError] of
    a body that is no JSON) has logged it, exactly once; a fetcher that ends
    in any other exception has logged nothing. *)
Theorem fetcher_logs_transport_failure_once (cfg : Config) (w : provider) (i : invocation) :
  match outcome w (fetcher cfg i) with
  | Returned _ => logs_of (trace w (fetcher cfg i)) = []
  | Raised e =>
      if is_RequestException e
      then exists msg, logs_of (trace w (fetcher cfg i)) = [(msg, e)]
      else logs_of (trace w (fetcher cfg i)) = []
  end.
Proof.
  change (logged_once (trace w (fetcher cfg i)) (outcome w (fetcher cfg i))).
  destruct i; simpl fetcher;
    unfold get_price, get_floor_price, get_protocol_tvl, get_fdv, get_market_cap,
      get_wallet_balance, get_gas_fees, get_token_metadata, get_transaction_history;
    logged_once_tac.
Qed.

(** ** The exceptions of a fetcher *)

Lemma getitem_python_error (c k : pyval) (e : exn) :
  Py.getitem c k = Raised e -> python_error e = true.
Proof.
  unfold Py.getitem.
  destruct c as [| b | n | s | l | d]; try (now intros [= <-]).
  - destruct (Py.as_index k); [|now intros [= <-]].
    destruct (Py.seq_index _ _); [discriminate | now intros [= <-]].
  - destruct (Py.as_index k); [|now intros [= <-]].
    destruct (Py.seq_index _ _); [discriminate | now intros [= <-]].
  - destruct k; try (now intros [= <-]).
    destruct (Py.dict_lookup _ _); [discriminate | now intros [= <-]].
Qed.

Lemma get_python_error (c : pyval) (k : string) (default : pyval) (e : exn) :
  Py.get c k default = Raised e -> python_error e = true.
Proof. destruct c; simpl; try discriminate; now intros [= <-]. Qed.

Lemma iter_python_error (v : pyval) (e : exn) :
  Py.iter v = Raised e -> python_error e = true.
Proof. destruct v; simpl; try discriminate; now intros [= <-]. Qed.

Lemma comprehension_python_error (key : string) (items : list pyval) (e : exn) :
  comprehension key items = Raised e -> python_error e = true.
Proof.
  induction items as [| item items IH]; simpl; [discriminate|].
  destruct (Py.getitem item (PStr key)) as [v | e'] eqn:Hitem.
  - destruct (comprehension key items) as [vs | e']; [discriminate|].
    intros [= <-]. now apply IH.
  - intros [= <-]. now apply (getitem_python_error _ _ _ Hitem).
Qed.

Create HintDb python_errors.
#[local] Hint Resolve getitem_python_error get_python_error iter_python_error
  comprehension_python_error : python_errors.

Lemma explained_mono {A : Type} (ok ok' : exn -> Prop) (p : prog A) :
  (forall e, ok e -> ok' e) -> explained ok p -> explained ok' p.
Proof.
  intros Hsub Hp. revert ok' Hsub.
  induction Hp as [ok a | ok e He | ok msg e k Hk IH | ok r k Hk IH]; intros ok' Hsub.
  - constructor.
  - constructor. now apply Hsub.
  - constructor. now apply IH.
  - constructor. intros o. apply IH. intros e [He | He]; [left; now apply Hsub | now right].
Qed.

Lemma explained_bind {A B : Type} (ok : exn -> Prop) (p : prog A) (f : A -> prog B) :
  explained ok p -> (forall a, explained ok (f a)) -> explained ok (bind p f).
Proof.
  intros Hp. induction Hp as [ok a | ok e He | ok msg e k Hk IH | ok r k Hk IH];
    intros Hf; simpl.
  - apply Hf.
  - now constructor.
  - constructor. now apply IH.
  - constructor. intros o. apply IH. intros a.
    apply (explained_mono ok); [intros e He; now left | apply Hf].
Qed.

Lemma explained_reraise {A : Type} (ok : exn -> Prop) (p : prog A) (msg : string) :
  explained ok p -> explained ok (try_except p (log_and_reraise msg)).
Proof.
  induction 1 as [ok a | ok e He | ok m e k Hk IH | ok r k Hk IH]; simpl.
  - constructor.
  - unfold log_and_reraise. destruct (is_RequestException e); repeat constructor; exact He.
  - now constructor.
  - constructor. exact IH.
Qed.

Lemma explained_lift {A : Type} (ok : exn -> Prop) (r : result A) :
  (forall e, r = Raised e -> ok e) -> explained ok (lift r).
Proof. destruct r as [a | e]; intros H; constructor. now apply H. Qed.

Lemma explained_request_block {A : Type} (ok : exn -> Prop) (u : string)
      (ps : list (string * pyval)) (rest : response -> prog A) :
  (forall resp, is_error_status (status_code resp) = false ->
                explained (fun e => ok e \/ caused_by (Responded resp) e) (rest resp)) ->
  explained ok (response <- requests_get u ps ;; raise_for_status response ;; rest response).
Proof.
  intros Hrest. simpl. constructor. intros [| r]; simpl.
  - constructor. right. left. split; reflexivity.
  - unfold raise_for_status. destruct (is_error_status (status_code r)) eqn:Hs; simpl.
    + constructor. right. left. split; [exact Hs | reflexivity].
    + now apply Hrest.
Qed.

Lemma in_requests_of (r : request) (t : list event) :
  In (EvGet r) t -> In r (requests_of t).
Proof.
  induction t as [| [r' | msg e] t IH]; simpl; intros Hin.
  - destruct Hin.
  - destruct Hin as [[= ->] | Hin]; [now left | right; now apply IH].
  - destruct Hin as [Hin | Hin]; [discriminate | now apply IH].
Qed.

Lemma explained_run {A : Type} (ok : exn -> Prop) (p : prog A) (w : provider) (e : exn) :
  explained ok p ->
  outcome w p = Raised e ->
  ok e \/ exists r, In r (requests_of (trace w p)) /\ caused_by (w r) e.
Proof.
  unfold outcome, trace.
  induction 1 as [ok a | ok e' He | ok msg e' k Hk IH | ok r k Hk IH]; simpl; intros Hout.
  - discriminate.
  - injection Hout as <-. now left.
  - destruct (run w k) as [t x]; simpl in *. now apply IH.
  - specialize (IH (w r)).
    destruct (run w (k (w r))) as [t x]; simpl in *.
    destruct (IH Hout) as [[He | He] | (r' & Hin & He)].
    + now left.
    + right. exists r. split; [now left | exact He].
    + right. exists r'. split; [now right | exact He].
Qed.

Ltac explained_tac :=
  repeat first
    [ apply explained_reraise
    | apply explained_request_block; intros ? ?
    | apply explained_lift; intros ? ?; cbv beta;
      first [ left; solve [eauto with python_errors]
            | right; right; eexists; repeat split; eassumption ]
    | apply ex_ret
    | assumption
    | apply explained_bind; [| intros]
    | match goal with
      | |- explained _ (if ?b then _ else _) => destruct b
      | |- explained _ (match ?x with _ => _ end) => destruct x
      end ].

(** With a kind it supports, every exception of the resolver is a Python
    error on the decoded body or is accounted for by the search request. *)
Lemma get_coingecko_id_explained (cfg : Config) (text type : string) :
  type = "coin" \/ type = "nft" ->
  explained (fun e => python_error e = true) (get_coingecko_id cfg text type).
Proof.
  intros [-> | ->]; unfold get_coingecko_id.
  - rewrite String.eqb_refl. explained_tac.
  - change (String.eqb "nft" "coin") with false. rewrite String.eqb_refl. cbv iota.
    explained_tac.
Qed.

Lemma fetcher_explained (cfg : Config) (i : invocation) :
  explained (fun e => python_error e = true) (fetcher cfg i).
Proof.
  pose proof (get_coingecko_id_explained cfg) as Hid.
  destruct i; simpl fetcher;
    unfold get_price, get_floor_price, get_protocol_tvl, get_fdv, get_market_cap,
      get_wallet_balance, get_gas_fees, get_token_metadata, get_transaction_history,
      get_protocols_list;
    repeat first [ apply Hid; auto | explained_tac ].
Qed.

Lemma get_token_metadata_explained (cfg : Config) (token_id blockchain : string) :
  explained (fun _ => False) (get_token_metadata cfg token_id blockchain).
Proof.
  unfold get_token_metadata. apply explained_reraise.
  apply explained_request_block. intros resp Hs.
  apply explained_bind; [|intros; constructor].
  apply explained_lift. intros e He. right. right. now exists resp.
Qed.

Lemma caused_by_cases (o : http_outcome) (e : exn) :
  caused_by o e ->
  python_error e = false
  /\ (forall s, e = HTTPError s -> is_error_status s = true)
  /\ (forall msg, e = ValueError msg ->
      exists resp, o = Responded resp /\ json resp = Raised (ValueError msg)).
Proof.
  intros [[Hf ->] | (resp & -> & Hs & Hjson)].
  - destruct o as [| resp]; simpl in *; (split; [reflexivity|]); split; try discriminate.
    now intros s [= <-].
  - assert (e = JSONDecodeError \/ exists m, e = ValueError m) as [-> | [m ->]].
    { unfold json in Hjson.
      destruct (content resp);
        [discriminate | left | right; eexists]; injection Hjson as <-; reflexivity. }
    + split; [reflexivity|]. split; discriminate.
    + split; [reflexivity|]. split; [discriminate|].
      intros msg' [= <-]. exists resp. split; [reflexivity | exact Hjson].
Qed.

(** X4.  Whatever the provider answers, a [ValueError] proper (one that
    is none of [requests]' exceptions) that a fetcher called by a tool ends
    in is the one [response.json()] raised on the body of a response to one
    of its requests, never the resolver's invalid-kind error (the tools
    pass the resolver only the kinds it supports); an
    [HTTPError] it raises carries a status from 400 to 599; and every
    exception of the token-metadata fetcher, which reads no field of the
    body, is the transport failure of its request or what
    [response.json()] raised on the response. *)
Theorem fetcher_exceptions (cfg : Config) (w : provider) (i : invocation) (e : exn) :
  outcome w (fetcher cfg i) = Raised e ->
  (forall msg, e = ValueError msg ->
     exists r resp, In r (requests_of (trace w (fetcher cfg i)))
                    /\ w r = Responded resp
                    /\ json resp = Raised (ValueError msg))
  /\ (forall s, e = HTTPError s -> (400 <= s < 600)%Z)
  /\ (forall token_id blockchain, i = TokenMetadata token_id blockchain ->
      exists r, In r (requests_of (trace w (fetcher cfg i))) /\ caused_by (w r) e).
Proof.
  intros Hout.
  pose proof (explained_run _ _ w e (fetcher_explained cfg i) Hout) as He.
  split; [|split].
  - intros msg ->. destruct He as [He | (r & Hin & Hcause)]; [discriminate He|].
    destruct (caused_by_cases _ _ Hcause) as (_ & _ & Hvalue).
    destruct (Hvalue msg eq_refl) as (resp & Hw & Hjson).
    now exists r, resp.
  - intros s ->. destruct He as [He | (r & Hin & Hcause)]; [discriminate He|].
    destruct (caused_by_cases _ _ Hcause) as (_ & Hstatus & _).
    specialize (Hstatus s eq_refl). unfold is_error_status in Hstatus.
    apply andb_true_iff in Hstatus as [H1 H2].
    apply Z.leb_le in H1. apply Z.ltb_lt in H2. lia.
  - intros token_id blockchain ->.
    destruct (explained_run _ _ w e (get_token_metadata_explained cfg token_id blockchain) Hout)
      as [[] | Hcause].
    exact Hcause.
Qed.

(** ** What an adapter makes of its fetcher's outcome *)

(** X5.  An exception of the fetcher that is no [RequestException] (a
    [KeyError], [IndexError], [TypeError] or [AttributeError] on a body of
    an unexpected shape, the decoder's [ValueError] on an integer too
    long) passes through the seven adapters whose clause is
    [except RequestException], unchanged; the two adapters whose clause is
    [except Exception] turn it into their API-error message. *)
Theorem other_exceptions_pass_or_are_reported
        (cfg : Config) (w : provider) (i : invocation) (e : exn) :
  outcome w (fetcher cfg i) = Raised e ->
  is_RequestException e = false ->
  outcome w (adapter cfg i)
  = if catches_Exception i then Returned (api_error_message cfg i) else Raised e.
Proof.
  intros Hout He.
  destruct i; simpl in *;
    unfold get_coin_price_tool, get_nft_floor_price_tool, get_protocol_total_value_locked_tool,
      get_fully_diluted_valuation_tool, get_coin_market_cap_tool, get_wallet_balance_tool,
      get_gas_fees_tool, get_token_metadata_tool, get_transaction_history_tool;
    rewrite outcome_try_except, (outcome_bind_raised _ _ _ _ Hout);
    unfold return_on_RequestException, log_and_return_on_Exception;
    try rewrite He; reflexivity.
Qed.

Lemma outcome_lift {A : Type} (w : provider) (r : result A) : outcome w (lift r) = r.
Proof. unfold outcome. now rewrite run_lift. Qed.

(** X6.  Only [None] is reported as a failure.  Whatever other value the
    fetcher returns, zero, an empty string or an empty list included, every
    adapter but the transaction-history one answers with its success
    sentence for that value (for the five templated tools, whatever
    formatting the template gives, a [KeyError] for an unknown field
    included). *)
Theorem only_None_is_reported_as_failure
        (cfg : Config) (w : provider) (i : invocation) (v : pyval) :
  outcome w (fetcher cfg i) = Returned v ->
  v <> PNone ->
  (forall wallet_address blockchain, i <> TransactionHistory wallet_address blockchain) ->
  outcome w (adapter cfg i) = success_message cfg i v.
Proof.
  intros Hout Hv Htx.
  assert (Hnone : Py.is_None v = false) by (destruct v; [now destruct Hv | reflexivity ..]).
  destruct i; simpl in *;
    unfold get_coin_price_tool, get_nft_floor_price_tool, get_protocol_total_value_locked_tool,
      get_fully_diluted_valuation_tool, get_coin_market_cap_tool, get_wallet_balance_tool,
      get_gas_fees_tool, get_token_metadata_tool, get_transaction_history_tool;
    try (now destruct (Htx wallet_address blockchain));
    rewrite outcome_try_except, (outcome_bind_returned _ _ _ _ Hout), Hnone;
    try reflexivity;
    rewrite outcome_lift;
    (destruct (str_format _ _) as [s | e] eqn:Hfmt; [reflexivity|]);
    unfold return_on_RequestException; now rewrite (str_format_raised _ _ _ Hfmt).
Qed.

(** ** The blockchain tools *)

Lemma blockchain_fetcher_outcome (cfg : Config) (w : provider) (i : invocation)
      (field : string) (resp : response) (data : pyval) :
  field_read i = Some field ->
  w (first_request cfg i) = Responded resp ->
  is_error_status (status_code resp) = false ->
  json resp = Returned data ->
  outcome w (fetcher cfg i) = Py.getitem data (PStr field).
Proof.
  intros Hfield Hw Hs Hjson.
  destruct i; simpl in Hfield; try discriminate; injection Hfield as <-; simpl in Hw |- *;
    unfold get_wallet_balance, get_gas_fees, get_transaction_history;
    unfold outcome at 1; rewrite (run_request_ok _ _ _ _ _ _ Hw Hs); rewrite Hjson; simpl snd;
    (destruct (Py.getitem data _) as [v | e] eqn:Hitem; [reflexivity|]);
    apply getitem_python_error in Hitem; destruct e; try discriminate Hitem; reflexivity.
Qed.

(** X7.  When the request of the wallet-balance, gas-fees or
    transaction-history fetcher succeeds with a JSON object, the fetcher
    returns the field it reads if the object has it and raises [KeyError]
    for that field if not.  The wallet-balance and gas-fees adapters let
    the [KeyError] through; the transaction-history adapter answers with
    its API-error message. *)
Theorem missing_field_raises_KeyError
        (cfg : Config) (w : provider) (i : invocation) (field : string)
        (resp : response) (d : list (string * pyval)) :
  field_read i = Some field ->
  w (first_request cfg i) = Responded resp ->
  is_error_status (status_code resp) = false ->
  json resp = Returned (PDict d) ->
  outcome w (fetcher cfg i)
  = match Py.dict_lookup field d with
    | Some v => Returned v
    | None => Raised (KeyError (PStr field))
    end
  /\ (Py.dict_lookup field d = None ->
      outcome w (adapter cfg i)
      = if catches_Exception i then Returned (api_error_message cfg i)
        else Raised (KeyError (PStr field))).
Proof.
  intros Hfield Hw Hs Hjson.
  pose proof (blockchain_fetcher_outcome cfg w i field resp _ Hfield Hw Hs Hjson) as Hout.
  simpl in Hout.
  split.
  - rewrite Hout. now destruct (Py.dict_lookup field d).
  - intros Hnone. rewrite Hnone in Hout.
    destruct i; simpl in Hfield; try discriminate; simpl in *;
      unfold get_wallet_balance_tool, get_gas_fees_tool, get_transaction_history_tool;
      rewrite outcome_try_except, (outcome_bind_raised _ _ _ _ Hout); reflexivity.
Qed.

Lemma get_token_metadata_outcome (cfg : Config) (w : provider) (token_id blockchain : string) :
  outcome w (get_token_metadata cfg token_id blockchain)
  = match w (first_request cfg (TokenMetadata token_id blockchain)) with
    | NoResponse => Raised ConnectionError
    | Responded resp =>
        if is_error_status (status_code resp) then Raised (HTTPError (status_code resp))
        else json resp
    end.
Proof.
  unfold get_token_metadata, outcome. cbv beta iota zeta delta [first_request].
  destruct (w (GET _ [])) as [| resp] eqn:Hw.
  - rewrite run_request_failed; rewrite Hw; reflexivity.
  - destruct (is_error_status (status_code resp)) eqn:Hs.
    + rewrite run_request_failed; rewrite Hw; [reflexivity | exact Hs].
    + rewrite (run_request_ok _ _ _ _ _ _ Hw Hs). simpl snd.
      destruct (json resp) as [v | e]; [reflexivity|].
      simpl. unfold log_and_reraise. now destruct (is_RequestException e).
Qed.

(** X8.  [get_token_metadata_tool] never raises.  It answers with its
    API-error message exactly when its request met a transport failure or
    was answered with a body on which [response.json()] raised, with
    "Failed to retrieve token metadata." exactly when the request
    succeeded with the body [null], and otherwise with the sentence that
    shows the decoded body. *)
Theorem get_token_metadata_tool_messages
        (cfg : Config) (w : provider) (token_id blockchain : string) :
  exists s,
    outcome w (get_token_metadata_tool cfg token_id blockchain) = Returned s
    /\ (s = "API error occurred while retrieving token metadata."
        <-> (transport_failure (w (first_request cfg (TokenMetadata token_id blockchain))) = true
             \/ exists resp e,
                 w (first_request cfg (TokenMetadata token_id blockchain)) = Responded resp
                 /\ json resp = Raised e))
    /\ (s = "Failed to retrieve token metadata."
        <-> exists resp,
            w (first_request cfg (TokenMetadata token_id blockchain)) = Responded resp
            /\ is_error_status (status_code resp) = false
            /\ json resp = Returned PNone)
    /\ (forall resp v,
           w (first_request cfg (TokenMetadata token_id blockchain)) = Responded resp ->
           is_error_status (status_code resp) = false ->
           json resp = Returned v ->
           v <> PNone ->
           s = "Metadata for token " ++ token_id ++ " on " ++ blockchain ++ ": "
               ++ Py.str v).
Proof.
  pose proof (get_token_metadata_outcome cfg w token_id blockchain) as Hout.
  unfold get_token_metadata_tool. rewrite outcome_try_except.
  destruct (w (first_request cfg (TokenMetadata token_id blockchain))) as [| resp] eqn:Hw.
  - rewrite (outcome_bind_raised _ _ _ _ Hout). simpl.
    eexists. split; [reflexivity|]. split; [|split].
    + split; [intros _; now left | reflexivity].
    + split; [discriminate | intros (resp & [=] & _)].
    + intros resp v [=].
  - simpl transport_failure. destruct (is_error_status (status_code resp)) eqn:Hs.
    + rewrite (outcome_bind_raised _ _ _ _ Hout). simpl.
      eexists. split; [reflexivity|]. split; [|split].
      * split; [intros _; now left | reflexivity].
      * split; [discriminate | intros (resp' & [= <-] & Hs' & _); congruence].
      * intros resp' v [= <-] Hs'. congruence.
    + destruct (json resp) as [v | e] eqn:Hjson.
      * rewrite (outcome_bind_returned _ _ _ _ Hout).
        destruct v as [| b | n | s0 | l | d]; simpl;
          (eexists; split; [reflexivity|]; split; [|split];
           [ split; [discriminate
                    | intros [Hf | (resp' & e & [= <-] & Hj)]; [discriminate Hf | congruence] ]
           | split;
             [ first [ discriminate | intros _; exists resp; repeat split; assumption ]
             | first [ reflexivity
                     | intros (resp' & [= <-] & _ & Hnone); rewrite Hjson in Hnone;
                       discriminate Hnone ] ]
           | intros resp' v' [= <-] _ Hj Hne; rewrite Hjson in Hj; injection Hj as <-;
             first [ now destruct Hne | reflexivity ] ]).
      * rewrite (outcome_bind_raised _ _ _ _ Hout). simpl.
        eexists. split; [reflexivity|]. split; [|split].
        -- split; [intros _; right; now exists resp, e | reflexivity].
        -- split; [discriminate | intros (resp' & [= <-] & _ & Hnone); congruence].
        -- intros resp' v [= <-] _ Hj. congruence.
Qed.

(** ** The protocol list *)

Lemma Forall2_nth_error {A B : Type} (R : A -> B -> Prop) (l : list A) (l' : list B) :
  Forall2 R l l' ->
  forall k a, nth_error l k = Some a -> exists b, nth_error l' k = Some b /\ R a b.
Proof.
  induction 1 as [| x y l l' Hxy Hl IH]; intros [| k] a; simpl; try discriminate.
  - intros [= <-]. now exists y.
  - apply IH.
Qed.

(** X9.  The two lists [get_protocols_list] returns are aligned with the
    fetched list: each has one element per entry, and at every position
    stand the slug and the [gecko_id] of the entry at that position, so
    that [zip] pairs each slug with the id of its own entry. *)
Theorem get_protocols_list_pairs
        (cfg : Config) (w : provider) (ids geckos : list pyval) :
  outcome w (get_protocols_list cfg) = Returned (ids, geckos) ->
  exists resp data items,
    w (protocols_request cfg) = Responded resp
    /\ json resp = Returned data
    /\ Py.iter data = Returned items
    /\ length ids = length items
    /\ length geckos = length items
    /\ forall k item, nth_error items k = Some item ->
         exists slug gecko_id,
           nth_error (combine ids geckos) k = Some (slug, gecko_id)
           /\ Py.getitem item (PStr "slug") = Returned slug
           /\ Py.getitem item (PStr "gecko_id") = Returned gecko_id.
Proof.
  intros Hout.
  destruct (get_protocols_list_returned cfg w ids geckos Hout)
    as (resp & data & items & Hw & _ & Hjson & Hiter & Hslugs & Hgeckos).
  exists resp, data, items. split; [exact Hw|]. split; [exact Hjson|]. split; [exact Hiter|].
  split; [symmetry; exact (Forall2_length Hslugs)|].
  split; [symmetry; exact (Forall2_length Hgeckos)|].
  intros k item Hk.
  destruct (Forall2_nth_error _ _ _ Hslugs k item Hk) as (slug & Hs & Hslug).
  destruct (Forall2_nth_error _ _ _ Hgeckos k item Hk) as (gecko & Hg & Hgecko).
  exists slug, gecko. split; [|split; assumption].
  clear - Hs Hg. revert ids geckos Hs Hg.
  induction k as [| k IH]; intros [| s ids] [| g geckos]; simpl; try discriminate.
  - now intros [= ->] [= ->].
  - apply IH.
Qed.

Lemma comprehension_of_objects (key : string) (items : list pyval) :
  Forall (fun item => exists d, item = PDict d) items ->
  match comprehension key items with
  | Returned _ =>
      Forall (fun item => exists d v, item = PDict d /\ Py.dict_lookup key d = Some v) items
  | Raised e =>
      e = KeyError (PStr key)
      /\ Exists (fun item => exists d, item = PDict d /\ Py.dict_lookup key d = None) items
  end.
Proof.
  induction 1 as [| item items [d ->] Hitems IH]; simpl; [constructor|].
  destruct (Py.dict_lookup key d) as [v|] eqn:Hkey.
  - destruct (comprehension key items) as [vs | e].
    + constructor; [now exists d, v | exact IH].
    + destruct IH as [-> IH]. split; [reflexivity | now apply Exists_cons_tl].
  - split; [reflexivity|]. apply Exists_cons_hd. now exists d.
Qed.

(** X10.  One malformed entry fails every TVL lookup.  When the protocol
    list is a list of objects and some entry has no "slug" or no
    "gecko_id", [get_protocol_tvl] raises [KeyError] for the missing key
    for every protocol name, before the name is even searched for, and
    the TVL adapter lets the exception through. *)
Theorem malformed_protocol_entry_fails_every_lookup
        (cfg : Config) (w : provider) (resp : response) (items : list pyval) :
  w (protocols_request cfg) = Responded resp ->
  is_error_status (status_code resp) = false ->
  json resp = Returned (PList items) ->
  Forall (fun item => exists d, item = PDict d) items ->
  Exists (fun item => exists d, item = PDict d
                      /\ (Py.dict_lookup "slug" d = None
                          \/ Py.dict_lookup "gecko_id" d = None)) items ->
  exists key,
    (key = "slug" \/ key = "gecko_id")
    /\ forall name,
         run w (get_protocol_tvl cfg name)
         = ([EvGet (protocols_request cfg)], Raised (KeyError (PStr key)))
         /\ outcome w (get_protocol_total_value_locked_tool cfg name)
            = Raised (KeyError (PStr key)).
Proof.
  intros Hw Hs Hjson Hobjects Hbad.
  assert (Hlist : exists key, (key = "slug" \/ key = "gecko_id")
                    /\ run w (get_protocols_list cfg)
                       = ([EvGet (protocols_request cfg)], Raised (KeyError (PStr key)))).
  { unfold get_protocols_list. unfold protocols_request in Hw.
    rewrite (run_request_ok _ _ _ _ _ _ Hw Hs). unfold trace, outcome. rewrite Hjson.
    pose proof (comprehension_of_objects "slug" items Hobjects) as Hslug.
    pose proof (comprehension_of_objects "gecko_id" items Hobjects) as Hgecko.
    simpl.
    destruct (comprehension "slug" items) as [slugs | e].
    - destruct (comprehension "gecko_id" items) as [geckos | e].
      + exfalso. apply Exists_exists in Hbad as (item & Hin & d & -> & [Hnone | Hnone]).
        * rewrite Forall_forall in Hslug.
          destruct (Hslug _ Hin) as (d' & v & [= <-] & Hsome). congruence.
        * rewrite Forall_forall in Hgecko.
          destruct (Hgecko _ Hin) as (d' & v & [= <-] & Hsome). congruence.
      + destruct Hgecko as [-> _]. exists "gecko_id". split; [now right | reflexivity].
    - destruct Hslug as [-> _]. exists "slug". split; [now left | reflexivity]. }
  destruct Hlist as (key & Hkey & Hrun). exists key. split; [exact Hkey|].
  intros name.
  assert (Htvl : run w (get_protocol_tvl cfg name)
                 = ([EvGet (protocols_request cfg)], Raised (KeyError (PStr key)))).
  { unfold get_protocol_tvl. now rewrite run_bind, Hrun. }
  split; [exact Htvl|].
  unfold get_protocol_total_value_locked_tool.
  rewrite outcome_try_except.
  assert (Hout : outcome w (get_protocol_tvl cfg name) = Raised (KeyError (PStr key)))
    by (unfold outcome; now rewrite Htvl).
  now rewrite (outcome_bind_raised _ _ _ _ Hout).
Qed.

(** X11.  The entry [get_protocol_tvl] selects is the first one, in the
    order of the list, whose [gecko_id] equals the resolved id, also when
    later entries have the same id; when no entry has it the selection is
    [None]; and an entry whose [gecko_id] is [None] is passed over for
    every resolved id that is true. *)
Theorem next_match_is_first_match (ids geckos : list pyval) (tag : pyval) :
  (forall k slug gecko_id,
      nth_error (combine ids geckos) k = Some (slug, gecko_id) ->
      Py.eq gecko_id tag = true ->
      (forall j entry, j < k -> nth_error (combine ids geckos) j = Some entry ->
                       Py.eq (snd entry) tag = false) ->
      next_match ids geckos tag = slug)
  /\ ((forall entry, In entry (combine ids geckos) -> Py.eq (snd entry) tag = false) ->
      next_match ids geckos tag = PNone)
  /\ (Py.truthy tag = true ->
      forall slug, next_match (slug :: ids) (PNone :: geckos) tag = next_match ids geckos tag).
Proof.
  unfold next_match. split; [|split].
  - generalize (combine ids geckos) as entries. clear ids geckos.
    induction entries as [| entry entries IH]; intros [| k] slug g Hk Hg Hfirst;
      simpl in *; try discriminate.
    + injection Hk as ->. simpl. now rewrite Hg.
    + rewrite (Hfirst 0 entry (Nat.lt_0_succ k) eq_refl).
      apply (IH k slug g Hk Hg). intros j e Hj He.
      apply (Hfirst (S j) e); [lia | exact He].
  - generalize (combine ids geckos) as entries. clear ids geckos.
    induction entries as [| entry entries IH]; intros Hnone; simpl; [reflexivity|].
    rewrite (Hnone entry (or_introl eq_refl)). apply IH.
    intros e He. apply Hnone. now right.
  - intros Htag slug. simpl.
    destruct tag; try reflexivity. discriminate Htag.
Qed.

(** ** The fully diluted valuation *)

(** X12.  Once the coin is resolved and its page fetched as a JSON
    object, [get_fdv] reads the valuation through three [dict.get]s: a
    missing "market_data", "fully_diluted_valuation" or "usd" gives
    [None], which the adapter reports with its failure message, and a
    present "usd" is returned as it is.  A "market_data" that is [null],
    not missing, raises [AttributeError]. *)
Theorem get_fdv_missing_keys
        (cfg : Config) (w : provider) (coin : string) (coin_id : pyval)
        (resp : response) (d : list (string * pyval)) :
  outcome w (get_coingecko_id cfg coin "coin") = Returned coin_id ->
  Py.truthy coin_id = true ->
  w (data_request cfg (FDV coin) coin_id) = Responded resp ->
  is_error_status (status_code resp) = false ->
  json resp = Returned (PDict d) ->
  (Py.dict_lookup "market_data" d = None ->
   outcome w (get_fdv cfg coin) = Returned PNone)
  /\ (forall m, Py.dict_lookup "market_data" d = Some (PDict m) ->
      Py.dict_lookup "fully_diluted_valuation" m = None ->
      outcome w (get_fdv cfg coin) = Returned PNone)
  /\ (forall m f, Py.dict_lookup "market_data" d = Some (PDict m) ->
      Py.dict_lookup "fully_diluted_valuation" m = Some (PDict f) ->
      outcome w (get_fdv cfg coin)
      = Returned (match Py.dict_lookup "usd" f with Some v => v | None => PNone end))
  /\ (Py.dict_lookup "market_data" d = Some PNone ->
      outcome w (get_fdv cfg coin) = Raised AttributeError)
  /\ (outcome w (get_fdv cfg coin) = Returned PNone ->
      outcome w (get_fully_diluted_valuation_tool cfg coin) = Returned (FDV_FAILURE_MESSAGE cfg)).
Proof.
  intros Hid Htrue Hw Hs Hjson.
  assert (Hout : outcome w (get_fdv cfg coin)
                 = outcome w (try_except
                                (market_data <- lift (Py.get (PDict d) "market_data" (PDict [])) ;;
                                 valuation <- lift (Py.get market_data "fully_diluted_valuation" (PDict [])) ;;
                                 lift (Py.get valuation "usd" PNone))
                                (log_and_reraise "Failed to retrieve FDV: "))).
  { unfold get_fdv. rewrite (outcome_bind_returned _ _ _ _ Hid), Htrue. cbn [negb].
    cbv iota. unfold outcome at 1. unfold data_request in Hw.
    rewrite (run_request_ok _ _ _ _ _ _ Hw Hs). now rewrite Hjson. }
  rewrite Hout. clear Hout.
  split; [|split; [|split; [|split]]].
  - intros Hmd. unfold outcome. simpl. rewrite Hmd. reflexivity.
  - intros m Hmd Hfdv. unfold outcome. simpl. rewrite Hmd. simpl. rewrite Hfdv. reflexivity.
  - intros m f Hmd Hfdv. unfold outcome. simpl. rewrite Hmd. simpl. rewrite Hfdv. simpl.
    reflexivity.
  - intros Hmd. unfold outcome. simpl. rewrite Hmd. reflexivity.
  - intros Hnone.
    assert (Hfdv : outcome w (get_fdv cfg coin) = Returned PNone).
    { unfold get_fdv. rewrite (outcome_bind_returned _ _ _ _ Hid), Htrue. cbn [negb].
      cbv iota. unfold outcome at 1. unfold data_request in Hw.
      rewrite (run_request_ok _ _ _ _ _ _ Hw Hs). simpl snd. rewrite Hjson. exact Hnone. }
    apply (adapter_reports_no_data cfg w (FDV coin) Hfdv).
Qed.

(** ** A price the pricing endpoint does not have *)

(** X13.  When the coin is resolved and the pricing endpoint answers with
    a JSON object that has no entry for the resolved id (an empty object,
    say), [get_price] raises [KeyError] for that id and
    [get_coin_price_tool] lets it through; with an entry that is an object
    holding "usd", [get_price] returns that value. *)
Theorem price_missing_for_resolved_id
        (cfg : Config) (w : provider) (coin id : string)
        (resp : response) (d : list (string * pyval)) :
  outcome w (get_coingecko_id cfg coin "coin") = Returned (PStr id) ->
  id <> EmptyString ->
  w (data_request cfg (Price coin) (PStr id)) = Responded resp ->
  is_error_status (status_code resp) = false ->
  json resp = Returned (PDict d) ->
  (Py.dict_lookup id d = None ->
   outcome w (get_price cfg coin) = Raised (KeyError (PStr id))
   /\ outcome w (get_coin_price_tool cfg coin) = Raised (KeyError (PStr id)))
  /\ (forall entry usd, Py.dict_lookup id d = Some (PDict entry) ->
      Py.dict_lookup "usd" entry = Some usd ->
      outcome w (get_price cfg coin) = Returned usd).
Proof.
  intros Hid Hne Hw Hs Hjson.
  assert (Htrue : Py.truthy (PStr id) = true).
  { simpl. destruct (String.eqb id EmptyString) eqn:He; [|reflexivity].
    apply String.eqb_eq in He. contradiction. }
  assert (Hout : outcome w (get_price cfg coin)
                 = outcome w (try_except
                                (entry <- lift (Py.getitem (PDict d) (PStr id)) ;;
                                 lift (Py.getitem entry (PStr "usd")))
                                (log_and_reraise "Failed to retrieve price: "))).
  { unfold get_price. rewrite (outcome_bind_returned _ _ _ _ Hid), Htrue. cbn [negb].
    cbv iota. unfold outcome at 1. unfold data_request in Hw.
    rewrite (run_request_ok _ _ _ _ _ _ Hw Hs). now rewrite Hjson. }
  split.
  - intros Hnone.
    assert (Hprice : outcome w (get_price cfg coin) = Raised (KeyError (PStr id))).
    { rewrite Hout. unfold outcome. simpl. rewrite Hnone. reflexivity. }
    split; [exact Hprice|].
    unfold get_coin_price_tool.
    now rewrite outcome_try_except, (outcome_bind_raised _ _ _ _ Hprice).
  - intros entry usd Hentry Husd. rewrite Hout. unfold outcome. simpl.
    rewrite Hentry. simpl. rewrite Husd. reflexivity.
Qed.

(** ** The first hit *)

(** X14.  The resolver looks at the first hit only.  On a search response
    whose list for the kind is not empty, it returns what the subscription
    of the first entry by "id" gives, its [KeyError] or [TypeError]
    included, whatever the other entries are. *)
Theorem first_hit_wins
        (cfg : Config) (w : provider) (text type : string) (resp : response)
        (d : list (string * pyval)) (first : pyval) (others : list pyval) :
  type = "coin" \/ type = "nft" ->
  w (search_request cfg text) = Responded resp ->
  is_error_status (status_code resp) = false ->
  json resp = Returned (PDict d) ->
  Py.dict_lookup (type ++ "s") d = Some (PList (first :: others)) ->
  outcome w (get_coingecko_id cfg text type) = Py.getitem first (PStr "id").
Proof.
  intros Htype Hw Hs Hjson Hlist. unfold get_coingecko_id, outcome.
  unfold search_request in Hw. rewrite (run_request_ok _ _ _ _ _ _ Hw Hs).
  unfold outcome. rewrite Hjson. simpl snd.
  destruct Htype as [-> | ->]; simpl in *; rewrite Hlist; simpl;
    (destruct (Py.getitem first (PStr "id")) as [v | e] eqn:Hitem; [reflexivity|]);
    apply getitem_python_error in Hitem; destruct e; try discriminate Hitem; reflexivity.
Qed.

(** ** No request exception without a request to account for it *)

(** X15.  A fetcher ends in a [RequestException] only when one of the
    requests it made accounts for it: the request met no response or a
    status from 400 to 599 and the exception is that transport failure, or
    its response came with another status and a body on which
    [response.json()] raised the exception. *)
Theorem request_exception_only_from_a_request
        (cfg : Config) (w : provider) (i : invocation) (e : exn) :
  outcome w (fetcher cfg i) = Raised e ->
  is_RequestException e = true ->
  exists r, In r (requests_of (trace w (fetcher cfg i)))
            /\ ((transport_failure (w r) = true /\ e = transport_exn (w r))
                \/ (exists resp, w r = Responded resp
                                 /\ is_error_status (status_code resp) = false
                                 /\ json resp = Raised e)).
Proof.
  intros Hout He.
  destruct (explained_run _ _ w e (fetcher_explained cfg i) Hout) as [Hpy | Hcause].
  - destruct e; discriminate.
  - exact Hcause.
Qed.

(** ** The log records of an adapter *)

Lemma logs_of_bind {A B : Type} (w : provider) (p : prog A) (f : A -> prog B) :
  (forall a, silent (f a)) ->
  logs_of (trace w (bind p f)) = logs_of (trace w p).
Proof.
  intros Hf. destruct (outcome w p) as [a | e] eqn:Hp.
  - now rewrite (trace_bind_returned _ _ _ _ Hp), logs_of_app, (silent_run _ w (Hf a)), app_nil_r.
  - now rewrite (trace_bind_raised _ _ _ _ Hp).
Qed.

Lemma trace_try_except {A : Type} (w : provider) (p : prog A) (h : exn -> option (prog A)) :
  trace w (try_except p h)
  = (trace w p
     ++ match outcome w p with
        | Returned _ => []
        | Raised e => match h e with
                      | Some q => trace w q
                      | None => []
                      end
        end)%list.
Proof.
  unfold trace, outcome. rewrite run_try_except.
  destruct (run w p) as [t [a | e]]; simpl; [now rewrite app_nil_r|].
  destruct (h e) as [q|]; [|now rewrite app_nil_r]. now destruct (run w q).
Qed.

(** X16.  The seven adapters whose clause is [except RequestException]
    add no log record to those of their fetcher.  The token-metadata and
    transaction-history adapters log the exception of their fetcher once
    more, after the fetcher's record: a transport failure of these two
    tools is logged twice. *)
Theorem adapter_log_records (cfg : Config) (w : provider) (i : invocation) :
  (catches_Exception i = false ->
   logs_of (trace w (adapter cfg i)) = logs_of (trace w (fetcher cfg i)))
  /\ (forall e, catches_Exception i = true ->
      outcome w (fetcher cfg i) = Raised e ->
      logs_of (trace w (adapter cfg i))
      = (logs_of (trace w (fetcher cfg i))
         ++ [(match i with
              | TokenMetadata _ _ => "Failed to retrieve token metadata: "
              | _ => "Failed to retrieve transaction history: "
              end, e)])%list).
Proof.
  split.
  - intros Hcatch.
    destruct i; simpl in Hcatch; try discriminate; simpl;
      unfold get_coin_price_tool, get_nft_floor_price_tool, get_protocol_total_value_locked_tool,
        get_fully_diluted_valuation_tool, get_coin_market_cap_tool, get_wallet_balance_tool,
        get_gas_fees_tool;
      rewrite trace_try_except, logs_of_app, logs_of_bind by (intros; silent_tac);
      (match goal with
       | |- context [outcome w ?p] => destruct (outcome w p) as [s | e]
       end; [now rewrite app_nil_r|]);
      unfold return_on_RequestException; destruct (is_RequestException e);
      now rewrite app_nil_r.
  - intros e Hcatch Hout.
    destruct i; simpl in Hcatch; try discriminate; simpl in *;
      unfold get_token_metadata_tool, get_transaction_history_tool;
      rewrite trace_try_except, logs_of_app, logs_of_bind by (intros; silent_tac);
      rewrite (outcome_bind_raised _ _ _ _ Hout); reflexivity.
Qed.

(** * The further properties at concrete providers *)

(** X2 for the price of bitcoin: the search, then the price request. *)
Lemma data_endpoint_asked_iff_resolved_witness :
  requests_of (trace bitcoin_provider (get_price example_config "bitcoin"))
  = [search_request example_config "bitcoin";
     GET "https://gecko.test/simple/price"
         [("ids", PStr "bitcoin"); ("vs_currencies", PStr "USD")]].
Proof.
  destruct (data_endpoint_asked_iff_resolved example_config bitcoin_provider
              (Price "bitcoin") "bitcoin" "coin" eq_refl) as [Hreturned _].
  - discriminate.
  - exact (Hreturned (PStr "bitcoin") eq_refl).
Defined.

(** X4 where the balance is an integer too long to convert: the
    [ValueError] of the fetcher is the decoder's. *)
Lemma fetcher_exceptions_witness :
  outcome undecodable_provider (get_wallet_balance example_config "0xabc" "ethereum")
  = Raised (ValueError "Exceeds the limit (4300 digits)")
  /\ exists r resp,
       In r (requests_of (trace undecodable_provider
                            (get_wallet_balance example_config "0xabc" "ethereum")))
       /\ undecodable_provider r = Responded resp
       /\ json resp = Raised (ValueError "Exceeds the limit (4300 digits)").
Proof.
  split; [reflexivity|].
  destruct (fetcher_exceptions example_config undecodable_provider
              (WalletBalance "0xabc" "ethereum")
              (ValueError "Exceeds the limit (4300 digits)") eq_refl) as (Hvalue & _ & _).
  exact (Hvalue _ eq_refl).
Defined.

(** X5 for a transactions body without the field: the broad clause
    reports it. *)
Lemma other_exceptions_pass_or_are_reported_witness :
  outcome odd_bodies_provider (get_transaction_history example_config "0xabc" "ethereum")
  = Raised (KeyError (PStr "transactions"))
  /\ outcome odd_bodies_provider (get_transaction_history_tool example_config "0xabc" "ethereum")
     = Returned "API error occurred while retrieving transaction history.".
Proof.
  split; [reflexivity|].
  exact (other_exceptions_pass_or_are_reported example_config odd_bodies_provider
           (TransactionHistory "0xabc" "ethereum") (KeyError (PStr "transactions"))
           eq_refl eq_refl).
Defined.

(** X6 for a price of zero. *)
Lemma only_None_is_reported_as_failure_witness :
  outcome zero_price_provider (get_price example_config "bitcoin") = Returned (PInt 0)
  /\ outcome zero_price_provider (get_coin_price_tool example_config "bitcoin")
     = Returned "The price of bitcoin is $0".
Proof.
  split; [reflexivity|].
  apply (only_None_is_reported_as_failure example_config zero_price_provider
           (Price "bitcoin") (PInt 0)).
  - reflexivity.
  - discriminate.
  - discriminate.
Defined.

(** X7 for a balance body without "balance". *)
Lemma missing_field_raises_KeyError_witness :
  outcome odd_bodies_provider (get_wallet_balance example_config "0xabc" "ethereum")
  = Raised (KeyError (PStr "balance"))
  /\ outcome odd_bodies_provider (get_wallet_balance_tool example_config "0xabc" "ethereum")
     = Raised (KeyError (PStr "balance")).
Proof.
  destruct (missing_field_raises_KeyError example_config odd_bodies_provider
              (WalletBalance "0xabc" "ethereum") "balance"
              (json_response 200 (PDict [("error", PStr "busy")])) [("error", PStr "busy")]
              eq_refl eq_refl eq_refl eq_refl) as [Hfetch Hsaid].
  split; [exact Hfetch | exact (Hsaid eq_refl)].
Defined.

(** X9 on the protocol list of the specification's example. *)
Lemma get_protocols_list_pairs_witness :
  exists resp data items,
    aave_provider (protocols_request example_config) = Responded resp
    /\ json resp = Returned data
    /\ Py.iter data = Returned items
    /\ length [PStr "aave"] = length items
    /\ length [PStr "aave"] = length items
    /\ forall k item, nth_error items k = Some item ->
         exists slug gecko_id,
           nth_error (combine [PStr "aave"] [PStr "aave"]) k = Some (slug, gecko_id)
           /\ Py.getitem item (PStr "slug") = Returned slug
           /\ Py.getitem item (PStr "gecko_id") = Returned gecko_id.
Proof.
  exact (get_protocols_list_pairs example_config aave_provider [PStr "aave"] [PStr "aave"]
           eq_refl).
Defined.

(** X10 on a list whose second entry has no "gecko_id". *)
Lemma malformed_protocol_entry_fails_every_lookup_witness :
  exists key,
    (key = "slug" \/ key = "gecko_id")
    /\ forall name,
         run malformed_protocols_provider (get_protocol_tvl example_config name)
         = ([EvGet (protocols_request example_config)], Raised (KeyError (PStr key)))
         /\ outcome malformed_protocols_provider
              (get_protocol_total_value_locked_tool example_config name)
            = Raised (KeyError (PStr key)).
Proof.
  apply (malformed_protocol_entry_fails_every_lookup example_config malformed_protocols_provider
           (json_response 200 (PList [PDict [("slug", PStr "aave"); ("gecko_id", PStr "aave")];
                                 PDict [("slug", PStr "lido")]]))
           [PDict [("slug", PStr "aave"); ("gecko_id", PStr "aave")];
            PDict [("slug", PStr "lido")]]).
  - reflexivity.
  - reflexivity.
  - reflexivity.
  - repeat constructor; eexists; reflexivity.
  - apply Exists_cons_tl, Exists_cons_hd. eexists. split; [reflexivity|]. now right.
Defined.

(** X12 for a coin page without "market_data". *)
Lemma get_fdv_missing_keys_witness :
  outcome zero_price_provider (get_fdv example_config "bitcoin") = Returned PNone
  /\ outcome zero_price_provider (get_fully_diluted_valuation_tool example_config "bitcoin")
     = Returned "Failed to retrieve FDV.".
Proof.
  destruct (get_fdv_missing_keys example_config zero_price_provider "bitcoin" (PStr "bitcoin")
              (json_response 200 (PDict [("id", PStr "bitcoin")])) [("id", PStr "bitcoin")]
              eq_refl eq_refl eq_refl eq_refl eq_refl) as (Habsent & _ & _ & _ & Hsaid).
  split; [exact (Habsent eq_refl) | exact (Hsaid (Habsent eq_refl))].
Defined.

(** X13 where the pricing endpoint answers with an empty object. *)
Lemma price_missing_for_resolved_id_witness :
  outcome unpriced_provider (get_price example_config "bitcoin")
  = Raised (KeyError (PStr "bitcoin"))
  /\ outcome unpriced_provider (get_coin_price_tool example_config "bitcoin")
     = Raised (KeyError (PStr "bitcoin")).
Proof.
  destruct (price_missing_for_resolved_id example_config unpriced_provider "bitcoin" "bitcoin"
              (json_response 200 (PDict [])) [] eq_refl) as [Hmissing _].
  - discriminate.
  - reflexivity.
  - reflexivity.
  - reflexivity.
  - exact (Hmissing eq_refl).
Defined.

(** X14 where the first hit has no id and the second has one. *)
Lemma first_hit_wins_witness :
  outcome nameless_hit_provider (get_coingecko_id example_config "bitcoin" "coin")
  = Raised (KeyError (PStr "id")).
Proof.
  exact (first_hit_wins example_config nameless_hit_provider "bitcoin" "coin"
           (json_response 200 (PDict [("coins", PList [PDict [("name", PStr "Bitcoin")];
                                                  PDict [("id", PStr "bitcoin")]])]))
           [("coins", PList [PDict [("name", PStr "Bitcoin")]; PDict [("id", PStr "bitcoin")]])]
           (PDict [("name", PStr "Bitcoin")]) [PDict [("id", PStr "bitcoin")]]
           (or_introl eq_refl) eq_refl eq_refl eq_refl eq_refl).
Defined.

(** X15 where the search is answered 200 with a body that is no JSON. *)
Lemma request_exception_only_from_a_request_witness :
  exists r,
    In r (requests_of (trace undecodable_provider (get_price example_config "bitcoin")))
    /\ ((transport_failure (undecodable_provider r) = true
         /\ JSONDecodeError = transport_exn (undecodable_provider r))
        \/ (exists resp, undecodable_provider r = Responded resp
                         /\ is_error_status (status_code resp) = false
                         /\ json resp = Raised JSONDecodeError)).
Proof.
  exact (request_exception_only_from_a_request example_config undecodable_provider
           (Price "bitcoin") JSONDecodeError eq_refl eq_refl).
Defined.

(** X16 where the transactions request is answered 404: two records. *)
Lemma adapter_log_records_witness :
  logs_of (trace search_only_provider
             (get_transaction_history_tool example_config "0xabc" "ethereum"))
  = [("Failed to retrieve transaction history: ", HTTPError 404);
     ("Failed to retrieve transaction history: ", HTTPError 404)].
Proof.
  destruct (adapter_log_records example_config search_only_provider
              (TransactionHistory "0xabc" "ethereum")) as [_ Hbroad].
  exact (Hbroad (HTTPError 404) eq_refl eq_refl).
Defined.
